(** * Weekly notes plugin

    The plugin of [src/main.ts] (placeholder rewriting, template resolution,
    creation of the weekly note, templates for new daily notes), with the
    placeholder rewriting of the earlier revision of the same file, and what
    the written specification says about them. *)

From Stdlib Require Import ZArith NArith List String Ascii DecimalString Lia Bool.
From stdpp Require Import gmap.
Import ListNotations.

Local Open Scope N_scope.

(** ** JavaScript strings

    A JavaScript string is a sequence of UTF-16 code units.  Code units are
    kept as [N]; literals of the source are written with [js]. *)

Definition jsstring := list N.

Definition js (s : string) : jsstring :=
  map N_of_ascii (list_ascii_of_string s).

(** [LineTerminator] of ECMAScript: LF, CR, LS, PS. *)
Definition lineTerminator (c : N) : bool :=
  (c =? 10) || (c =? 13) || (c =? 8232) || (c =? 8233).

(** [WhiteSpace] and [LineTerminator] code units, the ones
    [String.prototype.trim] strips. *)
Definition isTrimSpace (c : N) : bool :=
  (c =? 9) || (c =? 10) || (c =? 11) || (c =? 12) || (c =? 13) || (c =? 32)
  || (c =? 160) || (c =? 5760) || ((8192 <=? c) && (c <=? 8202))
  || (c =? 8232) || (c =? 8233) || (c =? 8239) || (c =? 8287)
  || (c =? 12288) || (c =? 65279).

Fixpoint trimStart (s : jsstring) : jsstring :=
  match s with
  | c :: s' => if isTrimSpace c then trimStart s' else s
  | [] => []
  end.

(** [s.trim()] *)
Definition trim (s : jsstring) : jsstring :=
  rev (trimStart (rev (trimStart s))).

(** [s.toLowerCase()] on the ASCII letters.  It is only applied to the text
    captured by the weekday alternation, which consists of ASCII letters. *)
Definition toLowerCase (s : jsstring) : jsstring :=
  map (fun c => if (65 <=? c) && (c <=? 90) then c + 32 else c) s.

Definition jsstring_eqb (a b : list N) : bool := bool_decide (a = b).

(** JavaScript truthiness of a string: non-empty. *)
Definition truthy (s : jsstring) : bool :=
  match s with [] => false | _ => true end.

(** [arr.indexOf(x)], with [None] for [-1]. *)
Fixpoint indexOf (x : jsstring) (arr : list jsstring) : option nat :=
  match arr with
  | [] => None
  | y :: arr' => if jsstring_eqb y x then Some 0%nat
                 else option_map S (indexOf x arr')
  end.

(** ** Regular expressions

    The fragment of ECMAScript regular expressions the plugin uses, with the
    backtracking semantics of the language definition: a matcher takes the
    rest of the input, the captures so far and a continuation. The [i] flag
    is always on. *)

Module Regex.

Inductive regex : Type :=
| Eps                          (* the empty pattern *)
| Chr (c : N)                  (* a pattern character *)
| Dot                          (* [.] *)
| NotSet (cs : list N)         (* [[^...]] *)
| Seq (r1 r2 : regex)
| Alt (r1 r2 : regex)          (* [r1|r2] *)
| Star (r : regex)             (* greedy [r*] *)
| Group (i : nat) (r : regex). (* the [i]-th capturing parentheses *)

(** Pattern text without metacharacters. *)
Fixpoint Word (w : jsstring) : regex :=
  match w with
  | [] => Eps
  | c :: w' => Seq (Chr c) (Word w')
  end.

(** [Canonicalize] under the [i] flag without the [u] flag maps a code unit
    to its upper case, and never maps a code unit of 128 or more to one below
    128. The patterns here contain ASCII characters only, so a comparison
    with a pattern character depends only on the ASCII part, given here. *)
Definition canonicalize (c : N) : N :=
  if (97 <=? c) && (c <=? 122) then c - 32 else c.

(** The captures, the latest first. *)
Definition Captures := list (nat * jsstring).

Fixpoint capture (i : nat) (caps : Captures) : jsstring :=
  match caps with
  | [] => []
  | (j, s) :: caps' => if Nat.eqb i j then s else capture i caps'
  end.

Section Matcher.
Context {R : Type}.

Definition Cont := jsstring -> Captures -> option R.

Definition orElse (a b : option R) : option R :=
  match a with Some x => Some x | None => b end.

(** Greedy star: one more iteration of [step] first, which has to consume
    input, then the continuation. [n] bounds the number of iterations. *)
Fixpoint starLoop (step : jsstring -> Captures -> Cont -> option R)
    (k : Cont) (n : nat) (s : jsstring) (caps : Captures) : option R :=
  match n with
  | O => k s caps
  | S n' =>
      orElse
        (step s caps (fun s' caps' =>
           if (length s' <? length s)%nat
           then starLoop step k n' s' caps'
           else None))
        (k s caps)
  end.

Fixpoint m (r : regex) (s : jsstring) (caps : Captures) (k : Cont)
  {struct r} : option R :=
  match r with
  | Eps => k s caps
  | Chr p =>
      match s with
      | x :: s' => if canonicalize x =? canonicalize p then k s' caps else None
      | [] => None
      end
  | Dot =>
      match s with
      | x :: s' => if lineTerminator x then None else k s' caps
      | [] => None
      end
  | NotSet cs =>
      match s with
      | x :: s' =>
          if existsb (fun p => canonicalize x =? canonicalize p) cs
          then None else k s' caps
      | [] => None
      end
  | Seq r1 r2 => m r1 s caps (fun s' caps' => m r2 s' caps' k)
  | Alt r1 r2 => orElse (m r1 s caps k) (m r2 s caps k)
  | Star r1 => starLoop (m r1) k (length s) s caps
  | Group i r1 =>
      m r1 s caps (fun s' caps' =>
        k s' ((i, firstn (length s - length s') s) :: caps'))
  end.
End Matcher.

(** A match attempt at the start of [s]: the rest of the input after the
    match, and the captures. *)
Definition exec (r : regex) (s : jsstring) : option (jsstring * Captures) :=
  m r s [] (fun s' caps => Some (s', caps)).

(** The matches of a global [re] in [s], as [String.prototype.replace]
    collects them before it calls the replacer: the code units that are kept
    and the matches, from left to right. After an empty match the scan moves
    on by one code unit. *)
Inductive Piece : Type :=
| Kept (c : N)
| Matched (text : jsstring) (caps : Captures).

Fixpoint matchAllFrom (re : regex) (fuel : nat) (s : jsstring) : list Piece :=
  match fuel with
  | O => map Kept s
  | S fuel' =>
      match exec re s with
      | Some (rest, caps) =>
          match firstn (length s - length rest) s, s with
          | [], [] => [Matched [] caps]
          | [], c :: tl => Matched [] caps :: Kept c :: matchAllFrom re fuel' tl
          | text, _ => Matched text caps :: matchAllFrom re fuel' rest
          end
      | None =>
          match s with
          | [] => []
          | c :: tl => Kept c :: matchAllFrom re fuel' tl
          end
      end
  end.

Definition matchAll (re : regex) (s : jsstring) : list Piece :=
  matchAllFrom re (S (length s)) s.

(** [s.replace(re, replacer)] for a global [re] and a function [replacer],
    which receives the matched text and the captures and may update a state
    (the variables it closes over). *)
Section Replace.
Context {St : Type}.
Variable replacer : jsstring -> Captures -> St -> jsstring * St.

Fixpoint substitute (ps : list Piece) (st : St) : jsstring * St :=
  match ps with
  | [] => ([], st)
  | Kept c :: ps' =>
      let '(o, st') := substitute ps' st in (c :: o, st')
  | Matched text caps :: ps' =>
      let '(out, st1) := replacer text caps st in
      let '(o, st2) := substitute ps' st1 in (out ++ o, st2)
  end.

Definition replace (re : regex) (s : jsstring) (st : St) : jsstring * St :=
  substitute (matchAll re s) st.
End Replace.

End Regex.

Import Regex.

(** The array [days] of [replaceDatePlaceholders]. *)
Definition days : list jsstring :=
  [js "sunday"; js "monday"; js "tuesday"; js "wednesday"; js "thursday";
   js "friday"; js "saturday"].

(** The pattern of [replaceDatePlaceholders], with the flags [g] and [i]:
    the text [!{{], group 1 with the seven weekday names as alternatives, a
    colon, group 2 made of [.] and a greedy star of [[^}]], and the text
    [}}]. In a pattern without the [u] flag the braces stand for
    themselves. *)

Definition placeholderRe : regex :=
  Seq (Word (js "!{{"))
   (Seq (Group 1
          (Alt (Word (js "sunday")) (Alt (Word (js "monday"))
          (Alt (Word (js "tuesday")) (Alt (Word (js "wednesday"))
          (Alt (Word (js "thursday")) (Alt (Word (js "friday"))
               (Word (js "saturday")))))))))
   (Seq (Chr 58)
   (Seq (Group 2 (Seq Dot (Star (NotSet [125]))))
        (Word (js "}}"))))).

(** ** Dates (moment.js)

    A moment is a local calendar day, counted from 1970-01-01, and the time
    within that day. The plugin only moves moments by whole days. *)

Record Moment : Type := mkMoment { localDay : Z; timeOfDay : Z }.

(** [m.day()]: the day of the week, Sunday = 0 ... Saturday = 6
    (1970-01-01 was a Thursday). *)
Definition day (m : Moment) : Z := ((localDay m + 4) mod 7)%Z.

(** [m.day(i)]: moment.js adds [i - m.day()] days, so the result is the
    requested weekday of the Sunday-to-Saturday week of [m]. *)
Definition setDay (m : Moment) (i : Z) : Moment :=
  {| localDay := (localDay m + (i - day m))%Z; timeOfDay := timeOfDay m |}.

(** The proleptic Gregorian calendar of the JavaScript [Date] object:
    year, month (1..12) and day of the month of a day number. *)
Definition civilFromDays (z : Z) : Z * Z * Z :=
  (let z := z + 719468 in
   let era := z / 146097 in
   let doe := z - era * 146097 in
   let yoe := (doe - doe / 1460 + doe / 36524 - doe / 146096) / 365 in
   let doy := doe - (365 * yoe + yoe / 4 - yoe / 100) in
   let mp := (5 * doy + 2) / 153 in
   let d := doy - (153 * mp + 2) / 5 + 1 in
   let mo := if mp <? 10 then mp + 3 else mp - 9 in
   (yoe + era * 400 + (if mo <=? 2 then 1 else 0), mo, d))%Z.

Definition daysFromCivil (y mo d : Z) : Z :=
  (let y := if mo <=? 2 then y - 1 else y in
   let era := y / 400 in
   let yoe := y - era * 400 in
   let doy := (153 * (if 2 <? mo then mo - 3 else mo + 9) + 2) / 5 + d - 1 in
   let doe := yoe * 365 + yoe / 4 - yoe / 100 + doy in
   era * 146097 + doe - 719468)%Z.

Definition year (m : Moment) : Z := fst (fst (civilFromDays (localDay m))).
Definition month (m : Moment) : Z := snd (fst (civilFromDays (localDay m))).
Definition date (m : Moment) : Z := snd (civilFromDays (localDay m)).



(** Decimal digits of a non-negative number. *)
Definition decimal (n : Z) : jsstring :=
  js (DecimalString.NilZero.string_of_uint (N.to_uint (Z.to_N n))).

(** [zeroFill(number, targetLength)] of moment.js, without a forced sign. *)
Definition zeroFill (number : Z) (targetLength : nat) : jsstring :=
  let absNumber := decimal (Z.abs number) in
  (if (0 <=? number)%Z then [] else js "-")
  ++ repeat 48 (targetLength - length absNumber) ++ absNumber.

(** *** Formatting

    [momentFormat] follows the tokenizer of moment.js on the format strings
    made of: the tokens [YYYY], [MM] and [DD]; texts in square brackets,
    copied without the brackets; and code units that are neither ASCII
    letters, nor a bracket opening, nor a backslash, nor line terminators,
    copied as they are. It is [None] on every other format string (names,
    times, weeks, ordinals, escapes and locale formats are left out). *)

Definition isAsciiLetter (c : N) : bool :=
  ((65 <=? c) && (c <=? 90)) || ((97 <=? c) && (c <=? 122)).

Definition isPlainFormatChar (c : N) : bool :=
  negb (isAsciiLetter c || (c =? 91) || (c =? 92) || lineTerminator c).

(** The run of [c] at the start of [s], and what follows it. *)
Fixpoint spanChar (c : N) (s : jsstring) : nat * jsstring :=
  match s with
  | x :: s' => if x =? c then let '(n, r) := spanChar c s' in (S n, r)
               else (O, s)
  | [] => (O, [])
  end.

(** For the text after a bracket opening: the bracketed text and what
    follows its closing bracket, which is the last closing bracket before
    the next opening one. *)
Fixpoint bracketed (s : jsstring) : option (jsstring * jsstring) :=
  match s with
  | [] => None
  | x :: s' =>
      if x =? 91 then None
      else match bracketed s' with
           | Some (lit, rest) => Some (x :: lit, rest)
           | None => if x =? 93 then Some ([], s') else None
           end
  end.

Fixpoint momentFormatFrom (fuel : nat) (m : Moment) (f : jsstring)
  : option jsstring :=
  match fuel with
  | O => match f with [] => Some [] | _ => None end
  | S fuel' =>
      match f with
      | [] => Some []
      | c :: f' =>
          if c =? 91 then
            match bracketed f' with
            | Some (lit, rest) =>
                option_map (app lit) (momentFormatFrom fuel' m rest)
            | None => None
            end
          else if (c =? 89) || (c =? 77) || (c =? 68) then
            let '(n, rest) := spanChar c f in
            let field :=
              if c =? 89 then
                if Nat.eqb n 4 then Some (zeroFill (year m) 4) else None
              else if c =? 77 then
                if Nat.eqb n 2 then Some (zeroFill (month m) 2) else None
              else
                if Nat.eqb n 2 then Some (zeroFill (date m) 2) else None in
            match field with
            | Some out => option_map (app out) (momentFormatFrom fuel' m rest)
            | None => None
            end
          else if isPlainFormatChar c then
            option_map (cons c) (momentFormatFrom fuel' m f')
          else None
      end
  end.

Definition momentFormat (m : Moment) (f : jsstring) : option jsstring :=
  match f with
  | [] => None (* the default format, with time and zone *)
  | _ => momentFormatFrom (length f) m f
  end.

(** ** The host application (Obsidian)

    The part of the host the plugin talks to: the vault, the two core
    plugins, the editor of the active Markdown view, the timers, and a trace
    of the calls that the plugin has made and the host has accepted, in
    their order. [console.log] and its like are left out. *)

Inductive Entry : Type :=
| EFile (data : jsstring)   (* a [TFile] and what [vault.read] returns *)
| EFolder.                  (* a [TFolder] *)

(** The argument of the [create] event: a [TAbstractFile]. *)
Record TFile : Type := mkTFile {
  path : jsstring;
  basename : jsstring;
  extension : jsstring;
  stat_size : N;
  parent : option jsstring   (* [file.parent.path], when there is a parent *)
}.

Inductive TAbstractFile : Type :=
| IsFile (f : TFile)
| IsFolder (p : jsstring).

(** The daily notes core plugin as the plugin sees it:
    [dailyNotesPlugin.enabled] and [dailyNotesPlugin.instance.options]. A
    field of the options that is [undefined] and one that holds the empty
    string are used in the same way by the plugin (both are falsy), so both
    are the empty string here. *)
Module Daily.
Record Options : Type := mkOptions {
  format : jsstring;
  folder : jsstring;
  template : jsstring
}.

Record Plugin : Type := mkPlugin {
  enabled : bool;
  options : Options
}.
End Daily.

Inductive Notice : Type :=
| CreatedWeeklyNote (filename : jsstring)
| FailedToOpen (error : jsstring)
| TemplateNotFound (template : jsstring)
| RawTemplateApplied.

Definition noticeText (n : Notice) : jsstring :=
  match n with
  | CreatedWeeklyNote filename => js "Created weekly note: " ++ filename
  | FailedToOpen error => js "Failed to open weekly note: " ++ error
  | TemplateNotFound t => js "Template file not found: " ++ t
  | RawTemplateApplied =>
      js "Core Templates plugin not enabled. Applied raw template."
  end.

(** What a [setTimeout] callback of the plugin does when it fires. *)
Inductive Task : Type :=
| ReplacePlaceholders (d : Moment)
| InsertDailyTemplate (templatePath : jsstring).

Inductive Call : Type :=
| Lookup (p : jsstring)              (* [vault.getAbstractFileByPath(p)] *)
| NewNotice (n : Notice)
| CreateFolder (p : jsstring)
| Create (p : jsstring) (data : jsstring)
| OpenFile (p : jsstring)
| InsertTemplate (p : jsstring)
| Read (p : jsstring)
| Modify (p : jsstring) (data : jsstring)
| SetValue (content : jsstring)
| SetTimeout (t : Task) (delay : N).

Record App : Type := mkApp {
  vault : gmap (list N) Entry;      (* what is at each path *)
  dailyNotes : option Daily.Plugin; (* [getPluginById('daily-notes')] *)
  templates : option bool;          (* [getPluginById('templates')?.enabled] *)
  activeView : option (jsstring * jsstring);
    (* [getActiveViewOfType(MarkdownView)]: its file and [editor.getValue()] *)
  timers : list (N * Task);         (* pending [setTimeout] callbacks *)
  trace : list Call
}.

Record WeeklyNotesSettings : Type := mkSettings {
  folder : jsstring;
  template : jsstring;
  dateFormat : jsstring
}.

Definition DEFAULT_SETTINGS : WeeklyNotesSettings :=
  {| folder := []; template := []; dateFormat := js "gggg-[W]ww" |}.

(** Computations on the host: they change the state and return a value or
    throw. The state reached when an exception is thrown is kept. *)
Definition M (A : Type) : Type := App -> App * (A + jsstring).

Definition ret {A} (a : A) : M A := fun h => (h, inl a).
Definition throw {A} (e : jsstring) : M A := fun h => (h, inr e).
Definition bind {A B} (c : M A) (f : A -> M B) : M B :=
  fun h => match c h with
           | (h', inl a) => f a h'
           | (h', inr e) => (h', inr e)
           end.
Definition tryCatch {A} (c : M A) (handler : jsstring -> M A) : M A :=
  fun h => match c h with
           | (h', inl a) => (h', inl a)
           | (h', inr e) => handler e h'
           end.
Definition gets {A} (f : App -> A) : M A := fun h => (h, inl (f h)).

Notation "x <- c ;; k" := (bind c (fun x => k))
  (at level 100, c at next level, right associativity).
Notation "c ;;; k" := (bind c (fun _ => k))
  (at level 100, right associativity).

Definition withVault (v : gmap (list N) Entry) (h : App) : App :=
  mkApp v (dailyNotes h) (templates h) (activeView h) (timers h) (trace h).
Definition withActiveView (a : option (jsstring * jsstring)) (h : App) : App :=
  mkApp (vault h) (dailyNotes h) (templates h) a (timers h) (trace h).
Definition withTimers (t : list (N * Task)) (h : App) : App :=
  mkApp (vault h) (dailyNotes h) (templates h) (activeView h) t (trace h).
Definition logged (c : Call) (h : App) : App :=
  mkApp (vault h) (dailyNotes h) (templates h) (activeView h) (timers h)
        (trace h ++ [c]).

(** ** The plugin *)

Section Plugin.

(** [m.format(f)] of moment.js, where the call returns; [format_exn] below
    has the call with its exception. *)
Variable mformat : Moment -> jsstring -> jsstring.
(** [moment(name, f, true).isValid()]: strict parsing of [name]. *)
Variable strictValid : jsstring -> jsstring -> bool.
(** [normalizePath] of the host. *)
Variable normalizePath : jsstring -> jsstring.
(** The exception, if any, with which the host rejects a call. *)
Variable hostError : App -> Call -> option jsstring.
(** The text the Templates core plugin makes of the editor content when
    it inserts a template. *)
Variable insertion : jsstring -> jsstring -> jsstring.

(** What a call changes once the host has accepted it: creating and
    modifying write to the vault, opening a file shows it in the active
    view, the Templates plugin and [editor.setValue] change the content of
    the editor, [setTimeout] adds a timer. *)
Definition effect (c : Call) (h : App) : App :=
  match c with
  | Lookup _ | NewNotice _ | Read _ => h
  | CreateFolder p => withVault (<[p := EFolder]> (vault h)) h
  | Create p data => withVault (<[p := EFile data]> (vault h)) h
  | OpenFile p =>
      match vault h !! p with
      | Some (EFile d) => withActiveView (Some (p, d)) h
      | _ => h
      end
  | InsertTemplate t =>
      match activeView h, vault h !! t with
      | Some (p, c), Some (EFile td) =>
          withActiveView (Some (p, insertion td c)) h
      | _, _ => h
      end
  | Modify p data =>
      let h' := withVault (<[p := EFile data]> (vault h)) h in
      match activeView h with
      | Some (q, _) =>
          if jsstring_eqb q p then withActiveView (Some (q, data)) h' else h'
      | None => h'
      end
  | SetValue c =>
      match activeView h with
      | Some (p, _) => withActiveView (Some (p, c)) h
      | None => h
      end
  | SetTimeout t delay => withTimers (timers h ++ [(delay, t)]) h
  end.

(** Lookups, notices, timers and [editor.setValue] do not throw; the vault
    rejects creating what exists already; otherwise the host decides. *)
Definition rejected (h : App) (c : Call) : option jsstring :=
  match c with
  | Lookup _ | NewNotice _ | SetValue _ | SetTimeout _ _ => None
  | CreateFolder p =>
      match vault h !! p with
      | Some _ => Some (js "Folder already exists.")
      | None => hostError h c
      end
  | Create p _ =>
      match vault h !! p with
      | Some _ => Some (js "File already exists.")
      | None => hostError h c
      end
  | _ => hostError h c
  end.

Definition call (c : Call) : M unit :=
  fun h => match rejected h c with
           | Some e => (h, inr e)
           | None => (effect c (logged c h), inl tt)
           end.

(** [this.app.vault.getAbstractFileByPath(p)] *)
Definition getAbstractFileByPath (p : jsstring) : M (option Entry) :=
  call (Lookup p) ;;;
  gets (fun h => vault h !! p).

(** [this.app.vault.read(file)] *)
Definition vaultRead (p : jsstring) : M jsstring :=
  call (Read p) ;;;
  e <- gets (fun h => vault h !! p) ;;
  match e with
  | Some (EFile data) => ret data
  | _ => throw (js "File not found.")
  end.

(** [a || b] on strings *)
Definition orString (a b : jsstring) : jsstring :=
  if truthy a then a else b.

(** [getDailyNoteLink(date)], in the runs in which [date.format] returns;
    [getDailyNoteLink_exn] below has all its runs. *)
Definition getDailyNoteLink (h : App) (d : Moment) : option jsstring :=
  match dailyNotes h with
  | None => None
  | Some dailyNotesPlugin =>
      if negb (Daily.enabled dailyNotesPlugin) then None
      else
        let settings := Daily.options dailyNotesPlugin in
        let dailyFormat := orString (Daily.format settings) (js "YYYY-MM-DD") in
        let dailyFolder := orString (Daily.folder settings) [] in
        let dateString := mformat d dailyFormat in
        if truthy dailyFolder
        then Some (dailyFolder ++ js "/" ++ dateString)
        else Some dateString
  end.

(** The function given to [content.replace]; the state is the variable
    [modified]. *)
Definition replacer (h : App) (d : Moment)
    (matched : jsstring) (caps : Captures) (modified : bool)
  : jsstring * bool :=
  let dayName := capture 1 caps in
  let fmt := capture 2 caps in
  match indexOf (toLowerCase dayName) days with
  | None => (matched, modified)
  | Some dayIndex =>
      let targetDate := setDay d (Z.of_nat dayIndex) in
      if jsstring_eqb (trim fmt) (js "daily-note") then
        (match getDailyNoteLink h targetDate with
         | Some link =>
             if truthy link then link
             else mformat targetDate (js "YYYY-MM-DD")
         | None => mformat targetDate (js "YYYY-MM-DD")
         end, true)
      else (mformat targetDate fmt, true)
  end.

(** The text and the flag [modified] after [content.replace(...)]. *)
Definition rewrite (h : App) (d : Moment) (content : jsstring)
  : jsstring * bool :=
  replace (replacer h d) placeholderRe content false.

(** [replaceDatePlaceholders(date)], in the runs in which the formatter
    returns; [replaceDatePlaceholders_exn] below has all its runs. *)
Definition replaceDatePlaceholders (d : Moment) : M unit :=
  h <- gets id ;;
  match activeView h with
  | None => ret tt
  | Some (_, content) =>
      let '(content', modified) := rewrite h d content in
      if modified then call (SetValue content') else ret tt
  end.

(** The same step as the earlier revision of the file has it, inside the
    timer callback of its [openWeeklyNote]. *)
Definition replacer_v0 (h : App) (d : Moment)
    (matched : jsstring) (caps : Captures) (modified : bool)
  : jsstring * bool :=
  let dayName := capture 1 caps in
  let fmt := capture 2 caps in
  match indexOf (toLowerCase dayName) days with
  | Some dayIndex =>
      let targetDate := setDay d (Z.of_nat dayIndex) in
      if jsstring_eqb (trim fmt) (js "daily-note") then
        match dailyNotes h with
        | Some dailyNotesPlugin =>
            if Daily.enabled dailyNotesPlugin then
              let settings := Daily.options dailyNotesPlugin in
              let dailyFormat := orString (Daily.format settings) (js "YYYY-MM-DD") in
              let dailyFolder := orString (Daily.folder settings) [] in
              let dateString := mformat targetDate dailyFormat in
              if truthy dailyFolder
              then (dailyFolder ++ js "/" ++ dateString, true)
              else (dateString, true)
            else (mformat targetDate (js "YYYY-MM-DD"), true)
        | None => (mformat targetDate (js "YYYY-MM-DD"), true)
        end
      else (mformat targetDate fmt, true)
  | None => (matched, true)
  end.

Definition rewrite_v0 (h : App) (d : Moment) (content : jsstring)
  : jsstring * bool :=
  replace (replacer_v0 h d) placeholderRe content false.

Definition replaceDatePlaceholders_v0 (d : Moment) : M unit :=
  h <- gets id ;;
  match activeView h with
  | Some (_, content) =>
      let '(content', modified) := rewrite_v0 h d content in
      if modified then call (SetValue content') else ret tt
  | None => ret tt
  end.

Variable settings : WeeklyNotesSettings.

(** [ensureFolderExists(folder)] *)
Definition ensureFolderExists (folder : jsstring) : M unit :=
  let normalizedFolder := normalizePath folder in
  if negb (truthy normalizedFolder) || jsstring_eqb normalizedFolder (js "/")
  then ret tt
  else
    folderExists <- getAbstractFileByPath normalizedFolder ;;
    match folderExists with
    | Some _ => ret tt
    | None => tryCatch (call (CreateFolder normalizedFolder))
                       (fun _ => ret tt)
    end.

(** [applyTemplate(file, date)]; [file] is given by its path. *)
Definition applyTemplate (file : jsstring) (d : Moment) : M unit :=
  let templatePath := normalizePath (template settings) in
  templateFile <- getAbstractFileByPath templatePath ;;
  found <-
    match templateFile with
    | Some e => ret (templatePath, Some e)
    | None =>
        let templatePath := normalizePath (template settings ++ js ".md") in
        templateFile <- getAbstractFileByPath templatePath ;;
        ret (templatePath, templateFile)
    end ;;
  match found with
  | (_, None) => call (NewNotice (TemplateNotFound (template settings)))
  | (_, Some EFolder) => ret tt
  | (templatePath, Some (EFile _)) =>
      templatesPlugin <- gets templates ;;
      match templatesPlugin with
      | Some true => call (InsertTemplate templatePath)
      | _ =>
          content <- vaultRead templatePath ;;
          call (Modify file content) ;;;
          call (NewNotice RawTemplateApplied)
      end ;;;
      call (SetTimeout (ReplacePlaceholders d) 100)
  end.

(** [openWeeklyNote(date)], in the runs in which [date.format] returns;
    [openWeeklyNote_exn] below has all its runs. *)
Definition openWeeklyNote (d : Moment) : M unit :=
  tryCatch
    (let filename := mformat d (dateFormat settings) in
     let folder := folder settings in
     let path := normalizePath (folder ++ js "/" ++ filename ++ js ".md") in
     file <- getAbstractFileByPath path ;;
     fc <-
       match file with
       | Some e => ret (e, false)
       | None =>
           ensureFolderExists folder ;;;
           call (Create path []) ;;;
           call (NewNotice (CreatedWeeklyNote filename)) ;;;
           ret (EFile [], true)
       end ;;
     match fc with
     | (EFolder, _) => ret tt
     | (EFile _, created) =>
         call (OpenFile path) ;;;
         if created && truthy (template settings)
         then applyTemplate path d
         else ret tt
     end)
    (fun error => call (NewNotice (FailedToOpen error))).

(** [onFileCreate(file)], the handler of the vault's [create] event. *)
Definition onFileCreate (file : TAbstractFile) : M unit :=
  match file with
  | IsFolder _ => ret tt
  | IsFile f =>
      if negb (jsstring_eqb (extension f) (js "md")) || (0 <? stat_size f)
      then ret tt
      else
        dailyNotesPlugin <- gets dailyNotes ;;
        match dailyNotesPlugin with
        | None => ret tt
        | Some dn =>
            if negb (Daily.enabled dn) then ret tt
            else
              let settings := Daily.options dn in
              let dailyFormat := orString (Daily.format settings) (js "YYYY-MM-DD") in
              let dailyFolder := orString (Daily.folder settings) [] in
              let templatePath := Daily.template settings in
              if negb (truthy templatePath) then ret tt
              else if negb (strictValid (basename f) dailyFormat) then ret tt
              else if truthy dailyFolder
                      && match parent f with
                         | None => true
                         | Some pp =>
                             negb (jsstring_eqb pp (normalizePath dailyFolder))
                         end
              then ret tt
              else
                let withMd := normalizePath (templatePath ++ js ".md") in
                let literal := normalizePath templatePath in
                first <- getAbstractFileByPath withMd ;;
                found <-
                  match first with
                  | Some e => ret (withMd, Some e)
                  | None =>
                      second <- getAbstractFileByPath literal ;;
                      ret (literal, second)
                  end ;;
                match found with
                | (templateFile, Some (EFile _)) =>
                    templatesPlugin <- gets templates ;;
                    match templatesPlugin with
                    | Some true =>
                        call (SetTimeout (InsertDailyTemplate templateFile) 200)
                    | _ => ret tt
                    end
                | _ => ret tt
                end
        end
  end.

(** A timer firing. *)
Definition runTask (t : Task) : M unit :=
  match t with
  | ReplacePlaceholders d => replaceDatePlaceholders d
  | InsertDailyTemplate templateFile => call (InsertTemplate templateFile)
  end.

End Plugin.

(** ** The commands, the earlier revision and the settings *)

(** [m.add(n, 'week')] of moment.js: the same time of day, [7 * n] days
    later. *)
Definition addWeeks (m : Moment) (n : Z) : Moment :=
  {| localDay := localDay m + 7 * n; timeOfDay := timeOfDay m |}.

Section Commands.

Variable mformat : Moment -> jsstring -> jsstring.
Variable strictValid : jsstring -> jsstring -> bool.
Variable normalizePath : jsstring -> jsstring.
Variable hostError : App -> Call -> option jsstring.
Variable insertion : jsstring -> jsstring -> jsstring.
Variable settings : WeeklyNotesSettings.

(** [openNextWeeklyNote()]; [now] is what [moment()] returns. *)
Definition openNextWeeklyNote (now : Moment) : M unit :=
  let nextWeek := addWeeks now 1 in
  openWeeklyNote mformat normalizePath hostError insertion settings nextWeek.

(** The handler of the [create] event in the earlier revision, written
    inside its [onload]. *)
Definition onFileCreate_v0 (file : TAbstractFile) : M unit :=
  match file with
  | IsFolder _ => ret tt
  | IsFile f =>
      if negb (jsstring_eqb (extension f) (js "md")) || (0 <? stat_size f)
      then ret tt
      else
        dailyNotesPlugin <- gets dailyNotes ;;
        match dailyNotesPlugin with
        | Some dn =>
            if Daily.enabled dn then
              let settings := Daily.options dn in
              let dailyFormat := orString (Daily.format settings) (js "YYYY-MM-DD") in
              let dailyFolder := orString (Daily.folder settings) [] in
              let templatePath := Daily.template settings in
              if negb (truthy templatePath) then ret tt
              else if negb (strictValid (basename f) dailyFormat) then ret tt
              else if truthy dailyFolder
                      && match parent f with
                         | None => true
                         | Some pp =>
                             negb (jsstring_eqb pp (normalizePath dailyFolder))
                         end
              then ret tt
              else
                let withMd := normalizePath (templatePath ++ js ".md") in
                let literal := normalizePath templatePath in
                first <- getAbstractFileByPath hostError insertion withMd ;;
                found <-
                  match first with
                  | Some e => ret (withMd, Some e)
                  | None =>
                      second <- getAbstractFileByPath hostError insertion literal ;;
                      ret (literal, second)
                  end ;;
                match found with
                | (templateFile, Some (EFile _)) =>
                    templatesPlugin <- gets templates ;;
                    match templatesPlugin with
                    | Some true =>
                        call hostError insertion
                          (SetTimeout (InsertDailyTemplate templateFile) 200)
                    | _ => ret tt
                    end
                | _ => ret tt
                end
            else ret tt
        | None => ret tt
        end
  end.

(** A call whose promise is not awaited: the call is made, and a rejection
    is not seen by the code around it. *)
Definition notAwaited (c : M unit) : M unit :=
  tryCatch c (fun _ => ret tt).

(** The part of [openWeeklyNote] that applies the template in the earlier
    revision, where it is written inside the function. *)
Definition applyTemplate_v0 (file : jsstring) (d : Moment) : M unit :=
  let templatePath := normalizePath (template settings) in
  templateFile <- getAbstractFileByPath hostError insertion templatePath ;;
  found <-
    match templateFile with
    | Some e => ret (templatePath, Some e)
    | None =>
        let templatePath := normalizePath (template settings ++ js ".md") in
        templateFile <- getAbstractFileByPath hostError insertion templatePath ;;
        ret (templatePath, templateFile)
    end ;;
  match found with
  | (templatePath, Some (EFile _)) =>
      templatesPlugin <- gets templates ;;
      match templatesPlugin with
      | Some true => call hostError insertion (InsertTemplate templatePath)
      | _ =>
          content <- vaultRead hostError insertion templatePath ;;
          notAwaited (call hostError insertion (Modify file content)) ;;;
          call hostError insertion (NewNotice RawTemplateApplied)
      end ;;;
      call hostError insertion (SetTimeout (ReplacePlaceholders d) 100)
  | _ => call hostError insertion (NewNotice (TemplateNotFound (template settings)))
  end.

(** [openWeeklyNote()] of the earlier revision; [now] is what [moment()]
    returns. *)
Definition openWeeklyNote_v0 (now : Moment) : M unit :=
  tryCatch
    (let date := now in
     let filename := mformat date (dateFormat settings) in
     let folder := folder settings in
     let normalizedFolder := normalizePath folder in
     let path := normalizePath (folder ++ js "/" ++ filename ++ js ".md") in
     file <- getAbstractFileByPath hostError insertion path ;;
     fc <-
       match file with
       | Some e => ret (e, false)
       | None =>
           (if truthy normalizedFolder
               && negb (jsstring_eqb normalizedFolder (js "/"))
            then
              folderExists <-
                getAbstractFileByPath hostError insertion normalizedFolder ;;
              match folderExists with
              | Some _ => ret tt
              | None =>
                  tryCatch (call hostError insertion (CreateFolder normalizedFolder))
                           (fun _ => ret tt)
              end
            else ret tt) ;;;
           call hostError insertion (Create path []) ;;;
           call hostError insertion (NewNotice (CreatedWeeklyNote filename)) ;;;
           ret (EFile [], true)
       end ;;
     match fc with
     | (EFile _, created) =>
         call hostError insertion (OpenFile path) ;;;
         if created && truthy (template settings)
         then applyTemplate_v0 path date
         else ret tt
     | (EFolder, _) => ret tt
     end)
    (fun error => call hostError insertion (NewNotice (FailedToOpen error))).

End Commands.

(** The settings are kept in the data file of the plugin. [Saved.Data] is
    the object that [loadData] resolves to when there is a data file, with
    the keys of the settings that it has; the values are strings. *)
Module Saved.
Record Data : Type := mkData {
  folder : option jsstring;
  template : option jsstring;
  dateFormat : option jsstring
}.
End Saved.

(** The plugin object as far as the settings go: [this.settings] and the
    data file. *)
Record PluginObject : Type := mkPluginObject {
  this_settings : WeeklyNotesSettings;
  dataFile : option Saved.Data
}.

(** [Object.assign(target, source)]: the keys of [source] are written over
    those of [target]; a [null] source is skipped. *)
Definition objectAssign (target : WeeklyNotesSettings)
    (source : option Saved.Data) : WeeklyNotesSettings :=
  match source with
  | None => target
  | Some o =>
      {| folder := default (folder target) (Saved.folder o);
         template := default (template target) (Saved.template o);
         dateFormat := default (dateFormat target) (Saved.dateFormat o) |}
  end.

(** [loadSettings()] *)
Definition loadSettings (this : PluginObject) : PluginObject :=
  {| this_settings := objectAssign DEFAULT_SETTINGS (dataFile this);
     dataFile := dataFile this |}.

(** What [onload] registers with the host: the callback of the ribbon
    icon, the handler of a protocol action, the commands by their ids, and
    the handler of the [create] event of the vault. A callback of the first
    three kinds is run with [this.settings] and with what [moment()] returns
    at the time of the call. *)
Definition Callback : Type := WeeklyNotesSettings -> Moment -> M unit.

Record Registered : Type := mkRegistered {
  ribbonIcon : Callback;
  protocolHandler : jsstring * Callback;
  commands : list (jsstring * Callback);
  vaultCreate : TAbstractFile -> M unit
}.

Section Onload.
Variable mformat : Moment -> jsstring -> jsstring.
Variable strictValid : jsstring -> jsstring -> bool.
Variable normalizePath : jsstring -> jsstring.
Variable hostError : App -> Call -> option jsstring.
Variable insertion : jsstring -> jsstring -> jsstring.

(** [onload()]: the settings are loaded, then the callbacks are
    registered (the settings tab is left out). *)
Definition onload (this : PluginObject) : PluginObject * Registered :=
  let this := loadSettings this in
  (this,
   {| ribbonIcon := fun settings now =>
        openWeeklyNote mformat normalizePath hostError insertion settings now;
      protocolHandler :=
        (js "weekly",
         fun settings now =>
           openWeeklyNote mformat normalizePath hostError insertion settings now);
      commands :=
        [(js "open-weekly-note",
          fun settings now =>
            openWeeklyNote mformat normalizePath hostError insertion settings now);
         (js "open-next-weekly-note",
          fun settings now =>
            openNextWeeklyNote mformat normalizePath hostError insertion
              settings now)];
      vaultCreate :=
        onFileCreate strictValid normalizePath hostError insertion |}).
End Onload.

(** ** The exception of [format]

    [m.format(f)] of moment.js does not return for every format: when [f] is
    not empty and consists of line terminators only, no token of the format
    matches, [format.match(formattingTokens)] is [null], and reading its
    [length] throws a [TypeError]. The functions above take the formatter to
    return. Here are the calls of the formatter with that exception and, with
    the suffix [_exn], the functions of the plugin that reach them, written
    as above otherwise. *)

Definition formatThrows (f : jsstring) : bool :=
  truthy f && forallb lineTerminator f.

(** [s.replace(re, replacer)] for a replacer that can throw: the matches are
    replaced from left to right, and the first exception ends the call. *)
Fixpoint substitute_exn {St : Type}
    (replacer : jsstring -> Captures -> St -> (jsstring * St) + jsstring)
    (ps : list Piece) (st : St) : (jsstring * St) + jsstring :=
  match ps with
  | [] => inl ([], st)
  | Kept c :: ps' =>
      match substitute_exn replacer ps' st with
      | inl (o, st') => inl (c :: o, st')
      | inr e => inr e
      end
  | Matched text caps :: ps' =>
      match replacer text caps st with
      | inl (out, st1) =>
          match substitute_exn replacer ps' st1 with
          | inl (o, st2) => inl (out ++ o, st2)
          | inr e => inr e
          end
      | inr e => inr e
      end
  end.

Section Exceptions.
Variable mformat : Moment -> jsstring -> jsstring.
(** The [TypeError], as the text that it has in a template literal. *)
Variable typeError : jsstring.
Variable normalizePath : jsstring -> jsstring.
Variable hostError : App -> Call -> option jsstring.
Variable insertion : jsstring -> jsstring -> jsstring.

(** [m.format(f)] *)
Definition format_exn (m : Moment) (f : jsstring) : jsstring + jsstring :=
  if formatThrows f then inr typeError else inl (mformat m f).

(** [getDailyNoteLink(date)] *)
Definition getDailyNoteLink_exn (h : App) (d : Moment)
  : option jsstring + jsstring :=
  match dailyNotes h with
  | None => inl None
  | Some dailyNotesPlugin =>
      if negb (Daily.enabled dailyNotesPlugin) then inl None
      else
        let settings := Daily.options dailyNotesPlugin in
        let dailyFormat := orString (Daily.format settings) (js "YYYY-MM-DD") in
        let dailyFolder := orString (Daily.folder settings) [] in
        match format_exn d dailyFormat with
        | inr e => inr e
        | inl dateString =>
            if truthy dailyFolder
            then inl (Some (dailyFolder ++ js "/" ++ dateString))
            else inl (Some dateString)
        end
  end.

(** The text that a call of the formatter returns, with the flag
    [modified], which is set before the call. *)
Definition withFlag (r : jsstring + jsstring) : (jsstring * bool) + jsstring :=
  match r with
  | inl s => inl (s, true)
  | inr e => inr e
  end.

(** The function given to [content.replace]. *)
Definition replacer_exn (h : App) (d : Moment)
    (matched : jsstring) (caps : Captures) (modified : bool)
  : (jsstring * bool) + jsstring :=
  let dayName := capture 1 caps in
  let fmt := capture 2 caps in
  match indexOf (toLowerCase dayName) days with
  | None => inl (matched, modified)
  | Some dayIndex =>
      let targetDate := setDay d (Z.of_nat dayIndex) in
      if jsstring_eqb (trim fmt) (js "daily-note") then
        match getDailyNoteLink_exn h targetDate with
        | inr e => inr e
        | inl (Some link) =>
            if truthy link then inl (link, true)
            else withFlag (format_exn targetDate (js "YYYY-MM-DD"))
        | inl None => withFlag (format_exn targetDate (js "YYYY-MM-DD"))
        end
      else withFlag (format_exn targetDate fmt)
  end.

Definition rewrite_exn (h : App) (d : Moment) (content : jsstring)
  : (jsstring * bool) + jsstring :=
  substitute_exn (replacer_exn h d) (matchAll placeholderRe content) false.

(** [replaceDatePlaceholders(date)] *)
Definition replaceDatePlaceholders_exn (d : Moment) : M unit :=
  h <- gets id ;;
  match activeView h with
  | None => ret tt
  | Some (_, content) =>
      match rewrite_exn h d content with
      | inr e => throw e
      | inl (content', modified) =>
          if modified then call hostError insertion (SetValue content')
          else ret tt
      end
  end.

(** A timer firing. *)
Definition runTask_exn (t : Task) : M unit :=
  match t with
  | ReplacePlaceholders d => replaceDatePlaceholders_exn d
  | InsertDailyTemplate templateFile =>
      call hostError insertion (InsertTemplate templateFile)
  end.

Variable settings : WeeklyNotesSettings.

(** [openWeeklyNote(date)] *)
Definition openWeeklyNote_exn (d : Moment) : M unit :=
  tryCatch
    (match format_exn d (dateFormat settings) with
     | inr e => throw e
     | inl filename =>
         let folder := folder settings in
         let path := normalizePath (folder ++ js "/" ++ filename ++ js ".md") in
         file <- getAbstractFileByPath hostError insertion path ;;
         fc <-
           match file with
           | Some e => ret (e, false)
           | None =>
               ensureFolderExists normalizePath hostError insertion folder ;;;
               call hostError insertion (Create path []) ;;;
               call hostError insertion (NewNotice (CreatedWeeklyNote filename)) ;;;
               ret (EFile [], true)
           end ;;
         match fc with
         | (EFolder, _) => ret tt
         | (EFile _, created) =>
             call hostError insertion (OpenFile path) ;;;
             if created && truthy (template settings)
             then applyTemplate normalizePath hostError insertion settings path d
             else ret tt
         end
     end)
    (fun error => call hostError insertion (NewNotice (FailedToOpen error))).

End Exceptions.

(** The daily notes are enabled with a format on which the formatter
    throws. *)
Definition dailyFormatThrows (h : App) : bool :=
  match dailyNotes h with
  | Some dn =>
      Daily.enabled dn
      && formatThrows (orString (Daily.format (Daily.options dn)) (js "YYYY-MM-DD"))
  | None => false
  end.

(** A match whose format text is [daily-note] once trimmed. *)
Definition isDailyNotePiece (p : Piece) : bool :=
  match p with
  | Kept _ => false
  | Matched _ caps => jsstring_eqb (trim (capture 2 caps)) (js "daily-note")
  end.

(** ** Describing the tokens *)

(** Removing a prefix that equals [w] up to the case of ASCII letters. *)
Fixpoint stripCI (w s : jsstring) : option jsstring :=
  match w with
  | [] => Some s
  | p :: w' =>
      match s with
      | x :: s' => if canonicalize x =? canonicalize p then stripCI w' s' else None
      | [] => None
      end
  end.

(** Equal up to the case of ASCII letters. *)
Definition ciEq (a b : jsstring) : Prop :=
  map canonicalize a = map canonicalize b.

(** The text before the first [}], and the text from it on. *)
Fixpoint untilBrace (s : jsstring) : jsstring * jsstring :=
  match s with
  | x :: s' => if x =? 125 then ([], s)
               else let '(run, rest) := untilBrace s' in (x :: run, rest)
  | [] => ([], [])
  end.

(** What the pattern captures: a weekday name in any letter case, and a
    text that starts with a code unit other than a line terminator and has
    no [}] after it. *)
Definition IsDayName (name : jsstring) : Prop :=
  exists w, In w days /\ ciEq name w.

Definition IsSpec (spec : jsstring) : Prop :=
  exists c run, spec = c :: run /\ lineTerminator c = false
                /\ Forall (fun x => x <> 125) run.

Definition tokenText (name spec : jsstring) : jsstring :=
  js "!{{" ++ name ++ js ":" ++ spec ++ js "}}".

(** The match attempt of the pattern written out without backtracking, to
    be compared with [exec placeholderRe]: what follows the weekday name, ... *)
Definition afterName (name s2 : jsstring) : option (jsstring * Captures) :=
  match s2 with
  | x :: c0 :: s4 =>
      if x =? 58 then
        if lineTerminator c0 then None
        else
          let '(run, s5) := untilBrace s4 in
          match stripCI (js "}}") s5 with
          | Some rest => Some (rest, [(2%nat, c0 :: run); (1%nat, name)])
          | None => None
          end
      else None
  | _ => None
  end.

(** ... one alternative of the weekday name, ... *)
Definition dayResult (s1 w : jsstring) : option (jsstring * Captures) :=
  match stripCI w s1 with
  | Some s2 => afterName (firstn (length s1 - length s2) s1) s2
  | None => None
  end.

(** ... the alternatives in their order, and the whole pattern. *)
Fixpoint tryDays (ws : list jsstring) (s1 : jsstring)
  : option (jsstring * Captures) :=
  match ws with
  | [] => None
  | w :: ws' => orElse (dayResult s1 w) (tryDays ws' s1)
  end.

Definition matchToken (s : jsstring) : option (jsstring * Captures) :=
  match stripCI (js "!{{") s with
  | Some s1 => tryDays days s1
  | None => None
  end.

(** A document in which no token occurs. *)
Definition NoToken (content : jsstring) : Prop :=
  forall pre name spec post,
    IsDayName name -> IsSpec spec ->
    content <> pre ++ tokenText name spec ++ post.

(** The scan of [pre ++ rest] arrives at the start of [rest]: no match that
    starts in [pre] runs into [rest]. *)
Definition ScanSplit (pre rest : jsstring) : Prop :=
  matchAll placeholderRe (pre ++ rest)
  = matchAll placeholderRe pre ++ matchAll placeholderRe rest.

Definition isMatched (p : Piece) : bool :=
  match p with Matched _ _ => true | Kept _ => false end.

(** A piece of the scan of a document: a kept code unit or a token. *)
Definition IsTokenPiece (p : Piece) : Prop :=
  match p with
  | Kept _ => True
  | Matched _ caps =>
      exists name spec,
        IsDayName name /\ IsSpec spec /\ caps = [(2%nat, spec); (1%nat, name)]
  end.


Section Rendering.
Variable mformat : Moment -> jsstring -> jsstring.

(** What the replacer returns for a token. *)
Definition replacement (h : App) (d : Moment) (name spec : jsstring)
  : jsstring :=
  fst (replacer mformat h d (tokenText name spec)
         [(2%nat, spec); (1%nat, name)] false).

Definition render (h : App) (d : Moment) (p : Piece) : jsstring :=
  match p with
  | Kept c => [c]
  | Matched text caps => fst (replacer mformat h d text caps false)
  end.

End Rendering.

(** ** Describing dates *)

(** A date written as [YYYY-MM-DD] by moment.js. *)
Definition formatYMD (m : Moment) : jsstring :=
  zeroFill (year m) 4 ++ js "-" ++ zeroFill (month m) 2 ++ js "-"
  ++ zeroFill (date m) 2.

(** A formatter that is moment.js wherever [momentFormat] is defined. *)
Definition AgreesWithMoment (mformat : Moment -> jsstring -> jsstring) : Prop :=
  forall m f s, momentFormat m f = Some s -> mformat m f = s.

(** ** Describing runs on the host *)

(** The calls made between two states. *)
Definition newCalls (h h' : App) : list Call :=
  skipn (length (trace h)) (trace h').

(** From [h] to [h']: what was in the vault is still there, the trace has
    grown, and what has been created in between still exists. *)
Definition Keeps (h h' : App) : Prop :=
  (forall p, is_Some (vault h !! p) -> is_Some (vault h' !! p))
  /\ exists t, trace h' = trace h ++ t
       /\ forall p data, In (Create p data) t -> is_Some (vault h' !! p).

Definition Safe {A} (c : M A) : Prop := forall h, Keeps h (fst (c h)).

(** Every call that [c] adds to the trace satisfies [P]. *)
Definition Emits {A} (P : Call -> bool) (c : M A) : Prop :=
  forall h, exists t, trace (fst (c h)) = trace h ++ t /\ forallb P t = true.

Definition isLookup (c : Call) : bool :=
  match c with Lookup _ => true | _ => false end.

Definition isNotice (c : Call) : bool :=
  match c with NewNotice _ => true | _ => false end.

Definition notLookup (c : Call) : bool := negb (isLookup c).

Section Paths.
Variable mformat : Moment -> jsstring -> jsstring.
Variable normalizePath : jsstring -> jsstring.
Variable settings : WeeklyNotesSettings.

(** The [path] that [openWeeklyNote] computes. *)
Definition weeklyPath (d : Moment) : jsstring :=
  normalizePath (folder settings ++ js "/"
                 ++ mformat d (dateFormat settings) ++ js ".md").
End Paths.

Section DailyConditions.
Variable strictValid : jsstring -> jsstring -> bool.
Variable normalizePath : jsstring -> jsstring.

(** The checks of [onFileCreate] before it looks for the template. *)
Definition dailyGuard (f : TFile) (dn : Daily.Plugin) : bool :=
  jsstring_eqb (extension f) (js "md") && (stat_size f =? 0)
  && Daily.enabled dn
  && truthy (Daily.template (Daily.options dn))
  && strictValid (basename f)
       (orString (Daily.format (Daily.options dn)) (js "YYYY-MM-DD"))
  && (negb (truthy (Daily.folder (Daily.options dn)))
      || match parent f with
         | Some pp =>
             jsstring_eqb pp (normalizePath (Daily.folder (Daily.options dn)))
         | None => false
         end).

(** The same checks as a proposition. *)
Definition DailyNoteCreated (f : TFile) (dn : Daily.Plugin) : Prop :=
  extension f = js "md" /\ stat_size f = 0
  /\ Daily.enabled dn = true
  /\ Daily.template (Daily.options dn) <> []
  /\ strictValid (basename f)
       (orString (Daily.format (Daily.options dn)) (js "YYYY-MM-DD")) = true
  /\ (Daily.folder (Daily.options dn) = []
      \/ parent f = Some (normalizePath (Daily.folder (Daily.options dn)))).

(** The file the daily template resolves to: the path with [.md] if
    anything is there, the literal path otherwise. *)
Definition ResolvesDaily (v : gmap (list N) Entry) (t p : jsstring) : Prop :=
  (p = normalizePath (t ++ js ".md") /\ exists data, v !! p = Some (EFile data))
  \/ (v !! normalizePath (t ++ js ".md") = None
      /\ p = normalizePath t /\ exists data, v !! p = Some (EFile data)).
End DailyConditions.

(** The timer of [onFileCreate], set when the Templates plugin is on. *)
Definition scheduleDaily (templateFile : jsstring) (h : App) : App :=
  match templates h with
  | Some true =>
      withTimers (timers h ++ [(200, InsertDailyTemplate templateFile)])
        (logged (SetTimeout (InsertDailyTemplate templateFile) 200) h)
  | _ => h
  end.

(** ** The wording of the specification

    Where the specification describes something else than the code does,
    its description is written down here, to be compared with the code. *)

(** The text after the colon: one or more code units, none of which is a
    closing brace. *)
Definition IsSpecClaimed (spec : jsstring) : Prop :=
  spec <> [] /\ Forall (fun x => x <> 125) spec.

Definition NoClaimedToken (content : jsstring) : Prop :=
  forall pre name spec post,
    IsDayName name -> IsSpecClaimed spec ->
    content <> pre ++ tokenText name spec ++ post.

(** Template resolution, for both components: the literal path first, then
    the path with [.md] appended. *)
Definition literalFirst (v : gmap (list N) Entry)
    (normalizePath : jsstring -> jsstring) (t : jsstring) : option jsstring :=
  match v !! normalizePath t with
  | Some _ => Some (normalizePath t)
  | None =>
      match v !! normalizePath (t ++ js ".md") with
      | Some _ => Some (normalizePath (t ++ js ".md"))
      | None => None
      end
  end.

(** The conditions for the daily template to be inserted: the file is
    empty, has the note extension, its base name parses strictly against the
    daily format, and its parent folder is the daily folder, if there is
    one. *)
Definition ClaimedTrigger (strictValid : jsstring -> jsstring -> bool)
    (f : TFile) (dn : Daily.Plugin) : Prop :=
  stat_size f = 0 /\ extension f = js "md"
  /\ strictValid (basename f)
       (orString (Daily.format (Daily.options dn)) (js "YYYY-MM-DD")) = true
  /\ (Daily.folder (Daily.options dn) = []
      \/ parent f = Some (Daily.folder (Daily.options dn))).

(** ** A concrete host, for examples *)

(** A formatter that agrees with moment.js on the format strings of
    [momentFormat]; on the others it returns the format string. *)
Definition momentFormatOr (m : Moment) (f : jsstring) : jsstring :=
  match momentFormat m f with Some s => s | None => f end.

(** Strict parsing against the format [YYYY-MM-DD]: four digits, two digits
    and two digits that make a date of the calendar. Other formats are left
    out (no name is valid for them here). *)
Definition digit (c : N) : option Z :=
  if (48 <=? c) && (c <=? 57) then Some (Z.of_N (c - 48)) else None.

Definition number (cs : list N) : option Z :=
  fold_left (fun acc c =>
               match acc, digit c with
               | Some n, Some v => Some (10 * n + v)%Z
               | _, _ => None
               end) cs (Some 0%Z).

Definition strictValidYMD (name fmt : jsstring) : bool :=
  jsstring_eqb fmt (js "YYYY-MM-DD")
  && match name with
     | [y1; y2; y3; y4; h1; m1; m2; h2; d1; d2] =>
         (h1 =? 45) && (h2 =? 45)
         && match number [y1; y2; y3; y4], number [m1; m2], number [d1; d2] with
            | Some y, Some mo, Some dd =>
                (1 <=? mo)%Z && (mo <=? 12)%Z && (1 <=? dd)%Z
                && bool_decide (civilFromDays (daysFromCivil y mo dd) = (y, mo, dd))
            | _, _, _ => false
            end
     | _ => false
     end.

(** Paths that are normalized already. *)
Definition samePath (p : jsstring) : jsstring := p.

(** A host that accepts every call, and a Templates plugin that appends the
    template to the editor content. *)
Definition noHostError (h : App) (c : Call) : option jsstring := None.
Definition appendTemplate (template content : jsstring) : jsstring :=
  content ++ template.

Definition emptyApp : App := mkApp ∅ None None None [] [].

Definition wednesday_2024_03_06 : Moment := mkMoment 19788 43200000.

Definition weekNote : jsstring := js "Weekly/2024-W10.md".

(** The weekly note open in the editor with [content]. *)
Definition appShowing (content : jsstring) : App :=
  mkApp ∅ None None (Some (weekNote, content)) [] [].

Definition dailyNotesWith (fmt dir tpl : jsstring) (on : bool) : Daily.Plugin :=
  Daily.mkPlugin on (Daily.mkOptions fmt dir tpl).

Definition appWithDaily (dn : option Daily.Plugin) (content : jsstring) : App :=
  mkApp ∅ dn None (Some (weekNote, content)) [] [].

Definition dailyInFolder : Daily.Plugin :=
  dailyNotesWith (js "YYYY-MM-DD") (js "Daily") (js "Templates/Daily") true.

(** Daily notes whose format is a bracketed text with nothing in it. *)
Definition dailyBracketFormat : Daily.Plugin :=
  dailyNotesWith (js "[]") [] (js "Templates/Daily") true.

Definition weeklySettings : WeeklyNotesSettings :=
  mkSettings (js "Weekly") [] (js "[Week of ]YYYY-MM-DD").

Definition templateSettings : WeeklyNotesSettings :=
  mkSettings (js "Weekly") (js "Templates/Weekly") (js "YYYY-MM-DD").


(** A daily note just created, and a vault with a file at the template path
    and another at the path with [.md]. *)
Definition createdDaily : TFile :=
  mkTFile (js "Daily/2024-03-06.md") (js "2024-03-06") (js "md") 0
          (Some (js "Daily")).

Definition bothTemplates : gmap (list N) Entry :=
  <[js "Templates/Daily" := EFile (js "literal")]>
    (<[js "Templates/Daily.md" := EFile (js "with md")]> ∅).

Definition appDaily (v : gmap (list N) Entry) (templatesOn : bool) : App :=
  mkApp v (Some dailyInFolder) (Some templatesOn) None [] [].

(** ** More descriptions *)

(** Two moments in the same week from Sunday to Saturday. *)
Definition SameWeek (d d' : Moment) : Prop :=
  (localDay d - day d = localDay d' - day d')%Z.

Definition isTimer (c : Call) : bool :=
  match c with SetTimeout _ _ => true | _ => false end.

Section WeeklyTemplateResolution.
Variable normalizePath : jsstring -> jsstring.

(** What is at the path the weekly template resolves to: at the literal
    path if anything is there, at the path with [.md] otherwise. *)
Definition ResolvesWeekly (v : gmap (list N) Entry) (t p : jsstring)
    (e : Entry) : Prop :=
  (p = normalizePath t /\ v !! p = Some e)
  \/ (v !! normalizePath t = None
      /\ p = normalizePath (t ++ js ".md") /\ v !! p = Some e).

(** The lookups of that resolution, logged. *)
Definition resolutionLogged (t p : jsstring) (h : App) : App :=
  if jsstring_eqb p (normalizePath t) then logged (Lookup (normalizePath t)) h
  else logged (Lookup (normalizePath (t ++ js ".md")))
         (logged (Lookup (normalizePath t)) h).
End WeeklyTemplateResolution.

(** A host that lets nothing be created in the vault, and accepts the
    other calls. *)
Definition readOnlyVault (h : App) (c : Call) : option jsstring :=
  match c with
  | Create _ _ | CreateFolder _ => Some (js "EROFS: read-only file system")
  | _ => None
  end.

(** The calls of [ensureFolderExists]. *)
Definition isFolderCall (c : Call) : bool :=
  match c with Lookup _ | CreateFolder _ => true | _ => false end.

(** A vault with the weekly note and a template for it, and one where a
    folder has the path of the template; the note is shown in the editor. *)
Definition weeklyTemplateText : jsstring := js "Mon !{{monday:YYYY-MM-DD}}".

Definition vaultWithTemplate : gmap (list N) Entry :=
  <[js "Templates/Weekly.md" := EFile weeklyTemplateText]>
    (<[weekNote := EFile []]> ∅).

Definition vaultWithTemplateFolder : gmap (list N) Entry :=
  <[js "Templates/Weekly" := EFolder]> (<[weekNote := EFile []]> ∅).

Definition appForTemplate (v : gmap (list N) Entry) (templatesOn : option bool)
  : App :=
  mkApp v None templatesOn (Some (weekNote, [])) [] [].

(** A vault that holds the template only, before the first open of a
    week; no core plugin, no active view. *)
Definition appBeforeFirstOpen : App :=
  mkApp (<[js "Templates/Weekly.md" := EFile weeklyTemplateText]> ∅)
        None None None [] [].

(** The [TypeError] as V8 words it, daily notes whose format is a line
    feed, and settings whose date format is a line feed. *)
Definition v8TypeError : jsstring :=
  js "TypeError: Cannot read properties of null (reading 'length')".

Definition dailyLineFeedFormat : Daily.Plugin :=
  dailyNotesWith [10] [] (js "Templates/Daily") true.

Definition lineFeedSettings : WeeklyNotesSettings :=
  mkSettings (js "Weekly") [] [10].

(** * Properties *)

Lemma jsstring_eqb_eq a b : jsstring_eqb a b = true <-> a = b.
Proof. unfold jsstring_eqb. rewrite bool_decide_eq_true. tauto. Qed.

(** ** The matcher on the pattern *)

Section MatcherLemmas.
Context {R : Type}.
Implicit Types (k : @Cont R) (s w : jsstring) (caps : Captures).

Lemma orElse_None_r (a : option R) : orElse a None = a.
Proof. now destruct a. Qed.

Lemma m_Word w s caps k :
  m (Word w) s caps k
  = match stripCI w s with Some s' => k s' caps | None => None end.
Proof.
  revert s. induction w as [|p w IH]; intros s; [reflexivity|].
  cbn [Word m stripCI]. destruct s as [|x s]; [reflexivity|].
  destruct (canonicalize x =? canonicalize p); [apply IH | reflexivity].
Qed.

Lemma canonicalize_brace x : (canonicalize x =? canonicalize 125) = (x =? 125).
Proof.
  unfold canonicalize. change ((97 <=? 125) && (125 <=? 122)) with false. cbv iota.
  destruct ((97 <=? x) && (x <=? 122)) eqn:E; [|reflexivity].
  apply andb_true_iff in E as [E1 E2].
  apply N.leb_le in E1, E2.
  transitivity false; [apply N.eqb_neq | symmetry; apply N.eqb_neq]; lia.
Qed.

Lemma starLoop_untilBrace k :
  (forall x s' caps, x <> 125 -> k (x :: s') caps = None) ->
  forall n s caps, (length s <= n)%nat ->
    starLoop (m (NotSet [125])) k n s caps = k (snd (untilBrace s)) caps.
Proof.
  intros Hk. induction n as [|n IH]; intros s caps Hn.
  - destruct s; [reflexivity | simpl in Hn; lia].
  - destruct s as [|x s]; [reflexivity|].
    cbn [starLoop m existsb untilBrace]. rewrite canonicalize_brace, orb_false_r.
    destruct (x =? 125) eqn:E; [reflexivity|].
    assert (Hlt : (length s <? length (x :: s))%nat = true)
      by (apply Nat.ltb_lt; simpl; lia).
    rewrite Hlt, IH by (simpl in Hn; lia).
    apply N.eqb_neq in E. rewrite (Hk x s caps E), orElse_None_r.
    now destruct (untilBrace s).
Qed.
End MatcherLemmas.

Lemma untilBrace_app s :
  fst (untilBrace s) ++ snd (untilBrace s) = s.
Proof.
  induction s as [|x s IH]; [reflexivity|]. simpl.
  destruct (x =? 125); [reflexivity|].
  destruct (untilBrace s); simpl in *. now rewrite IH.
Qed.

Lemma untilBrace_run s : Forall (fun x => x <> 125) (fst (untilBrace s)).
Proof.
  induction s as [|x s IH]; [constructor|]. simpl.
  destruct (x =? 125) eqn:E; [constructor|].
  destruct (untilBrace s); simpl in *. constructor; [|assumption].
  now apply N.eqb_neq.
Qed.

Lemma untilBrace_stop run s :
  Forall (fun x => x <> 125) run ->
  untilBrace (run ++ 125 :: s) = (run, 125 :: s).
Proof.
  induction 1 as [|x run Hx _ IH]; [reflexivity|]. simpl.
  apply N.eqb_neq in Hx. now rewrite Hx, IH.
Qed.

Lemma firstn_length_app (a b : jsstring) :
  firstn (length (a ++ b) - length b) (a ++ b) = a.
Proof.
  rewrite length_app, Nat.add_sub. rewrite firstn_app, Nat.sub_diag, firstn_all.
  simpl. apply app_nil_r.
Qed.

Lemma stripCI_split w s r :
  stripCI w s = Some r -> exists n, s = n ++ r /\ ciEq n w.
Proof.
  revert s. induction w as [|p w IH]; intros s H.
  - exists []. injection H as ->. split; reflexivity.
  - destruct s as [|x s]; [discriminate|]. simpl in H.
    destruct (canonicalize x =? canonicalize p) eqn:E; [|discriminate].
    destruct (IH _ H) as (n & -> & Hn). exists (x :: n). split; [reflexivity|].
    unfold ciEq in *. simpl. apply N.eqb_eq in E. now rewrite E, Hn.
Qed.

Lemma stripCI_app n w r : ciEq n w -> stripCI w (n ++ r) = Some r.
Proof.
  revert n. induction w as [|p w IH]; intros n H.
  - destruct n; [reflexivity | discriminate].
  - destruct n as [|x n]; [discriminate|]. unfold ciEq in H. simpl in H.
    injection H as Hx Hn. simpl. rewrite Hx, N.eqb_refl. now apply IH.
Qed.

Lemma m_Seq {R} r1 r2 s caps (k : @Cont R) :
  m (Seq r1 r2) s caps k = m r1 s caps (fun s' caps' => m r2 s' caps' k).
Proof. reflexivity. Qed.

Lemma m_Alt {R} r1 r2 s caps (k : @Cont R) :
  m (Alt r1 r2) s caps k = orElse (m r1 s caps k) (m r2 s caps k).
Proof. reflexivity. Qed.

Lemma m_Group {R} i r s caps (k : @Cont R) :
  m (Group i r) s caps k
  = m r s caps (fun s' caps' =>
      k s' ((i, firstn (length s - length s') s) :: caps')).
Proof. reflexivity. Qed.

Lemma canonicalize_colon x : (canonicalize x =? canonicalize 58) = (x =? 58).
Proof.
  unfold canonicalize. change ((97 <=? 58) && (58 <=? 122)) with false. cbv iota.
  destruct ((97 <=? x) && (x <=? 122)) eqn:E; [|reflexivity].
  apply andb_true_iff in E as [E1 E2]. apply N.leb_le in E1, E2.
  transitivity false; [apply N.eqb_neq | symmetry; apply N.eqb_neq]; lia.
Qed.

Lemma m_afterName name s2 :
  m (Seq (Chr 58)
       (Seq (Group 2 (Seq Dot (Star (NotSet [125])))) (Word (js "}}"))))
    s2 [(1%nat, name)] (fun s' caps => Some (s', caps))
  = afterName name s2.
Proof.
  cbn [m]. unfold afterName.
  destruct s2 as [|x s3]; [reflexivity|].
  rewrite canonicalize_colon.
  destruct s3 as [|c0 s4]; [now destruct (x =? 58)|].
  destruct (x =? 58); [|reflexivity].
  destruct (lineTerminator c0); [reflexivity|].
  match goal with
  | |- starLoop ?f ?k ?n ?s ?c = ?rhs =>
      change (starLoop (m (NotSet [125])) k n s c = rhs)
  end.
  rewrite starLoop_untilBrace; [| |reflexivity].
  - rewrite m_Word.
    pose proof (untilBrace_app s4) as Happ.
    destruct (untilBrace s4) as [run s5]. simpl in Happ. simpl snd.
    destruct (stripCI (js "}}") s5) as [rest|]; [|reflexivity].
    do 3 f_equal. subst s4.
    change (c0 :: run ++ s5) with ((c0 :: run) ++ s5).
    now rewrite firstn_length_app.
  - intros y s' caps Hy. rewrite m_Word.
    simpl. rewrite canonicalize_brace.
    apply N.eqb_neq in Hy. now rewrite Hy.
Qed.

Lemma m_tryDay w s1 :
  m (Word w) s1 []
    (fun s' caps' =>
       m (Seq (Chr 58)
            (Seq (Group 2 (Seq Dot (Star (NotSet [125])))) (Word (js "}}"))))
         s' ((1%nat, firstn (length s1 - length s') s1) :: caps')
         (fun s'' caps => Some (s'', caps)))
  = match stripCI w s1 with
    | Some s2 => afterName (firstn (length s1 - length s2) s1) s2
    | None => None
    end.
Proof.
  rewrite m_Word.
  destruct (stripCI w s1); [apply m_afterName | reflexivity].
Qed.

Lemma exec_matchToken s : exec placeholderRe s = matchToken s.
Proof.
  unfold exec, placeholderRe, matchToken.
  rewrite m_Seq, m_Word.
  destruct (stripCI (js "!{{") s) as [s1|]; [|reflexivity].
  rewrite m_Seq, m_Group, !m_Alt.
  rewrite !m_tryDay.
  unfold days, tryDays. now rewrite orElse_None_r.
Qed.

Lemma canonicalize_fixed x c :
  canonicalize x = c -> (c < 65 \/ 90 < c) -> x = c.
Proof.
  unfold canonicalize. intros H Hc.
  destruct ((97 <=? x) && (x <=? 122)) eqn:E; [|assumption].
  apply andb_true_iff in E as [E1 E2]. apply N.leb_le in E1, E2. lia.
Qed.

Lemma ciEq_bang n : ciEq n (js "!{{") -> n = js "!{{".
Proof.
  unfold ciEq. destruct n as [|a [|b [|c [|d n]]]]; try discriminate.
  intros H. injection H as Ha Hb Hc.
  apply canonicalize_fixed in Ha, Hb, Hc; try (vm_compute; right; reflexivity).
  - now subst.
  - vm_compute. now left.
Qed.

Lemma ciEq_close n : ciEq n (js "}}") -> n = js "}}".
Proof.
  unfold ciEq. destruct n as [|a [|b [|c n]]]; try discriminate.
  intros H. injection H as Ha Hb.
  apply canonicalize_fixed in Ha, Hb; try (vm_compute; right; reflexivity).
  now subst.
Qed.

Lemma tryDays_inv ws s1 res :
  tryDays ws s1 = Some res -> exists w, In w ws /\ dayResult s1 w = Some res.
Proof.
  induction ws as [|w ws IH]; [discriminate|]. simpl.
  fold (dayResult s1 w). destruct (dayResult s1 w) as [x|] eqn:E; simpl.
  - intros [= <-]. exists w. auto.
  - intros H. destruct (IH H) as (w' & Hin & Hw'). exists w'. auto.
Qed.

Lemma tryDays_weak ws s1 A :
  (forall w, In w ws -> dayResult s1 w = None \/ dayResult s1 w = A) ->
  tryDays ws s1 = None \/ tryDays ws s1 = A.
Proof.
  induction ws as [|w ws IH]; intros H; [now left|]. simpl.
  fold (dayResult s1 w).
  destruct (H w (or_introl eq_refl)) as [-> | ->].
  - simpl. apply IH. intros w' Hw'. apply H. now right.
  - destruct A; simpl; [now right|]. apply IH. intros w' Hw'. apply H. now right.
Qed.

Lemma tryDays_the ws s1 A w :
  (forall w', In w' ws -> dayResult s1 w' = None \/ dayResult s1 w' = A) ->
  In w ws -> dayResult s1 w = A -> tryDays ws s1 = A.
Proof.
  induction ws as [|w0 ws IH]; intros H Hin HA; [destruct Hin|]. simpl.
  fold (dayResult s1 w0).
  assert (Hws : forall w', In w' ws ->
                 dayResult s1 w' = None \/ dayResult s1 w' = A)
    by (intros w' Hw'; apply H; now right).
  destruct (H w0 (or_introl eq_refl)) as [E | E]; rewrite E.
  - simpl. destruct Hin as [-> | Hin]; [|now apply IH].
    rewrite E in HA. subst A. destruct (tryDays_weak ws s1 None Hws); assumption.
  - destruct A; simpl; [reflexivity|].
    destruct (tryDays_weak ws s1 None Hws); assumption.
Qed.

Lemma stripCI_key w s r :
  stripCI w s = Some r -> (2 <= length w)%nat ->
  firstn 2 (map canonicalize s) = firstn 2 (map canonicalize w).
Proof.
  destruct w as [|p [|q w]]; simpl; try lia. intros H _.
  destruct s as [|x [|y s]]; try discriminate.
  - destruct (canonicalize x =? canonicalize p); discriminate.
  - destruct (canonicalize x =? canonicalize p) eqn:E1; [|discriminate].
    destruct (canonicalize y =? canonicalize q) eqn:E2; [|discriminate].
    apply N.eqb_eq in E1, E2. simpl. now rewrite E1, E2.
Qed.

Lemma days_key_inj w w' :
  In w days -> In w' days ->
  firstn 2 (map canonicalize w) = firstn 2 (map canonicalize w') -> w = w'.
Proof.
  unfold days. simpl In. intros Hw Hw' H.
  repeat (destruct Hw as [<- | Hw]); try destruct Hw;
    repeat (destruct Hw' as [<- | Hw']); try destruct Hw';
    first [reflexivity | vm_compute in H; discriminate].
Qed.

Lemma days_length w : In w days -> (2 <= length w)%nat.
Proof.
  unfold days. simpl In. intros Hw.
  repeat (destruct Hw as [<- | Hw]); try destruct Hw; vm_compute; lia.
Qed.

Lemma tryDays_days s1 w :
  In w days -> tryDays days s1 = dayResult s1 w \/ stripCI w s1 = None.
Proof.
  intros Hw. destruct (stripCI w s1) as [s2|] eqn:E; [left | now right].
  apply tryDays_the with (w := w); [|assumption|reflexivity].
  intros w' Hw'. unfold dayResult at 1 2.
  destruct (stripCI w' s1) as [s2'|] eqn:E'; [right | now left].
  assert (w' = w) as ->.
  { apply days_key_inj; try assumption.
    rewrite <- (stripCI_key _ _ _ E') by now apply days_length.
    now rewrite <- (stripCI_key _ _ _ E) by now apply days_length. }
  unfold dayResult. now rewrite E'.
Qed.

Lemma afterName_inv name s2 rest caps :
  afterName name s2 = Some (rest, caps) ->
  exists spec, IsSpec spec /\ s2 = js ":" ++ spec ++ js "}}" ++ rest
               /\ caps = [(2%nat, spec); (1%nat, name)].
Proof.
  unfold afterName. destruct s2 as [|x [|c0 s4]]; try discriminate.
  destruct (x =? 58) eqn:Ex; [|discriminate]. apply N.eqb_eq in Ex. subst x.
  destruct (lineTerminator c0) eqn:Ec; [discriminate|].
  pose proof (untilBrace_app s4) as Happ. pose proof (untilBrace_run s4) as Hrun.
  destruct (untilBrace s4) as [run s5]. simpl in Happ, Hrun.
  destruct (stripCI (js "}}") s5) as [r|] eqn:Es; [|discriminate].
  intros [= -> <-]. apply stripCI_split in Es as (n & -> & Hn).
  apply ciEq_close in Hn. subst n s4.
  exists (c0 :: run). split; [now exists c0, run|]. split; reflexivity.
Qed.

Lemma afterName_token name c run rest :
  lineTerminator c = false -> Forall (fun x => x <> 125) run ->
  afterName name (js ":" ++ (c :: run) ++ js "}}" ++ rest)
  = Some (rest, [(2%nat, c :: run); (1%nat, name)]).
Proof.
  intros Hc Hrun. simpl. rewrite Hc.
  change (run ++ 125 :: 125 :: rest) with (run ++ 125 :: (125 :: rest)).
  rewrite untilBrace_stop by assumption. reflexivity.
Qed.

(** The pattern matches at the start of [s] exactly when [s] starts with a
    token, and it captures the name and the text after the colon. *)
Lemma exec_placeholder_iff s rest caps :
  exec placeholderRe s = Some (rest, caps) <->
  exists name spec,
    IsDayName name /\ IsSpec spec /\ s = tokenText name spec ++ rest
    /\ caps = [(2%nat, spec); (1%nat, name)].
Proof.
  rewrite exec_matchToken. unfold matchToken. split.
  - destruct (stripCI (js "!{{") s) as [s1|] eqn:E0; [|discriminate].
    intros H. apply tryDays_inv in H as (w & Hw & H).
    unfold dayResult in H. destruct (stripCI w s1) as [s2|] eqn:E1; [|discriminate].
    apply stripCI_split in E0 as (n0 & -> & Hn0). apply ciEq_bang in Hn0. subst n0.
    apply stripCI_split in E1 as (name & -> & Hname).
    rewrite firstn_length_app in H.
    apply afterName_inv in H as (spec & Hspec & -> & ->).
    exists name, spec. split; [now exists w|]. split; [assumption|].
    split; [|reflexivity]. unfold tokenText. now rewrite <- !app_assoc.
  - intros (name & spec & (w & Hw & Hname) & (c & run & -> & Hc & Hrun) & -> & ->).
    unfold tokenText. rewrite <- !app_assoc.
    rewrite stripCI_app by reflexivity.
    destruct (tryDays_days (name ++ js ":" ++ (c :: run) ++ js "}}" ++ rest) w Hw)
      as [-> | E].
    + unfold dayResult. rewrite stripCI_app by assumption.
      rewrite firstn_length_app. now apply afterName_token.
    + rewrite stripCI_app in E by assumption. discriminate.
Qed.

(** ** The scan of a document *)

Lemma exec_placeholder_shorter s rest caps :
  exec placeholderRe s = Some (rest, caps) ->
  exists text, text <> [] /\ s = text ++ rest.
Proof.
  intros H. apply exec_placeholder_iff in H as (name & spec & _ & _ & -> & _).
  exists (tokenText name spec). split; [discriminate | reflexivity].
Qed.

Lemma matchAllFrom_fuel n n' s :
  (length s < n)%nat -> (length s < n')%nat ->
  matchAllFrom placeholderRe n s = matchAllFrom placeholderRe n' s.
Proof.
  revert n' s. induction n as [|n IH]; intros n' s Hn Hn'; [lia|].
  destruct n' as [|n']; [lia|]. simpl.
  destruct (exec placeholderRe s) as [[rest caps]|] eqn:E.
  - destruct (exec_placeholder_shorter _ _ _ E) as (text & Hne & ->).
    rewrite firstn_length_app.
    destruct text as [|t text]; [congruence|].
    f_equal. apply IH; rewrite length_app in *; simpl in *; lia.
  - destruct s as [|c tl]; [reflexivity|]. f_equal.
    apply IH; simpl in *; lia.
Qed.

Lemma matchAll_eq s :
  matchAll placeholderRe s
  = match exec placeholderRe s with
    | Some (rest, caps) =>
        Matched (firstn (length s - length rest) s) caps
        :: matchAll placeholderRe rest
    | None =>
        match s with
        | [] => []
        | c :: tl => Kept c :: matchAll placeholderRe tl
        end
    end.
Proof.
  unfold matchAll at 1. simpl.
  destruct (exec placeholderRe s) as [[rest caps]|] eqn:E.
  - destruct (exec_placeholder_shorter _ _ _ E) as (text & Hne & ->).
    rewrite firstn_length_app.
    destruct text as [|t text]; [congruence|].
    f_equal. apply matchAllFrom_fuel; rewrite ?length_app; simpl; lia.
  - destruct s as [|c tl]; reflexivity.
Qed.

Lemma matchAll_token name spec rest :
  IsDayName name -> IsSpec spec ->
  matchAll placeholderRe (tokenText name spec ++ rest)
  = Matched (tokenText name spec) [(2%nat, spec); (1%nat, name)]
    :: matchAll placeholderRe rest.
Proof.
  intros Hn Hs. rewrite matchAll_eq.
  assert (E : exec placeholderRe (tokenText name spec ++ rest)
              = Some (rest, [(2%nat, spec); (1%nat, name)])).
  { apply exec_placeholder_iff. now exists name, spec. }
  rewrite E. now rewrite firstn_length_app.
Qed.

Lemma exec_placeholder_first c s :
  c <> 33 -> exec placeholderRe (c :: s) = None.
Proof.
  intros Hc. destruct (exec placeholderRe (c :: s)) as [[rest caps]|] eqn:E;
    [|reflexivity].
  apply exec_placeholder_iff in E as (name & spec & _ & _ & E & _).
  injection E as ->. now destruct Hc.
Qed.

(** The scan arrives at whatever follows a text without exclamation
    marks. *)
Lemma ScanSplit_plain pre rest :
  Forall (fun c => c <> 33) pre -> ScanSplit pre rest.
Proof.
  unfold ScanSplit. induction 1 as [|c pre Hc _ IH]; [reflexivity|].
  rewrite (matchAll_eq (c :: pre)). cbn [app]. rewrite matchAll_eq.
  rewrite !exec_placeholder_first by assumption. cbn [app]. now rewrite IH.
Qed.

Section RewriteFacts.
Variable mformat : Moment -> jsstring -> jsstring.

Lemma replacer_fst h d text caps st :
  fst (replacer mformat h d text caps st)
  = fst (replacer mformat h d text caps false).
Proof.
  unfold replacer.
  destruct (indexOf (toLowerCase (capture 1 caps)) days); [|reflexivity].
  now destruct (jsstring_eqb (trim (capture 2 caps)) (js "daily-note")).
Qed.

Lemma substitute_text h d ps st :
  fst (substitute (replacer mformat h d) ps st) = flat_map (render mformat h d) ps.
Proof.
  revert st. induction ps as [|[c | text caps] ps IH]; intros st; simpl.
  - reflexivity.
  - specialize (IH st). destruct (substitute _ ps st). simpl in *. now rewrite IH.
  - rewrite <- (replacer_fst h d text caps st).
    destruct (replacer mformat h d text caps st) as [out st1].
    specialize (IH st1). destruct (substitute _ ps st1). simpl in *.
    now rewrite IH.
Qed.

Lemma rewrite_text h d content :
  fst (rewrite mformat h d content)
  = flat_map (render mformat h d) (matchAll placeholderRe content).
Proof. apply substitute_text. Qed.

Lemma toLowerCase_day name w :
  In w days -> ciEq name w -> toLowerCase name = w.
Proof.
  intros Hw. assert (Hlow : Forall (fun p => 97 <= p <= 122) w).
  { unfold days in Hw. simpl In in Hw.
    repeat (destruct Hw as [<- | Hw]); try destruct Hw;
      repeat constructor; vm_compute; congruence. }
  clear Hw. revert name. induction Hlow as [|p w Hp _ IH]; intros name H.
  - destruct name; [reflexivity | discriminate].
  - destruct name as [|x name]; [discriminate|].
    unfold ciEq in H. simpl in H. injection H as Hx Hn.
    simpl. f_equal; [|now apply IH].
    unfold canonicalize in Hx.
    assert (Ep : (97 <=? p) && (p <=? 122) = true)
      by (apply andb_true_iff; split; apply N.leb_le; lia).
    rewrite Ep in Hx.
    destruct ((97 <=? x) && (x <=? 122)) eqn:Ex.
    + apply andb_true_iff in Ex as [E1 E2]. apply N.leb_le in E1, E2.
      assert (E : (65 <=? x) && (x <=? 90) = false)
        by (apply andb_false_iff; right; apply N.leb_gt; lia).
      rewrite E. lia.
    + subst x.
      assert (E : (65 <=? p - 32) && (p - 32 <=? 90) = true)
        by (apply andb_true_iff; split; apply N.leb_le; lia).
      rewrite E. lia.
Qed.

Lemma indexOf_In w ws : In w ws -> exists i, indexOf w ws = Some i.
Proof.
  induction ws as [|y ws IH]; [intros []|]. intros Hin. simpl.
  destruct (jsstring_eqb y w) eqn:E; [now exists 0%nat|].
  destruct Hin as [-> | Hin].
  - unfold jsstring_eqb in E. rewrite bool_decide_eq_false in E. congruence.
  - destruct (IH Hin) as [i ->]. now exists (S i).
Qed.

Lemma replacer_modified h d name spec text st :
  IsDayName name ->
  snd (replacer mformat h d text [(2%nat, spec); (1%nat, name)] st) = true.
Proof.
  intros (w & Hw & Hname). unfold replacer. cbn [capture Nat.eqb].
  rewrite (toLowerCase_day _ _ Hw Hname).
  destruct (indexOf_In _ _ Hw) as [i ->].
  now destruct (jsstring_eqb (trim spec) (js "daily-note")).
Qed.

Lemma NoToken_tail c s : NoToken (c :: s) -> NoToken s.
Proof.
  intros H pre name spec post Hn Hs ->.
  now apply (H (c :: pre) name spec post Hn Hs).
Qed.

Lemma NoToken_exec s : NoToken s -> exec placeholderRe s = None.
Proof.
  intros H. destruct (exec placeholderRe s) as [[rest caps]|] eqn:E; [|reflexivity].
  apply exec_placeholder_iff in E as (name & spec & Hn & Hs & -> & _).
  now destruct (H [] name spec rest Hn Hs).
Qed.

Lemma NoToken_matchAll s : NoToken s -> matchAll placeholderRe s = map Kept s.
Proof.
  induction s as [|c s IH]; intros H; rewrite matchAll_eq, (NoToken_exec _ H).
  - reflexivity.
  - simpl. f_equal. apply IH. now apply NoToken_tail in H.
Qed.

Lemma substitute_kept {St} (f : jsstring -> Captures -> St -> jsstring * St)
    s st :
  substitute f (map Kept s) st = (s, st).
Proof.
  induction s as [|c s IH]; [reflexivity|]. simpl. now rewrite IH.
Qed.

Lemma rewrite_NoToken h d content :
  NoToken content -> rewrite mformat h d content = (content, false).
Proof.
  intros H. unfold rewrite, replace. rewrite (NoToken_matchAll _ H).
  apply substitute_kept.
Qed.





End RewriteFacts.

Lemma momentFormatOr_agrees : AgreesWithMoment momentFormatOr.
Proof. intros m f s H. unfold momentFormatOr. now rewrite H. Qed.

Local Opaque year month date zeroFill.

Lemma momentFormat_YMD m : momentFormat m (js "YYYY-MM-DD") = Some (formatYMD m).
Proof.
  unfold formatYMD, momentFormat. simpl. now rewrite app_nil_r.
Qed.

Local Transparent year month date zeroFill.

Lemma mformat_YMD mformat m :
  AgreesWithMoment mformat -> mformat m (js "YYYY-MM-DD") = formatYMD m.
Proof. intros H. apply H, momentFormat_YMD. Qed.





(** ** [replaceDatePlaceholders] on the editor *)

Section EditorFacts.
Variable mformat : Moment -> jsstring -> jsstring.
Variable hostError : App -> Call -> option jsstring.
Variable insertion : jsstring -> jsstring -> jsstring.

Local Abbreviation rewriteEditor :=
  (replaceDatePlaceholders mformat hostError insertion).

Lemma replaceDatePlaceholders_eq d h :
  rewriteEditor d h
  = match activeView h with
    | None => (h, inl tt)
    | Some (p, content) =>
        if snd (rewrite mformat h d content)
        then (withActiveView
                (Some (p, fst (rewrite mformat h d content)))
                (logged (SetValue (fst (rewrite mformat h d content))) h),
              inl tt)
        else (h, inl tt)
    end.
Proof.
  unfold replaceDatePlaceholders.
  unfold bind, gets, id, ret.
  destruct (activeView h) as [[p content]|] eqn:E; [|reflexivity].
  destruct (rewrite mformat h d content) as [content' modified].
  destruct modified; [|reflexivity].
  unfold call, rejected, effect. cbn [activeView logged snd fst]. now rewrite E.
Qed.

Lemma substitute_sticky h d ps :
  snd (substitute (replacer mformat h d) ps true) = true.
Proof.
  induction ps as [|[c | text caps] ps IH]; simpl.
  - reflexivity.
  - destruct (substitute _ ps true). assumption.
  - assert (Hr : snd (replacer mformat h d text caps true) = true).
    { unfold replacer.
      destruct (indexOf (toLowerCase (capture 1 caps)) days); [|reflexivity].
      now destruct (jsstring_eqb (trim (capture 2 caps)) (js "daily-note")). }
    destruct (replacer mformat h d text caps true) as [out st1].
    simpl in Hr. subst st1. destruct (substitute _ ps true). assumption.
Qed.

Lemma rewrite_matched h d s rest caps :
  exec placeholderRe s = Some (rest, caps) ->
  snd (rewrite mformat h d s) = true.
Proof.
  intros E. unfold rewrite, replace. rewrite matchAll_eq, E.
  apply exec_placeholder_iff in E as (name & spec & Hname & Hspec & -> & ->).
  cbn [substitute].
  pose proof (replacer_modified mformat h d name spec
                (firstn (length (tokenText name spec ++ rest) - length rest)
                        (tokenText name spec ++ rest)) false Hname) as Hm.
  destruct (replacer mformat h d _ _ false) as [out st1]. simpl in Hm. subst st1.
  pose proof (substitute_sticky h d (matchAll placeholderRe rest)) as Hs.
  destruct (substitute _ (matchAll placeholderRe rest) true). assumption.
Qed.

Lemma rewrite_unmodified h d s :
  snd (rewrite mformat h d s) = false -> fst (rewrite mformat h d s) = s.
Proof.
  induction s as [|c s IH]; intros H.
  - destruct (exec placeholderRe []) as [[rest caps]|] eqn:E.
    + rewrite (rewrite_matched _ _ _ _ _ E) in H. discriminate.
    + unfold rewrite, replace. now rewrite matchAll_eq, E.
  - destruct (exec placeholderRe (c :: s)) as [[rest caps]|] eqn:E.
    + rewrite (rewrite_matched _ _ _ _ _ E) in H. discriminate.
    + unfold rewrite, replace in *.
      rewrite (matchAll_eq (c :: s)), E in H |- *.
      cbn [substitute] in *.
      destruct (substitute (replacer mformat h d) (matchAll placeholderRe s) false)
        as [o st]. simpl in *. now rewrite IH.
Qed.

(** The editor holds the rewritten text afterwards, and nothing else of
    the state changes but the trace. *)
Lemma replaceDatePlaceholders_view d h p content :
  activeView h = Some (p, content) ->
  activeView (fst (rewriteEditor d h))
  = Some (p, fst (rewrite mformat h d content)).
Proof.
  intros E. rewrite replaceDatePlaceholders_eq, E.
  destruct (snd (rewrite mformat h d content)) eqn:Hm; [reflexivity|].
  simpl. now rewrite rewrite_unmodified.
Qed.

Lemma matched_not_NoToken s :
  existsb isMatched (matchAll placeholderRe s) = false -> NoToken s.
Proof.
  induction s as [|c s IH]; intros H pre name spec post Hname Hspec Hs.
  - destruct pre; discriminate.
  - rewrite matchAll_eq in H.
    destruct (exec placeholderRe (c :: s)) as [[rest caps]|] eqn:E;
      [discriminate|].
    destruct pre as [|c' pre].
    + assert (E' : exec placeholderRe (c :: s)
                   = Some (post, [(2%nat, spec); (1%nat, name)])).
      { apply exec_placeholder_iff. exists name, spec. now rewrite Hs. }
      congruence.
    + injection Hs as -> ->. simpl in H.
      now apply (IH H pre name spec post).
Qed.
End EditorFacts.

(** ** The placeholder claims *)

Lemma flat_map_render_token mformat h d name spec ps :
  flat_map (render mformat h d)
    (Matched (tokenText name spec) [(2%nat, spec); (1%nat, name)] :: ps)
  = replacement mformat h d name spec ++ flat_map (render mformat h d) ps.
Proof. reflexivity. Qed.

Lemma rewrite_split mformat h d pre name spec post :
  IsDayName name -> IsSpec spec ->
  ScanSplit pre (tokenText name spec ++ post) ->
  fst (rewrite mformat h d (pre ++ tokenText name spec ++ post))
  = fst (rewrite mformat h d pre) ++ replacement mformat h d name spec
    ++ fst (rewrite mformat h d post).
Proof.
  intros Hname Hspec Hsplit. rewrite !rewrite_text, Hsplit, flat_map_app.
  now rewrite matchAll_token, flat_map_render_token.
Qed.




Lemma days_length6 w : In w days -> (6 <= length w)%nat.
Proof.
  unfold days. simpl In. intros Hw.
  repeat (destruct Hw as [<- | Hw]); try destruct Hw; vm_compute; lia.
Qed.

Lemma isDayName_length name : IsDayName name -> (6 <= length name)%nat.
Proof.
  intros (w & Hw & Hci). apply days_length6 in Hw.
  apply (f_equal (@length N)) in Hci. rewrite !length_map in Hci. lia.
Qed.

(** C2, amended. The pattern matches at a position exactly when a token
    [!{{<weekday>:<spec>}}] starts there, where [<weekday>] is one of
    [sunday] ... [saturday] in any letter case and [<spec>] is one code unit
    other than a line terminator (it may be a closing brace) followed by any
    number of code units other than a closing brace; the weekday and the
    spec are what it captures. A text in which no such token occurs is left
    unchanged by the rewrite. *)
Theorem placeholder_pattern_tokens :
  (forall s rest caps,
      exec placeholderRe s = Some (rest, caps) <->
      exists name spec,
        IsDayName name /\ IsSpec spec /\ s = tokenText name spec ++ rest
        /\ caps = [(2%nat, spec); (1%nat, name)])
  /\ (forall mformat h d content,
         NoToken content -> rewrite mformat h d content = (content, false)).
Proof.
  split; [exact exec_placeholder_iff | exact rewrite_NoToken].
Qed.

(** C2 as stated fails: in [!{{monday:}}}] no token has a spec free of
    closing braces, and yet the rewrite replaces the text, the spec being
    the closing brace itself. *)
Lemma placeholder_spec_may_be_brace :
  NoClaimedToken (js "!{{monday:}}}")
  /\ rewrite momentFormatOr emptyApp wednesday_2024_03_06 (js "!{{monday:}}}")
     = (js "}", true).
Proof.
  split; [|vm_compute; reflexivity].
  intros pre name spec post Hname [Hne Hall] H.
  pose proof (isDayName_length _ Hname) as Hlen.
  pose proof (f_equal (@length N) H) as HL.
  unfold tokenText in HL. rewrite !length_app in HL.
  change (length (js "!{{monday:}}}")) with 13%nat in HL.
  change (length (js "!{{")) with 3%nat in HL.
  change (length (js ":")) with 1%nat in HL.
  change (length (js "}}")) with 2%nat in HL.
  destruct spec as [|x spec]; [congruence|]. simpl in HL.
  destruct pre; [|simpl in HL; lia].
  destruct spec; [|simpl in HL; lia].
  destruct name as [|a [|b [|c [|d [|e [|f [|g name]]]]]]]; simpl in Hlen, HL; try lia.
  vm_compute in H. inversion H; subst. inversion Hall; congruence.
Qed.

(** C5. When no token occurs in the document of the active editor, the
    rewrite leaves the whole state of the host as it is: the content is
    unchanged and [editor.setValue] is not called (the trace of calls does
    not grow). *)
Theorem no_token_no_edit mformat hostError insertion d h :
  (forall p content, activeView h = Some (p, content) -> NoToken content) ->
  replaceDatePlaceholders mformat hostError insertion d h = (h, inl tt).
Proof.
  intros H. rewrite replaceDatePlaceholders_eq.
  destruct (activeView h) as [[p content]|] eqn:E; [|reflexivity].
  now rewrite (rewrite_NoToken mformat h d content (H p content eq_refl)).
Qed.

Lemma no_token_no_edit_witness :
  replaceDatePlaceholders momentFormatOr noHostError appendTemplate
    wednesday_2024_03_06 (appShowing (js "Plans for {{monday}}: !{friday:YYYY}"))
  = (appShowing (js "Plans for {{monday}}: !{friday:YYYY}"), inl tt).
Proof.
  apply no_token_no_edit. intros p content [= <- <-].
  apply matched_not_NoToken. vm_compute. reflexivity.
Defined.

(** ** Links to daily notes *)

Lemma setDay_day d i : (0 <= i < 7)%Z -> day (setDay d i) = i.
Proof.
  intros Hi. unfold setDay, day. cbn [localDay].
  pose proof (Z.div_mod (localDay d + 4) 7 ltac:(lia)) as E.
  replace (localDay d + (i - (localDay d + 4) mod 7) + 4)%Z
    with (i + (localDay d + 4) / 7 * 7)%Z by lia.
  rewrite Z.mod_add by lia. now apply Z.mod_small.
Qed.

(** [setDay] stays in the week that starts on the same Sunday. *)
Lemma setDay_week d i :
  (localDay (setDay d i) - i = localDay d - day d)%Z.
Proof. unfold setDay. cbn [localDay]. lia. Qed.

Lemma replacement_daily_note mformat h d name spec :
  ciEq name (js "friday") -> trim spec = js "daily-note" ->
  replacement mformat h d name spec
  = match getDailyNoteLink mformat h (setDay d 5) with
    | Some link => if truthy link then link
                   else mformat (setDay d 5) (js "YYYY-MM-DD")
    | None => mformat (setDay d 5) (js "YYYY-MM-DD")
    end.
Proof.
  intros Hname Hspec. unfold replacement, replacer. cbn [capture Nat.eqb].
  rewrite (toLowerCase_day name (js "friday")), Hspec;
    [reflexivity | unfold days; simpl; tauto | assumption].
Qed.

(** C4. When the scan arrives at a token [!{{friday:<spec>}}] whose spec is
    [daily-note] once trimmed, the rewrite puts in its place: [Daily/] and
    the Friday of the week of the anchor formatted [YYYY-MM-DD], if the
    daily notes are enabled with the format [YYYY-MM-DD] and the folder
    [Daily]; that Friday formatted [YYYY-MM-DD] alone, if the daily notes
    are disabled or absent. The week is the one from Sunday to Saturday that
    contains the anchor. *)
Theorem friday_daily_note
    mformat hostError insertion h d p pre post name spec :
  AgreesWithMoment mformat ->
  ciEq name (js "friday") -> IsSpec spec -> trim spec = js "daily-note" ->
  activeView h = Some (p, pre ++ tokenText name spec ++ post) ->
  ScanSplit pre (tokenText name spec ++ post) ->
  let friday := setDay d 5 in
  let result :=
    activeView (fst (replaceDatePlaceholders mformat hostError insertion d h)) in
  let around (link : jsstring) :=
    Some (p, fst (rewrite mformat h d pre) ++ link
             ++ fst (rewrite mformat h d post)) in
  (day friday = 5 /\ localDay friday - 5 = localDay d - day d)%Z
  /\ ((exists tpl,
         dailyNotes h
         = Some (dailyNotesWith (js "YYYY-MM-DD") (js "Daily") tpl true)) ->
      result = around (js "Daily/" ++ formatYMD friday))
  /\ ((dailyNotes h = None
       \/ exists dn, dailyNotes h = Some dn /\ Daily.enabled dn = false) ->
      result = around (formatYMD friday)).
Proof.
  intros Hf Hname Hspec Htrim Hview Hsplit friday result around.
  assert (Hday : IsDayName name)
    by (exists (js "friday"); split; [unfold days; simpl; tauto | assumption]).
  assert (Hres : result
                 = around (replacement mformat h d name spec)).
  { unfold result, around.
    rewrite (replaceDatePlaceholders_view _ _ _ _ _ _ _ Hview).
    now rewrite (rewrite_split _ _ _ _ _ _ _ Hday Hspec Hsplit). }
  rewrite Hres, (replacement_daily_note _ _ _ _ _ Hname Htrim).
  fold friday. unfold getDailyNoteLink.
  split; [split; [now apply setDay_day | apply setDay_week]|].
  split.
  - intros [tpl ->]. cbn. now rewrite (mformat_YMD _ _ Hf).
  - intros [-> | (dn & -> & Hoff)].
    + now rewrite (mformat_YMD _ _ Hf).
    + rewrite Hoff. cbn. now rewrite (mformat_YMD _ _ Hf).
Qed.

Lemma friday_daily_note_witness :
  activeView
    (fst (replaceDatePlaceholders momentFormatOr noHostError appendTemplate
            wednesday_2024_03_06
            (appWithDaily (Some dailyInFolder)
               (js "[[!{{Friday: daily-note }}]]"))))
  = Some (weekNote, js "[[Daily/2024-03-08]]").
Proof.
  refine (proj1 (proj2
    (friday_daily_note momentFormatOr noHostError appendTemplate
       (appWithDaily (Some dailyInFolder) (js "[[!{{Friday: daily-note }}]]"))
       wednesday_2024_03_06 weekNote (js "[[") (js "]]")
       (js "Friday") (js " daily-note ")
       momentFormatOr_agrees _ _ _ _ _)) _).
  - reflexivity.
  - eexists _, _. split; [reflexivity|]. split; [reflexivity|].
    repeat constructor; discriminate.
  - vm_compute. reflexivity.
  - reflexivity.
  - vm_compute. reflexivity.
  - now exists (js "Templates/Daily").
Defined.

(** ** The earlier revision and the refactored one *)

Lemma matchAll_tokens s : Forall IsTokenPiece (matchAll placeholderRe s).
Proof.
  remember (length s) as n eqn:Hn. revert s Hn.
  induction n as [n IH] using lt_wf_ind. intros s ->.
  rewrite matchAll_eq.
  destruct (exec placeholderRe s) as [[rest caps]|] eqn:E.
  - apply exec_placeholder_iff in E as (name & spec & Hname & Hspec & -> & ->).
    constructor; [now exists name, spec|].
    apply (IH (length rest)); [|reflexivity].
    rewrite length_app. unfold tokenText. rewrite !length_app. simpl. lia.
  - destruct s as [|c s]; constructor; [exact I|].
    apply (IH (length s)); [simpl; lia | reflexivity].
Qed.

Lemma substitute_ext {St} (f g : jsstring -> Captures -> St -> jsstring * St)
    (ok : St -> Prop) ps st :
  ok st ->
  (forall text caps st', ok st' ->
     IsTokenPiece (Matched text caps) ->
     f text caps st' = g text caps st' /\ ok (snd (g text caps st'))) ->
  Forall IsTokenPiece ps ->
  fst (substitute f ps st) = fst (substitute g ps st).
Proof.
  intros Hok Hfg Hps. revert st Hok.
  induction Hps as [|[c | text caps] ps Hp _ IH]; intros st Hok; simpl.
  - reflexivity.
  - specialize (IH st Hok).
    destruct (substitute f ps st), (substitute g ps st). simpl in *. congruence.
  - destruct (Hfg text caps st Hok Hp) as [E Hok']. rewrite E.
    destruct (g text caps st) as [out st1]. simpl in Hok'.
    specialize (IH st1 Hok').
    destruct (substitute f ps st1), (substitute g ps st1). simpl in *. congruence.
Qed.

(** The two revisions compute the same text whenever the link to a daily
    note is not the empty string. *)
Lemma refactor_agrees_on_nonempty_links mformat h d content :
  (forall d', getDailyNoteLink mformat h d' <> Some []) ->
  fst (rewrite_v0 mformat h d content) = fst (rewrite mformat h d content).
Proof.
  intros Hlink. unfold rewrite_v0, rewrite, replace.
  apply substitute_ext with (ok := fun _ => True);
    [exact I | | apply matchAll_tokens].
  intros text caps st _ (name & spec & (w & Hw & Hname) & _ & ->).
  split; [|exact I].
  unfold replacer_v0, replacer. cbn [capture Nat.eqb].
  rewrite (toLowerCase_day _ _ Hw Hname).
  destruct (indexOf_In _ _ Hw) as [i ->].
  destruct (jsstring_eqb (trim spec) (js "daily-note")); [|reflexivity].
  specialize (Hlink (setDay d (Z.of_nat i))). unfold getDailyNoteLink in *.
  destruct (dailyNotes h) as [dn|]; [|reflexivity].
  destruct (Daily.enabled dn); [|reflexivity]. cbn [negb] in *.
  destruct (orString (Daily.folder (Daily.options dn)) []) as [|c dir]; [|reflexivity].
  cbn [truthy] in *.
  destruct (mformat _ (orString (Daily.format (Daily.options dn)) (js "YYYY-MM-DD")));
    [now destruct Hlink | reflexivity].
Qed.

(** C10 fails when the daily note plugin formats the date to the empty
    string (the format [[]] is a bracketed text with nothing in it): the
    earlier revision puts the empty link in place of the token, the
    refactored one takes the empty link for a missing one and falls back to
    [YYYY-MM-DD]. *)
Theorem refactor_differs_on_empty_link :
  momentFormat (setDay wednesday_2024_03_06 5) (js "[]") = Some []
  /\ fst (rewrite_v0 momentFormatOr
            (appWithDaily (Some dailyBracketFormat) (js "!{{friday:daily-note}}"))
            wednesday_2024_03_06 (js "!{{friday:daily-note}}"))
     = []
  /\ fst (rewrite momentFormatOr
            (appWithDaily (Some dailyBracketFormat) (js "!{{friday:daily-note}}"))
            wednesday_2024_03_06 (js "!{{friday:daily-note}}"))
     = js "2024-03-08".
Proof. repeat split; vm_compute; reflexivity. Qed.

(** ** Opening the weekly note *)

Lemma newCalls_app h h' t : trace h' = trace h ++ t -> newCalls h h' = t.
Proof.
  intros E. unfold newCalls. rewrite E.
  rewrite skipn_app, Nat.sub_diag, skipn_all. reflexivity.
Qed.

Lemma Keeps_refl h : Keeps h h.
Proof.
  split; [auto|]. exists []. split; [now rewrite app_nil_r | intros ? ? []].
Qed.

Lemma Keeps_trans h1 h2 h3 : Keeps h1 h2 -> Keeps h2 h3 -> Keeps h1 h3.
Proof.
  intros [V1 (t1 & T1 & C1)] [V2 (t2 & T2 & C2)]. split; [auto|].
  exists (t1 ++ t2). split; [now rewrite T2, T1, app_assoc|].
  intros p data Hin. apply in_app_or in Hin as [Hin | Hin]; eauto.
Qed.

Section HostFacts.
Variable mformat : Moment -> jsstring -> jsstring.
Variable strictValid : jsstring -> jsstring -> bool.
Variable normalizePath : jsstring -> jsstring.
Variable hostError : App -> Call -> option jsstring.
Variable insertion : jsstring -> jsstring -> jsstring.

Local Abbreviation callH := (call hostError insertion).
Local Abbreviation effectH := (effect insertion).

Lemma lookup_step p h :
  getAbstractFileByPath hostError insertion p h
  = (logged (Lookup p) h, inl (vault h !! p)).
Proof. reflexivity. Qed.

Lemma trace_logged c h : trace (logged c h) = trace h ++ [c].
Proof. reflexivity. Qed.

Lemma trace_effect c h : trace (effectH c h) = trace h.
Proof.
  destruct c; simpl; try reflexivity.
  - now destruct (vault h !! p) as [[]|].
  - now destruct (activeView h) as [[]|], (vault h !! p) as [[]|].
  - destruct (activeView h) as [[q ?]|]; [|reflexivity].
    now destruct (jsstring_eqb q p).
  - now destruct (activeView h) as [[]|].
Qed.

Lemma vault_effect c h p :
  is_Some (vault h !! p) -> is_Some (vault (effectH c h) !! p).
Proof.
  intros Hp.
  assert (Hins : forall q e, is_Some (<[q := e]> (vault h) !! p)).
  { intros q e. rewrite lookup_insert. case_decide; [eauto | assumption]. }
  destruct c; simpl; try assumption; try apply Hins.
  - now destruct (vault h !! p0) as [[]|].
  - now destruct (activeView h) as [[]|], (vault h !! p0) as [[]|].
  - destruct (activeView h) as [[q ?]|]; [|apply Hins].
    destruct (jsstring_eqb q p0); apply Hins.
  - now destruct (activeView h) as [[]|].
Qed.

Lemma vault_effect_Create p data h :
  vault (effectH (Create p data) h) !! p = Some (EFile data).
Proof. simpl. apply lookup_insert_eq. Qed.

Lemma Safe_call c : Safe (callH c).
Proof.
  intros h. unfold call.
  destruct (rejected hostError h c); [apply Keeps_refl|]. cbn [fst].
  split; [intros p Hp; now apply vault_effect|].
  exists [c]. split; [now rewrite trace_effect|].
  intros p data [-> | []]. rewrite vault_effect_Create. eauto.
Qed.

Lemma Safe_ret {A} (a : A) : Safe (ret a).
Proof. intros h. apply Keeps_refl. Qed.

Lemma Safe_throw {A} e : Safe (@throw A e).
Proof. intros h. apply Keeps_refl. Qed.

Lemma Safe_gets {A} (f : App -> A) : Safe (gets f).
Proof. intros h. apply Keeps_refl. Qed.

Lemma Safe_bind {A B} (c : M A) (f : A -> M B) :
  Safe c -> (forall a, Safe (f a)) -> Safe (bind c f).
Proof.
  intros Hc Hf h. unfold bind. specialize (Hc h).
  destruct (c h) as [h' [a | e]]; [|assumption].
  eapply Keeps_trans; [exact Hc | apply Hf].
Qed.

Lemma Safe_tryCatch {A} (c : M A) (handler : jsstring -> M A) :
  Safe c -> (forall e, Safe (handler e)) -> Safe (tryCatch c handler).
Proof.
  intros Hc Hf h. unfold tryCatch. specialize (Hc h).
  destruct (c h) as [h' [a | e]]; [assumption|].
  eapply Keeps_trans; [exact Hc | apply Hf].
Qed.

Ltac safe :=
  repeat first
    [ apply Safe_ret | apply Safe_throw | apply Safe_gets | apply Safe_call
    | apply Safe_bind | apply Safe_tryCatch
    | progress intros
    | match goal with
      | |- Safe (match ?x with _ => _ end) => destruct x
      | |- Safe (let '(_, _) := ?x in _) => destruct x
      end ].

Lemma Safe_getAbstractFileByPath p :
  Safe (getAbstractFileByPath hostError insertion p).
Proof. unfold getAbstractFileByPath. safe. Qed.

Lemma Safe_vaultRead p : Safe (vaultRead hostError insertion p).
Proof. unfold vaultRead. safe. Qed.

Lemma Safe_ensureFolderExists dir :
  Safe (ensureFolderExists normalizePath hostError insertion dir).
Proof.
  unfold ensureFolderExists.
  destruct (negb _ || _); [apply Safe_ret|].
  apply Safe_bind; [apply Safe_getAbstractFileByPath|]. safe.
Qed.

Variable settings : WeeklyNotesSettings.

Lemma Safe_applyTemplate file d :
  Safe (applyTemplate normalizePath hostError insertion settings file d).
Proof.
  unfold applyTemplate.
  apply Safe_bind; [apply Safe_getAbstractFileByPath|]. intros templateFile.
  apply Safe_bind.
  - destruct templateFile; [apply Safe_ret|].
    apply Safe_bind; [apply Safe_getAbstractFileByPath | safe].
  - intros [templatePath [[data|]|]]; safe.
Qed.

Lemma Safe_openWeeklyNote d :
  Safe (openWeeklyNote mformat normalizePath hostError insertion settings d).
Proof.
  unfold openWeeklyNote. apply Safe_tryCatch; [|safe].
  apply Safe_bind; [apply Safe_getAbstractFileByPath|]. intros file.
  apply Safe_bind.
  - destruct file; [apply Safe_ret|].
    apply Safe_bind; [apply Safe_ensureFolderExists | safe].
  - intros [[data|] created]; [|apply Safe_ret].
    apply Safe_bind; [apply Safe_call|]. intros _.
    destruct (created && _); [apply Safe_applyTemplate | apply Safe_ret].
Qed.
End HostFacts.

Section WeeklyNote.
Variable mformat : Moment -> jsstring -> jsstring.
Variable normalizePath : jsstring -> jsstring.
Variable hostError : App -> Call -> option jsstring.
Variable insertion : jsstring -> jsstring -> jsstring.
Variable settings : WeeklyNotesSettings.

Local Abbreviation openNote :=
  (openWeeklyNote mformat normalizePath hostError insertion settings).
Local Abbreviation effectH := (effect insertion).
Local Abbreviation pathOf := (weeklyPath mformat normalizePath settings).


End WeeklyNote.


(** ** Which calls a computation makes *)

Section EmitsFacts.
Variable hostError : App -> Call -> option jsstring.
Variable insertion : jsstring -> jsstring -> jsstring.
Variable P : Call -> bool.

Lemma Emits_ret {A} (a : A) : Emits P (ret a).
Proof. intros h. exists []. now rewrite app_nil_r. Qed.

Lemma Emits_throw {A} e : Emits P (@throw A e).
Proof. intros h. exists []. now rewrite app_nil_r. Qed.

Lemma Emits_gets {A} (f : App -> A) : Emits P (gets f).
Proof. intros h. exists []. now rewrite app_nil_r. Qed.

Lemma Emits_call c : P c = true -> Emits P (call hostError insertion c).
Proof.
  intros Hc h. unfold call.
  destruct (rejected hostError h c).
  - exists []. now rewrite app_nil_r.
  - exists [c]. cbn [fst]. rewrite trace_effect. simpl. now rewrite Hc.
Qed.

Lemma Emits_bind {A B} (c : M A) (f : A -> M B) :
  Emits P c -> (forall a, Emits P (f a)) -> Emits P (bind c f).
Proof.
  intros Hc Hf h. unfold bind. destruct (Hc h) as (t1 & T1 & P1).
  destruct (c h) as [h' [a | e]]; [|now exists t1].
  destruct (Hf a h') as (t2 & T2 & P2). exists (t1 ++ t2).
  cbn [fst] in T1. rewrite T2, T1, app_assoc. split; [reflexivity|].
  rewrite forallb_app. now rewrite P1, P2.
Qed.

Lemma Emits_tryCatch {A} (c : M A) (handler : jsstring -> M A) :
  Emits P c -> (forall e, Emits P (handler e)) -> Emits P (tryCatch c handler).
Proof.
  intros Hc Hf h. unfold tryCatch. destruct (Hc h) as (t1 & T1 & P1).
  destruct (c h) as [h' [a | e]]; [now exists t1|].
  destruct (Hf e h') as (t2 & T2 & P2). exists (t1 ++ t2).
  cbn [fst] in T1. rewrite T2, T1, app_assoc. split; [reflexivity|].
  rewrite forallb_app. now rewrite P1, P2.
Qed.

End EmitsFacts.

Ltac emits :=
  repeat first
    [ apply Emits_ret | apply Emits_throw | apply Emits_gets
    | apply Emits_call; reflexivity
    | apply Emits_bind | apply Emits_tryCatch
    | progress intros
    | match goal with
      | |- Emits _ (match ?x with _ => _ end) => destruct x
      | |- Emits _ (let '(_, _) := ?x in _) => destruct x
      end ].

(** ** Resolving the template *)

Section WeeklyTemplate.
Variable normalizePath : jsstring -> jsstring.
Variable hostError : App -> Call -> option jsstring.
Variable insertion : jsstring -> jsstring -> jsstring.
Variable settings : WeeklyNotesSettings.

Local Abbreviation applyWeekly :=
  (applyTemplate normalizePath hostError insertion settings).
Local Abbreviation literal := (normalizePath (template settings)).
Local Abbreviation withMd := (normalizePath (template settings ++ js ".md")).

Lemma applyTemplate_found file d h e :
  vault h !! literal = Some e ->
  exists rest,
    newCalls h (fst (applyWeekly file d h)) = Lookup literal :: rest
    /\ forallb notLookup rest = true.
Proof.
  intros E. unfold applyTemplate.
  unfold bind at 1. rewrite lookup_step, E. unfold bind at 1, ret at 1.
  match goal with
  | |- context [fst (?c (logged (Lookup literal) h))] =>
      assert (Hrest : Emits notLookup c) by (destruct e; emits)
  end.
  destruct (Hrest (logged (Lookup literal) h)) as (t & T & Pt).
  exists t. split; [|assumption]. apply newCalls_app.
  now rewrite T, trace_logged, <- app_assoc.
Qed.

Lemma applyTemplate_not_literal file d h :
  vault h !! literal = None ->
  exists rest,
    newCalls h (fst (applyWeekly file d h))
    = Lookup literal :: Lookup withMd :: rest
    /\ forallb notLookup rest = true.
Proof.
  intros E. unfold applyTemplate.
  unfold bind at 1. rewrite lookup_step, E.
  unfold bind at 1 2. rewrite lookup_step. unfold ret at 1.
  cbn [vault logged].
  match goal with
  | |- context [fst (?c (logged (Lookup withMd) (logged (Lookup literal) h)))] =>
      assert (Hrest : Emits notLookup c)
        by (destruct (vault h !! withMd) as [[]|]; emits)
  end.
  destruct (Hrest (logged (Lookup withMd) (logged (Lookup literal) h)))
    as (t & T & Pt).
  exists t. split; [|assumption]. apply newCalls_app.
  now rewrite T, !trace_logged, <- !app_assoc.
Qed.

Lemma applyTemplate_not_found file d h :
  vault h !! literal = None -> vault h !! withMd = None ->
  applyWeekly file d h
  = (logged (NewNotice (TemplateNotFound (template settings)))
       (logged (Lookup withMd) (logged (Lookup literal) h)), inl tt).
Proof.
  intros E1 E2. unfold applyTemplate.
  unfold bind at 1. rewrite lookup_step, E1.
  unfold bind at 1 2. rewrite lookup_step. unfold ret at 1.
  cbn [vault logged]. now rewrite E2.
Qed.
End WeeklyTemplate.

Lemma newCalls_0 h : newCalls h h = [].
Proof. apply newCalls_app. now rewrite app_nil_r. Qed.

Lemma newCalls_1 h c : newCalls h (logged c h) = [c].
Proof. now apply newCalls_app. Qed.

Lemma newCalls_2 h c1 c2 : newCalls h (logged c2 (logged c1 h)) = [c1; c2].
Proof. apply newCalls_app. cbn [trace logged]. now rewrite <- app_assoc. Qed.

Lemma newCalls_3 h c1 c2 c3 :
  newCalls h (logged c3 (logged c2 (logged c1 h))) = [c1; c2; c3].
Proof. apply newCalls_app. cbn [trace logged]. now rewrite <- !app_assoc. Qed.

Lemma newCalls_timers h h' t : newCalls h (withTimers t h') = newCalls h h'.
Proof. reflexivity. Qed.

Ltac calls :=
  cbn [fst];
  rewrite ?newCalls_timers, ?newCalls_3, ?newCalls_2, ?newCalls_1, ?newCalls_0.

Section DailyTemplate.
Variable strictValid : jsstring -> jsstring -> bool.
Variable normalizePath : jsstring -> jsstring.
Variable hostError : App -> Call -> option jsstring.
Variable insertion : jsstring -> jsstring -> jsstring.

Local Abbreviation onCreate :=
  (onFileCreate strictValid normalizePath hostError insertion).
Local Abbreviation guard := (dailyGuard strictValid normalizePath).
Local Abbreviation Created := (DailyNoteCreated strictValid normalizePath).
Local Abbreviation Resolves := (ResolvesDaily normalizePath).

Lemma orString_nil s : orString s [] = s.
Proof. now destruct s. Qed.

Lemma onFileCreate_eq f h :
  onCreate (IsFile f) h
  = match dailyNotes h with
    | Some dn =>
        if guard f dn then
          let dailyMd := normalizePath (Daily.template (Daily.options dn) ++ js ".md") in
          let dailyLiteral := normalizePath (Daily.template (Daily.options dn)) in
          let h1 := logged (Lookup dailyMd) h in
          match vault h !! dailyMd with
          | Some (EFile _) => (scheduleDaily dailyMd h1, inl tt)
          | Some EFolder => (h1, inl tt)
          | None =>
              let h2 := logged (Lookup dailyLiteral) h1 in
              match vault h !! dailyLiteral with
              | Some (EFile _) => (scheduleDaily dailyLiteral h2, inl tt)
              | _ => (h2, inl tt)
              end
          end
        else (h, inl tt)
    | None => (h, inl tt)
    end.
Proof.
  unfold onFileCreate, dailyGuard.
  destruct (jsstring_eqb (extension f) (js "md")); [|now destruct (dailyNotes h)].
  rewrite N.eqb_sym. unfold N.ltb, N.eqb.
  destruct (stat_size f) as [|sz]; [|now destruct (dailyNotes h)].
  cbn [negb orb andb N.compare].
  unfold bind at 1, gets at 1.
  destruct (dailyNotes h) as [dn|]; [|reflexivity].
  destruct (Daily.enabled dn); [|reflexivity]. cbn [negb andb].
  destruct (truthy (Daily.template (Daily.options dn))); [|reflexivity]. cbn [negb andb].
  destruct (strictValid _ _); [|reflexivity]. cbn [negb andb].
  rewrite orString_nil.
  set (md := normalizePath (Daily.template (Daily.options dn) ++ js ".md")).
  set (lit := normalizePath (Daily.template (Daily.options dn))).
  assert (Htail :
    forall k : jsstring * option Entry -> M unit,
      (forall p hh,
          k (p, None) hh = (hh, inl tt) /\ k (p, Some EFolder) hh = (hh, inl tt)
          /\ forall data, k (p, Some (EFile data)) hh
                          = (scheduleDaily p hh, inl tt)) ->
      (first <- getAbstractFileByPath hostError insertion md ;;
       found <- match first with
                | Some e => ret (md, Some e)
                | None =>
                    second <- getAbstractFileByPath hostError insertion lit ;;
                    ret (lit, second)
                end ;;
       k found) h
      = match vault h !! md with
        | Some (EFile _) => (scheduleDaily md (logged (Lookup md) h), inl tt)
        | Some EFolder => (logged (Lookup md) h, inl tt)
        | None =>
            match vault h !! lit with
            | Some (EFile _) =>
                (scheduleDaily lit (logged (Lookup lit) (logged (Lookup md) h)),
                 inl tt)
            | _ => (logged (Lookup lit) (logged (Lookup md) h), inl tt)
            end
        end).
  { intros k Hk. unfold bind at 1. rewrite lookup_step.
    destruct (vault h !! md) as [[data|]|].
    - unfold bind at 1, ret at 1. apply Hk.
    - unfold bind at 1, ret at 1. apply Hk.
    - unfold bind at 1 2. rewrite lookup_step. unfold ret at 1.
      cbn [vault logged].
      destruct (vault h !! lit) as [[data|]|]; apply Hk. }
  destruct (truthy (Daily.folder (Daily.options dn))); cbn [negb andb orb].
  2:{ apply Htail. intros p hh. repeat split.
      intros data. unfold bind, gets, scheduleDaily.
      now destruct (templates hh) as [[]|]. }
  destruct (parent f) as [pp|]; [|reflexivity].
  destruct (jsstring_eqb pp _); [|reflexivity]. cbn [negb].
  apply Htail. intros p hh. repeat split.
  intros data. unfold bind, gets, scheduleDaily.
  now destruct (templates hh) as [[]|].
Qed.

Lemma truthy_true s : truthy s = true <-> s <> [].
Proof. destruct s; simpl; split; congruence. Qed.

Lemma dailyGuard_iff f dn : guard f dn = true <-> Created f dn.
Proof.
  unfold dailyGuard, DailyNoteCreated.
  rewrite !andb_true_iff, orb_true_iff, negb_true_iff, jsstring_eqb_eq,
    N.eqb_eq, truthy_true.
  assert (Hdir : truthy (Daily.folder (Daily.options dn)) = false
                 <-> Daily.folder (Daily.options dn) = []).
  { destruct (Daily.folder (Daily.options dn)); simpl; split; congruence. }
  rewrite Hdir.
  assert (Hpar : match parent f with
                 | Some pp =>
                     jsstring_eqb pp (normalizePath (Daily.folder (Daily.options dn)))
                 | None => false
                 end = true
                 <-> parent f = Some (normalizePath (Daily.folder (Daily.options dn)))).
  { destruct (parent f) as [pp|]; [|split; discriminate].
    rewrite jsstring_eqb_eq. split; congruence. }
  rewrite Hpar. tauto.
Qed.

(** C7, amended. [onFileCreate] sets the timer that inserts the template
    [tpl] exactly when: the created entry is a file with the extension
    [md] and the size 0; the daily notes plugin is enabled and has a
    template configured; the base name of the file parses strictly against
    the daily format ([YYYY-MM-DD] when none is configured); the parent
    folder of the file is the normalized daily folder, when one is
    configured; the template resolves to the file [tpl]; and the
    Templates plugin is enabled. *)
Theorem daily_template_trigger file h tpl :
  In (SetTimeout (InsertDailyTemplate tpl) 200)
     (newCalls h (fst (onCreate file h)))
  <-> exists f dn,
        file = IsFile f /\ dailyNotes h = Some dn
        /\ Created f dn
        /\ Resolves (vault h) (Daily.template (Daily.options dn)) tpl
        /\ templates h = Some true.
Proof.
  destruct file as [f|p].
  2:{ change (onCreate (IsFolder p) h) with (h, @inl unit jsstring tt).
      calls. split; [intros [] | intros (f & dn & [=] & _)]. }
  rewrite onFileCreate_eq.
  destruct (dailyNotes h) as [dn|] eqn:Edn.
  2:{ calls. split; [intros [] | intros (f' & dn' & _ & [=] & _)]. }
  destruct (guard f dn) eqn:G.
  2:{ calls. split; [intros []|].
      intros (f' & dn' & [= <-] & [= <-] & Hg & _).
      apply dailyGuard_iff in Hg. congruence. }
  apply dailyGuard_iff in G. cbv zeta. unfold ResolvesDaily, scheduleDaily.
  set (md := normalizePath (Daily.template (Daily.options dn) ++ js ".md")).
  set (lit := normalizePath (Daily.template (Daily.options dn))).
  cbn [templates logged].
  destruct (vault h !! md) as [[data|]|] eqn:E1.
  - destruct (templates h) as [[]|] eqn:Et; calls.
    + split.
      * intros [[=] | [[= <-] | []]]. exists f, dn.
        repeat split; try assumption; try apply G. left. eauto.
      * intros (f' & dn' & [= <-] & [= <-] & _ & Hr & _).
        fold md lit in Hr.
        destruct Hr as [[-> _] | [Hnone _]]; [simpl; auto | congruence].
    + split; [intros [[=] | []] | intros (? & ? & _ & _ & _ & _ & [=])].
    + split; [intros [[=] | []] | intros (? & ? & _ & _ & _ & _ & [=])].
  - calls. split; [intros [[=] | []]|].
    intros (f' & dn' & [= <-] & [= <-] & _ & Hr & _). fold md lit in Hr.
    destruct Hr as [[-> [data Hd]] | [Hnone _]]; congruence.
  - destruct (vault h !! lit) as [[data|]|] eqn:E2.
    + destruct (templates h) as [[]|] eqn:Et; calls.
      * split.
        -- intros [[=] | [[=] | [[= <-] | []]]]. exists f, dn.
           repeat split; try assumption; try apply G. right. eauto.
        -- intros (f' & dn' & [= <-] & [= <-] & _ & Hr & _).
           fold md lit in Hr.
           destruct Hr as [[-> [data' Hd]] | [_ [-> _]]];
             [congruence | simpl; auto].
      * split; [intros [[=] | [[=] | []]]
               | intros (? & ? & _ & _ & _ & _ & [=])].
      * split; [intros [[=] | [[=] | []]]
               | intros (? & ? & _ & _ & _ & _ & [=])].
    + calls. split; [intros [[=] | [[=] | []]]|].
      intros (f' & dn' & [= <-] & [= <-] & _ & Hr & _). fold md lit in Hr.
      destruct Hr as [[-> [data Hd]] | [_ [-> [data Hd]]]]; congruence.
    + calls. split; [intros [[=] | [[=] | []]]|].
      intros (f' & dn' & [= <-] & [= <-] & _ & Hr & _). fold md lit in Hr.
      destruct Hr as [[-> [data Hd]] | [_ [-> [data Hd]]]]; congruence.
Qed.

Lemma onFileCreate_md_found f dn h e :
  dailyNotes h = Some dn -> guard f dn = true ->
  vault h !! normalizePath (Daily.template (Daily.options dn) ++ js ".md") = Some e ->
  exists rest,
    newCalls h (fst (onCreate (IsFile f) h))
    = Lookup (normalizePath (Daily.template (Daily.options dn) ++ js ".md")) :: rest
    /\ forallb notLookup rest = true.
Proof.
  intros Edn G E. rewrite onFileCreate_eq, Edn, G. cbv zeta. rewrite E.
  destruct e as [data|]; [|calls; now exists []].
  unfold scheduleDaily. cbn [templates logged].
  destruct (templates h) as [[]|]; calls; eexists; split; reflexivity.
Qed.

Lemma onFileCreate_md_missing f dn h :
  dailyNotes h = Some dn -> guard f dn = true ->
  vault h !! normalizePath (Daily.template (Daily.options dn) ++ js ".md") = None ->
  exists rest,
    newCalls h (fst (onCreate (IsFile f) h))
    = Lookup (normalizePath (Daily.template (Daily.options dn) ++ js ".md"))
      :: Lookup (normalizePath (Daily.template (Daily.options dn))) :: rest
    /\ forallb notLookup rest = true.
Proof.
  intros Edn G E. rewrite onFileCreate_eq, Edn, G. cbv zeta. rewrite E.
  destruct (vault h !! normalizePath (Daily.template (Daily.options dn))) as [[data|]|];
    [|calls; now exists []..].
  unfold scheduleDaily. cbn [templates logged].
  destruct (templates h) as [[]|]; calls; eexists; split; reflexivity.
Qed.
End DailyTemplate.

Section BothTemplates.
Variable strictValid : jsstring -> jsstring -> bool.
Variable normalizePath : jsstring -> jsstring.
Variable hostError : App -> Call -> option jsstring.
Variable insertion : jsstring -> jsstring -> jsstring.
Variable settings : WeeklyNotesSettings.

Local Abbreviation applyWeekly :=
  (applyTemplate normalizePath hostError insertion settings).
Local Abbreviation onCreate :=
  (onFileCreate strictValid normalizePath hostError insertion).
Local Abbreviation guard := (dailyGuard strictValid normalizePath).
Local Abbreviation literal := (normalizePath (template settings)).
Local Abbreviation withMd := (normalizePath (template settings ++ js ".md")).

(** C3, amended. The weekly applier looks the configured template path up
    as it is and, only when nothing is there, with [.md] appended; when
    neither is there it shows the notice that the template was not found
    once, and changes neither the vault nor the editor nor the timers.
    The handler of created files looks the path up with [.md] appended
    first, and as it is only when nothing is there. No other lookup is
    made after these. *)
Theorem template_lookup_order file d f dn h :
  let after := fst (applyWeekly file d h) in
  let created := fst (onCreate (IsFile f) h) in
  let dailyMd := normalizePath (Daily.template (Daily.options dn) ++ js ".md") in
  let dailyLiteral := normalizePath (Daily.template (Daily.options dn)) in
  ((exists e, vault h !! literal = Some e) ->
     exists rest, newCalls h after = Lookup literal :: rest
                  /\ forallb notLookup rest = true)
  /\ (vault h !! literal = None ->
        exists rest, newCalls h after = Lookup literal :: Lookup withMd :: rest
                     /\ forallb notLookup rest = true)
  /\ (vault h !! literal = None -> vault h !! withMd = None ->
        newCalls h after
        = [Lookup literal; Lookup withMd;
           NewNotice (TemplateNotFound (template settings))]
        /\ vault after = vault h /\ activeView after = activeView h
        /\ timers after = timers h)
  /\ (dailyNotes h = Some dn -> guard f dn = true ->
        ((exists e, vault h !! dailyMd = Some e) ->
           exists rest, newCalls h created = Lookup dailyMd :: rest
                        /\ forallb notLookup rest = true)
        /\ (vault h !! dailyMd = None ->
              exists rest,
                newCalls h created
                = Lookup dailyMd :: Lookup dailyLiteral :: rest
                /\ forallb notLookup rest = true)).
Proof.
  intros after created dailyMd dailyLiteral.
  assert (Hmissing : vault h !! literal = None -> vault h !! withMd = None ->
            after = logged (NewNotice (TemplateNotFound (template settings)))
                      (logged (Lookup withMd) (logged (Lookup literal) h))).
  { intros E1 E2. unfold after. now rewrite applyTemplate_not_found. }
  split; [|split; [|split]].
  - intros [e E]. now apply applyTemplate_found with (e := e).
  - now apply applyTemplate_not_literal.
  - intros E1 E2. rewrite (Hmissing E1 E2).
    split; [apply newCalls_3 | repeat split].
  - intros Edn G. split.
    + intros [e E]. now apply onFileCreate_md_found with (dn := dn) (e := e).
    + now apply onFileCreate_md_missing.
Qed.

(** C8, amended. A weekly template that is not found is reported by one
    notice, and [applyTemplate] returns normally with the vault, the open
    note and the timers untouched: the note stays open and empty. The
    handler of created files never shows a notice, so a daily template that
    is not found goes unreported. *)
Theorem template_not_found_reporting file d h :
  (vault h !! literal = None -> vault h !! withMd = None ->
     exists after,
       applyWeekly file d h = (after, inl tt)
       /\ filter isNotice (newCalls h after)
          = [NewNotice (TemplateNotFound (template settings))]
       /\ vault after = vault h /\ activeView after = activeView h
       /\ timers after = timers h)
  /\ (forall created,
        filter isNotice (newCalls h (fst (onCreate created h))) = []).
Proof.
  split.
  - intros E1 E2. eexists. split; [now apply applyTemplate_not_found|].
    rewrite newCalls_3. repeat split.
  - intros [f|p]; [|now rewrite newCalls_0].
    rewrite onFileCreate_eq.
    destruct (dailyNotes h) as [dn|]; [|now rewrite newCalls_0].
    destruct (guard f dn); [|now rewrite newCalls_0].
    cbv zeta. unfold scheduleDaily. cbn [templates logged].
    destruct (vault h !! _) as [[data|]|].
    + destruct (templates h) as [[]|]; calls; reflexivity.
    + calls. reflexivity.
    + destruct (vault h !! _) as [[data|]|];
        [destruct (templates h) as [[]|]|..]; calls; reflexivity.
Qed.
End BothTemplates.

(** ** Examples on a concrete host *)

Lemma template_lookup_order_witness :
  let h := appShowing [] in
  let after :=
    fst (applyTemplate samePath noHostError appendTemplate
           templateSettings
           weekNote wednesday_2024_03_06 h) in
  newCalls h after
  = [Lookup (js "Templates/Weekly"); Lookup (js "Templates/Weekly.md");
     NewNotice (TemplateNotFound (js "Templates/Weekly"))]
  /\ vault after = vault h /\ activeView after = activeView h
  /\ timers after = timers h.
Proof.
  refine (proj1 (proj2 (proj2
    (template_lookup_order strictValidYMD samePath noHostError appendTemplate
       templateSettings
       weekNote wednesday_2024_03_06 createdDaily dailyInFolder
       (appShowing [])))) _ _); reflexivity.
Defined.

(** C3 as stated fails for the handler of created files: with a file at the
    literal path and another at the path with [.md], literal-first resolution
    gives the former, and the handler takes the latter without looking the
    literal path up. *)
Lemma daily_template_md_first :
  literalFirst bothTemplates samePath (js "Templates/Daily")
  = Some (js "Templates/Daily")
  /\ newCalls (appDaily bothTemplates true)
       (fst (onFileCreate strictValidYMD samePath noHostError appendTemplate
               (IsFile createdDaily) (appDaily bothTemplates true)))
     = [Lookup (js "Templates/Daily.md");
        SetTimeout (InsertDailyTemplate (js "Templates/Daily.md")) 200].
Proof. split; vm_compute; reflexivity. Qed.

Lemma daily_template_trigger_witness :
  In (SetTimeout (InsertDailyTemplate (js "Templates/Daily.md")) 200)
     (newCalls (appDaily bothTemplates true)
        (fst (onFileCreate strictValidYMD samePath noHostError appendTemplate
                (IsFile createdDaily) (appDaily bothTemplates true)))).
Proof.
  apply (proj2 (daily_template_trigger strictValidYMD samePath noHostError
                  appendTemplate (IsFile createdDaily)
                  (appDaily bothTemplates true) (js "Templates/Daily.md"))).
  exists createdDaily, dailyInFolder.
  split; [reflexivity|]. split; [reflexivity|].
  split; [repeat split; try reflexivity; try discriminate; now right|].
  split; [left; split; [reflexivity | exists (js "with md"); reflexivity]|].
  reflexivity.
Defined.

(** C7 as stated fails: a file that meets the four conditions of the
    specification does not get the template when the Templates plugin is
    off. *)
Lemma daily_template_needs_templates_plugin :
  ClaimedTrigger strictValidYMD createdDaily dailyInFolder
  /\ newCalls (appDaily bothTemplates false)
       (fst (onFileCreate strictValidYMD samePath noHostError appendTemplate
               (IsFile createdDaily) (appDaily bothTemplates false)))
     = [Lookup (js "Templates/Daily.md")]
  /\ timers (fst (onFileCreate strictValidYMD samePath noHostError appendTemplate
                    (IsFile createdDaily) (appDaily bothTemplates false)))
     = [].
Proof.
  split; [|split; vm_compute; reflexivity].
  repeat split; try reflexivity. now right.
Qed.

Lemma template_not_found_reporting_witness :
  exists after,
    applyTemplate samePath noHostError appendTemplate
      templateSettings
      weekNote wednesday_2024_03_06 (appShowing [])
    = (after, inl tt)
    /\ filter isNotice (newCalls (appShowing []) after)
       = [NewNotice (TemplateNotFound (js "Templates/Weekly"))]
    /\ vault after = vault (appShowing [])
    /\ activeView after = activeView (appShowing [])
    /\ timers after = timers (appShowing []).
Proof.
  refine (proj1
    (template_not_found_reporting strictValidYMD samePath noHostError
       appendTemplate
       templateSettings
       weekNote wednesday_2024_03_06 (appShowing [])) _ _); reflexivity.
Defined.

(** C8 as stated fails for the daily template: when it is not found the
    handler makes its two lookups and shows no notice. *)
Lemma daily_template_missing_is_silent :
  let after :=
    fst (onFileCreate strictValidYMD samePath noHostError appendTemplate
           (IsFile createdDaily) (appDaily ∅ true)) in
  newCalls (appDaily ∅ true) after
  = [Lookup (js "Templates/Daily.md"); Lookup (js "Templates/Daily")]
  /\ ~ exists n, In (NewNotice n) (newCalls (appDaily ∅ true) after).
Proof.
  assert (E : newCalls (appDaily ∅ true)
                (fst (onFileCreate strictValidYMD samePath noHostError
                        appendTemplate (IsFile createdDaily) (appDaily ∅ true)))
              = [Lookup (js "Templates/Daily.md"); Lookup (js "Templates/Daily")])
    by (vm_compute; reflexivity).
  cbv zeta. rewrite E. split; [reflexivity|].
  intros [n [H | [H | []]]]; discriminate.
Qed.

(** * More of the plugin *)

(** ** More on the rewriting of placeholders *)

Section MoreRewriting.
Variable mformat : Moment -> jsstring -> jsstring.

Lemma rewrite_modified h d s :
  snd (rewrite mformat h d s) = existsb isMatched (matchAll placeholderRe s).
Proof.
  induction s as [|c s IH].
  - destruct (exec placeholderRe []) as [[rest caps]|] eqn:E.
    + rewrite (rewrite_matched mformat h d _ _ _ E).
      now rewrite matchAll_eq, E.
    + unfold rewrite, replace. now rewrite matchAll_eq, E.
  - destruct (exec placeholderRe (c :: s)) as [[rest caps]|] eqn:E.
    + rewrite (rewrite_matched mformat h d _ _ _ E).
      now rewrite matchAll_eq, E.
    + unfold rewrite, replace in *. rewrite (matchAll_eq (c :: s)), E.
      cbn [substitute existsb isMatched orb].
      destruct (substitute (replacer mformat h d) (matchAll placeholderRe s) false)
        as [o st]. exact IH.
Qed.

Lemma token_is_matched pre name spec post :
  IsDayName name -> IsSpec spec ->
  existsb isMatched (matchAll placeholderRe (pre ++ tokenText name spec ++ post))
  = true.
Proof.
  intros Hname Hspec.
  destruct (existsb isMatched _) eqn:E; [reflexivity|].
  apply matched_not_NoToken in E.
  now destruct (E pre name spec post Hname Hspec).
Qed.

Lemma nth_error_days i w :
  nth_error days i = Some w ->
  In w days /\ indexOf w days = Some i /\ (Z.of_nat i < 7)%Z.
Proof.
  intros H.
  do 7 (destruct i as [|i];
        [injection H as <-;
         split; [unfold days; simpl; tauto | split; [vm_compute; reflexivity | lia]]|]).
  destruct i; discriminate.
Qed.

Lemma replacer_day h d i w name spec text :
  nth_error days i = Some w -> ciEq name w ->
  replacer mformat h d text [(2%nat, spec); (1%nat, name)] false
  = let targetDate := setDay d (Z.of_nat i) in
    if jsstring_eqb (trim spec) (js "daily-note") then
      (match getDailyNoteLink mformat h targetDate with
       | Some link => if truthy link then link
                      else mformat targetDate (js "YYYY-MM-DD")
       | None => mformat targetDate (js "YYYY-MM-DD")
       end, true)
    else (mformat targetDate spec, true).
Proof.
  intros Hi Hname. destruct (nth_error_days _ _ Hi) as (Hw & Hidx & _).
  unfold replacer. cbn [capture Nat.eqb].
  now rewrite (toLowerCase_day name w Hw Hname), Hidx.
Qed.

Lemma replacement_custom h d i w name spec :
  nth_error days i = Some w -> ciEq name w ->
  trim spec <> js "daily-note" ->
  replacement mformat h d name spec = mformat (setDay d (Z.of_nat i)) spec.
Proof.
  intros Hi Hname Hspec. unfold replacement.
  rewrite (replacer_day h d i w name spec _ Hi Hname). cbv zeta.
  unfold jsstring_eqb. now rewrite bool_decide_eq_false_2.
Qed.

Lemma replacement_daily h d i w name spec :
  nth_error days i = Some w -> ciEq name w ->
  trim spec = js "daily-note" ->
  replacement mformat h d name spec
  = match getDailyNoteLink mformat h (setDay d (Z.of_nat i)) with
    | Some link => if truthy link then link
                   else mformat (setDay d (Z.of_nat i)) (js "YYYY-MM-DD")
    | None => mformat (setDay d (Z.of_nat i)) (js "YYYY-MM-DD")
    end.
Proof.
  intros Hi Hname Hspec. unfold replacement.
  rewrite (replacer_day h d i w name spec _ Hi Hname). cbv zeta.
  now rewrite Hspec.
Qed.


End MoreRewriting.

Lemma replaceDatePlaceholders_token
    mformat hostError insertion d h p pre name spec post :
  IsDayName name -> IsSpec spec ->
  activeView h = Some (p, pre ++ tokenText name spec ++ post) ->
  let out := fst (rewrite mformat h d (pre ++ tokenText name spec ++ post)) in
  replaceDatePlaceholders mformat hostError insertion d h
  = (withActiveView (Some (p, out)) (logged (SetValue out) h), inl tt).
Proof.
  intros Hname Hspec Hview out.
  rewrite replaceDatePlaceholders_eq, Hview, rewrite_modified.
  now rewrite token_is_matched.
Qed.

Lemma replaceDatePlaceholders_quiet mformat hostError insertion d h :
  let r := replaceDatePlaceholders mformat hostError insertion d h in
  snd r = inl tt
  /\ vault (fst r) = vault h
  /\ dailyNotes (fst r) = dailyNotes h
  /\ templates (fst r) = templates h
  /\ timers (fst r) = timers h
  /\ option_map fst (activeView (fst r)) = option_map fst (activeView h)
  /\ (newCalls h (fst r) = []
      \/ exists content, newCalls h (fst r) = [SetValue content]).
Proof.
  cbv zeta. rewrite replaceDatePlaceholders_eq.
  destruct (activeView h) as [[p content]|] eqn:E.
  - destruct (snd (rewrite mformat h d content)); cbn [fst snd].
    + repeat split; try reflexivity.
      right. eexists. apply newCalls_1.
    + repeat split; try reflexivity; [now rewrite E|].
      left. apply newCalls_0.
  - cbn [fst snd]. repeat split; try reflexivity; try (now rewrite E).
    left. apply newCalls_0.
Qed.






(** ** Dates that depend on the week only *)

Lemma momentFormatFrom_localDay n m m' f :
  localDay m = localDay m' ->
  momentFormatFrom n m f = momentFormatFrom n m' f.
Proof.
  intros H.
  assert (Hy : year m = year m') by (unfold year; now rewrite H).
  assert (Hmo : month m = month m') by (unfold month; now rewrite H).
  assert (Hd : date m = date m') by (unfold date; now rewrite H).
  revert f. induction n as [|n IH]; intros f; [reflexivity|].
  cbn [momentFormatFrom]. destruct f as [|c f']; [reflexivity|].
  rewrite Hy, Hmo, Hd.
  destruct (c =? 91).
  - destruct (bracketed f') as [[lit rest]|]; [|reflexivity]. now rewrite IH.
  - destruct ((c =? 89) || (c =? 77) || (c =? 68)).
    + destruct (spanChar c (c :: f')) as [k rest].
      match goal with
      | |- context [match ?x with Some _ => _ | None => _ end] => destruct x
      end; [now rewrite IH | reflexivity].
    + destruct (isPlainFormatChar c); [now rewrite IH | reflexivity].
Qed.

Lemma momentFormat_localDay m m' f :
  localDay m = localDay m' -> momentFormat m f = momentFormat m' f.
Proof.
  intros H. unfold momentFormat. destruct f; [reflexivity|].
  now apply momentFormatFrom_localDay.
Qed.

Lemma setDay_SameWeek d d' i :
  SameWeek d d' -> localDay (setDay d i) = localDay (setDay d' i).
Proof. unfold SameWeek, setDay. cbn [localDay]. lia. Qed.

(** X5. The day of the week on which the note is made does not matter:
    for two anchor moments in the same week from Sunday to Saturday, at any
    times of day, a token with a format text made of year, month and day
    fields (a format that [momentFormat] covers) is replaced by the same
    text. *)
Theorem same_week_same_dates mformat h h' d d' i w name spec out :
  AgreesWithMoment mformat ->
  nth_error days i = Some w -> ciEq name w ->
  trim spec <> js "daily-note" ->
  SameWeek d d' ->
  momentFormat (setDay d (Z.of_nat i)) spec = Some out ->
  replacement mformat h d name spec = out
  /\ replacement mformat h' d' name spec = out.
Proof.
  intros Hf Hi Hname Htrim Hweek Hout.
  rewrite !(replacement_custom mformat _ _ i w name spec Hi Hname Htrim).
  split; apply Hf; [exact Hout|].
  rewrite <- Hout. apply momentFormat_localDay. symmetry.
  now apply setDay_SameWeek.
Qed.

Lemma same_week_same_dates_witness :
  replacement momentFormatOr emptyApp wednesday_2024_03_06
    (js "Tuesday") (js "YYYY/MM/DD") = js "2024/03/05"
  /\ replacement momentFormatOr emptyApp (mkMoment 19791 1000)
       (js "Tuesday") (js "YYYY/MM/DD") = js "2024/03/05".
Proof.
  apply (same_week_same_dates momentFormatOr emptyApp emptyApp
           wednesday_2024_03_06 (mkMoment 19791 1000) 2%nat (js "tuesday")
           (js "Tuesday") (js "YYYY/MM/DD") (js "2024/03/05")).
  - exact momentFormatOr_agrees.
  - reflexivity.
  - reflexivity.
  - vm_compute. discriminate.
  - vm_compute. reflexivity.
  - vm_compute. reflexivity.
Defined.

(** ** Links to daily notes, in general *)



Lemma formatYMD_not_empty m : formatYMD m <> [].
Proof.
  unfold formatYMD. intros E.
  apply app_eq_nil in E as [_ E]. apply app_eq_nil in E as [E _].
  discriminate E.
Qed.

(** X7. In the refactored revision a [daily-note] token is never replaced
    by the empty text, whatever the settings of the daily notes are: an
    empty link gives way to the date as [YYYY-MM-DD]. *)
Theorem daily_note_link_never_empty mformat h d name spec :
  AgreesWithMoment mformat ->
  IsDayName name -> trim spec = js "daily-note" ->
  replacement mformat h d name spec <> [].
Proof.
  intros Hf (w & Hw & Hname) Htrim.
  apply In_nth_error in Hw as [i Hi].
  rewrite (replacement_daily mformat h d i w name spec Hi Hname Htrim).
  rewrite (mformat_YMD _ _ Hf).
  destruct (getDailyNoteLink mformat h (setDay d (Z.of_nat i))) as [link|];
    [|apply formatYMD_not_empty].
  destruct link; [apply formatYMD_not_empty | discriminate].
Qed.

Lemma daily_note_link_never_empty_witness :
  replacement momentFormatOr (appWithDaily (Some dailyBracketFormat) [])
    wednesday_2024_03_06 (js "friday") (js "daily-note") <> [].
Proof.
  apply (daily_note_link_never_empty momentFormatOr
           (appWithDaily (Some dailyBracketFormat) [])
           wednesday_2024_03_06 (js "friday") (js "daily-note")).
  - exact momentFormatOr_agrees.
  - exists (js "friday"). split; [unfold days; simpl; tauto | reflexivity].
  - vm_compute. reflexivity.
Defined.

(** ** The handler of the [create] event *)

(** X8. [onFileCreate] returns without an exception on every file and
    state; it writes nothing to the vault and does not touch the editor or
    the core plugins; the calls it makes are lookups in the vault and at
    most one [setTimeout], of 200 ms, for the insertion of a template. *)
Theorem create_event_only_schedules
    strictValid normalizePath hostError insertion file h :
  let r := onFileCreate strictValid normalizePath hostError insertion file h in
  snd r = inl tt
  /\ vault (fst r) = vault h
  /\ activeView (fst r) = activeView h
  /\ dailyNotes (fst r) = dailyNotes h
  /\ templates (fst r) = templates h
  /\ (timers (fst r) = timers h
      \/ exists tpl,
           timers (fst r) = timers h ++ [(200, InsertDailyTemplate tpl)])
  /\ forallb (fun c => isLookup c || isTimer c) (newCalls h (fst r)) = true.
Proof.
  cbv zeta. destruct file as [f|p].
  2:{ cbn. rewrite newCalls_0. repeat split; auto. }
  rewrite onFileCreate_eq.
  assert (Hquiet : forall h', h' = h \/ (exists a, h' = logged (Lookup a) h)
                     \/ (exists a b, h' = logged (Lookup b) (logged (Lookup a) h)) ->
    vault h' = vault h /\ activeView h' = activeView h
    /\ dailyNotes h' = dailyNotes h /\ templates h' = templates h
    /\ timers h' = timers h
    /\ forallb (fun c => isLookup c || isTimer c) (newCalls h h') = true).
  { intros h' [-> | [[a ->] | (a & b & ->)]]; calls; repeat split. }
  assert (Hsched : forall tpl h',
    h' = h \/ (exists a, h' = logged (Lookup a) h)
    \/ (exists a b, h' = logged (Lookup b) (logged (Lookup a) h)) ->
    vault (scheduleDaily tpl h') = vault h
    /\ activeView (scheduleDaily tpl h') = activeView h
    /\ dailyNotes (scheduleDaily tpl h') = dailyNotes h
    /\ templates (scheduleDaily tpl h') = templates h
    /\ (timers (scheduleDaily tpl h') = timers h
        \/ exists t,
             timers (scheduleDaily tpl h') = timers h ++ [(200, InsertDailyTemplate t)])
    /\ forallb (fun c => isLookup c || isTimer c)
         (newCalls h (scheduleDaily tpl h')) = true).
  { intros tpl h' Hh'. unfold scheduleDaily.
    destruct (templates h') as [[|]|] eqn:Et.
    2,3: destruct (Hquiet h' Hh') as (? & ? & ? & ? & ? & ?); repeat split; auto.
    destruct Hh' as [-> | [[a ->] | (a & b & ->)]];
      (repeat split; try reflexivity; try assumption;
       [right; now exists tpl | apply forallb_forall; intros c Hc]).
    - rewrite newCalls_timers, newCalls_1 in Hc.
      destruct Hc as [<- | []]. reflexivity.
    - rewrite newCalls_timers, newCalls_2 in Hc.
      destruct Hc as [<- | [<- | []]]; reflexivity.
    - rewrite newCalls_timers, newCalls_3 in Hc.
      destruct Hc as [<- | [<- | [<- | []]]]; reflexivity. }
  assert (Hq : forall h', h' = h \/ (exists a, h' = logged (Lookup a) h)
                     \/ (exists a b, h' = logged (Lookup b) (logged (Lookup a) h)) ->
    vault h' = vault h /\ activeView h' = activeView h
    /\ dailyNotes h' = dailyNotes h /\ templates h' = templates h
    /\ (timers h' = timers h
        \/ exists t, timers h' = timers h ++ [(200, InsertDailyTemplate t)])
    /\ forallb (fun c => isLookup c || isTimer c) (newCalls h h') = true).
  { intros h' Hh'. destruct (Hquiet h' Hh') as (? & ? & ? & ? & ? & ?).
    repeat split; auto. }
  clear Hquiet.
  destruct (dailyNotes h) as [dn|].
  2:{ cbn [fst snd]. split; [reflexivity|]. apply Hq. now left. }
  destruct (dailyGuard strictValid normalizePath f dn).
  2:{ cbn [fst snd]. split; [reflexivity|]. apply Hq. now left. }
  cbv zeta.
  destruct (vault h !! _) as [[data|]|].
  - cbn [fst snd]. split; [reflexivity|]. apply Hsched. right; left. eauto.
  - cbn [fst snd]. split; [reflexivity|]. apply Hq. right; left. eauto.
  - destruct (vault h !! _) as [[data|]|]; cbn [fst snd];
      (split; [reflexivity|]); [apply Hsched | apply Hq | apply Hq];
      right; right; eauto.
Qed.

Lemma bind_ext {A B} (c : M A) (f g : A -> M B) h :
  (forall a h', f a h' = g a h') -> bind c f h = bind c g h.
Proof.
  intros H. unfold bind. destruct (c h) as [h' [a | e]]; [apply H | reflexivity].
Qed.

(** X9. The refactoring of the handler of the [create] event kept its
    behaviour: the handler written inside [onload] in the earlier revision
    and [onFileCreate] do the same on every file and every state. *)
Theorem create_handler_refactoring
    strictValid normalizePath hostError insertion file h :
  onFileCreate_v0 strictValid normalizePath hostError insertion file h
  = onFileCreate strictValid normalizePath hostError insertion file h.
Proof.
  unfold onFileCreate_v0, onFileCreate.
  destruct file as [f|p]; [|reflexivity].
  destruct (negb _ || _); [reflexivity|].
  apply bind_ext. intros [dn|] h'; [|reflexivity].
  now destruct (Daily.enabled dn).
Qed.

(** ** The folder of the weekly notes *)

Section FolderFacts.
Variable normalizePath : jsstring -> jsstring.
Variable hostError : App -> Call -> option jsstring.
Variable insertion : jsstring -> jsstring -> jsstring.

Local Abbreviation ensureFolder :=
  (ensureFolderExists normalizePath hostError insertion).

Lemma ensureFolderExists_eq dir h :
  ensureFolder dir h
  = let nf := normalizePath dir in
    if negb (truthy nf) || jsstring_eqb nf (js "/") then (h, inl tt)
    else
      let h1 := logged (Lookup nf) h in
      match vault h !! nf with
      | Some _ => (h1, inl tt)
      | None =>
          match hostError h1 (CreateFolder nf) with
          | Some _ => (h1, inl tt)
          | None =>
              (withVault (<[nf := EFolder]> (vault h))
                 (logged (CreateFolder nf) h1), inl tt)
          end
      end.
Proof.
  unfold ensureFolderExists. cbv zeta.
  destruct (negb _ || _); [reflexivity|].
  unfold bind at 1. rewrite lookup_step.
  destruct (vault h !! normalizePath dir) eqn:E; [reflexivity|].
  unfold tryCatch, call, rejected. cbn [vault logged]. rewrite E.
  destruct (hostError _ _); reflexivity.
Qed.

Lemma ensureFolderExists_returns dir h : snd (ensureFolder dir h) = inl tt.
Proof.
  rewrite ensureFolderExists_eq. cbv zeta.
  destruct (negb _ || _); [reflexivity|].
  destruct (vault h !! _); [reflexivity|].
  destruct (hostError _ _); reflexivity.
Qed.

Lemma ensureFolderExists_other dir h p :
  p <> normalizePath dir ->
  vault (fst (ensureFolder dir h)) !! p = vault h !! p.
Proof.
  intros Hp. rewrite ensureFolderExists_eq. cbv zeta.
  destruct (negb _ || _); [reflexivity|].
  destruct (vault h !! normalizePath dir); [reflexivity|].
  destruct (hostError _ _); [reflexivity|].
  cbn [fst vault withVault]. now rewrite lookup_insert_ne.
Qed.

Lemma ensureFolderExists_rest dir h :
  activeView (fst (ensureFolder dir h)) = activeView h
  /\ timers (fst (ensureFolder dir h)) = timers h
  /\ dailyNotes (fst (ensureFolder dir h)) = dailyNotes h
  /\ templates (fst (ensureFolder dir h)) = templates h.
Proof.
  rewrite ensureFolderExists_eq. cbv zeta.
  destruct (negb _ || _); [now repeat split|].
  destruct (vault h !! normalizePath dir); [now repeat split|].
  destruct (hostError _ _); now repeat split.
Qed.

(** X10. [ensureFolderExists] returns without an exception on every
    state, also when the host rejects the creation of the folder. It makes
    no call when the normalized folder is empty or the root. It changes the
    vault at the normalized folder only, and keeps what is there already;
    when nothing is there and the host accepts the creation, the folder
    exists afterwards. The editor and the timers stay as they are. *)
Theorem ensure_folder_exists dir h :
  let nf := normalizePath dir in
  let r := ensureFolder dir h in
  snd r = inl tt
  /\ (nf = [] \/ nf = js "/" -> fst r = h)
  /\ (forall p, p <> nf -> vault (fst r) !! p = vault h !! p)
  /\ (is_Some (vault h !! nf) ->
      vault (fst r) = vault h /\ forallb isLookup (newCalls h (fst r)) = true)
  /\ (nf <> [] -> nf <> js "/" -> vault h !! nf = None ->
      hostError (logged (Lookup nf) h) (CreateFolder nf) = None ->
      vault (fst r) !! nf = Some EFolder)
  /\ activeView (fst r) = activeView h
  /\ timers (fst r) = timers h.
Proof.
  cbv zeta. split; [apply ensureFolderExists_returns|].
  split; [|split; [intros p; apply ensureFolderExists_other|]].
  - intros Hnf. rewrite ensureFolderExists_eq. cbv zeta.
    destruct Hnf as [-> | ->]; reflexivity.
  - split; [|split; [|split; apply ensureFolderExists_rest]].
    + intros [e He]. rewrite ensureFolderExists_eq. cbv zeta.
      destruct (negb _ || _).
      * cbn [fst]. now rewrite newCalls_0.
      * rewrite He. cbn [fst]. now rewrite newCalls_1.
    + intros Hne Hroot Hnone Hacc. rewrite ensureFolderExists_eq. cbv zeta.
      destruct (negb _ || _) eqn:Hcond.
      * exfalso. apply orb_true_iff in Hcond as [Hc | Hc].
        -- apply negb_true_iff in Hc.
           destruct (normalizePath dir); [congruence | discriminate].
        -- apply jsstring_eqb_eq in Hc. congruence.
      * rewrite Hnone, Hacc. cbn [fst vault withVault].
        apply lookup_insert_eq.
Qed.

End FolderFacts.

Lemma ensure_folder_exists_witness :
  vault (fst (ensureFolderExists samePath noHostError appendTemplate
                (js "Weekly") emptyApp)) !! js "Weekly"
  = Some EFolder.
Proof.
  refine (proj1 (proj2 (proj2 (proj2 (proj2
    (ensure_folder_exists samePath noHostError appendTemplate
       (js "Weekly") emptyApp))))) _ _ _ _).
  - discriminate.
  - vm_compute. discriminate.
  - reflexivity.
  - reflexivity.
Defined.

(** ** Opening a weekly note that does not exist yet *)

Section MoreWeeklyNote.
Variable mformat : Moment -> jsstring -> jsstring.
Variable normalizePath : jsstring -> jsstring.
Variable hostError : App -> Call -> option jsstring.
Variable insertion : jsstring -> jsstring -> jsstring.
Variable settings : WeeklyNotesSettings.

Local Abbreviation openNote :=
  (openWeeklyNote mformat normalizePath hostError insertion settings).
Local Abbreviation pathOf := (weeklyPath mformat normalizePath settings).
Local Abbreviation ensureFolder :=
  (ensureFolderExists normalizePath hostError insertion).
Local Abbreviation callH := (call hostError insertion).
Local Abbreviation failed :=
  (fun error : jsstring => callH (NewNotice (FailedToOpen error))).

Lemma tryCatch_notice (c : M unit) h :
  snd (tryCatch c failed h) = inl tt.
Proof.
  unfold tryCatch. destruct (c h) as [h' [[] | e]]; reflexivity.
Qed.

Lemma vault_logged c h : vault (logged c h) = vault h.
Proof. reflexivity. Qed.

Lemma vault_withVault v h : vault (withVault v h) = v.
Proof. reflexivity. Qed.

Lemma call_notice n h :
  callH (NewNotice n) h = (logged (NewNotice n) h, inl tt).
Proof. reflexivity. Qed.

Lemma call_open p h :
  callH (OpenFile p) h
  = match hostError h (OpenFile p) with
    | Some e => (h, inr e)
    | None =>
        (match vault h !! p with
         | Some (EFile data) =>
             withActiveView (Some (p, data)) (logged (OpenFile p) h)
         | _ => logged (OpenFile p) h
         end, inl tt)
    end.
Proof. reflexivity. Qed.

Lemma openWeeklyNote_absent d h :
  vault h !! pathOf d = None ->
  openNote d h
  = let filename := mformat d (dateFormat settings) in
    let h1 := fst (ensureFolder (folder settings) (logged (Lookup (pathOf d)) h)) in
    match rejected hostError h1 (Create (pathOf d) []) with
    | Some e => (logged (NewNotice (FailedToOpen e)) h1, inl tt)
    | None =>
        let h2 := logged (NewNotice (CreatedWeeklyNote filename))
                    (withVault (<[pathOf d := EFile []]> (vault h1))
                       (logged (Create (pathOf d) []) h1)) in
        match hostError h2 (OpenFile (pathOf d)) with
        | Some e => (logged (NewNotice (FailedToOpen e)) h2, inl tt)
        | None =>
            let h3 := withActiveView (Some (pathOf d, []))
                        (logged (OpenFile (pathOf d)) h2) in
            if truthy (template settings)
            then tryCatch
                   (applyTemplate normalizePath hostError insertion settings
                      (pathOf d) d) failed h3
            else (h3, inl tt)
        end
    end.
Proof.
  intros E. unfold openWeeklyNote, weeklyPath in *.
  unfold tryCatch at 1, bind at 1 2. rewrite lookup_step, E.
  unfold bind at 1.
  pose proof (ensureFolderExists_returns normalizePath hostError insertion
                (folder settings)
                (logged (Lookup (normalizePath
                   (folder settings ++ js "/" ++ mformat d (dateFormat settings)
                    ++ js ".md"))) h)) as Hret.
  destruct (ensureFolderExists _ _ _ _ _) as [h1 r]. cbn [snd fst] in *.
  subst r. unfold bind at 1, call at 1.
  destruct (rejected hostError h1 (Create _ [])) as [e|] eqn:Ec; [reflexivity|].
  unfold bind at 1. rewrite call_notice. unfold ret at 1.
  cbn [effect]. rewrite vault_logged. unfold bind at 1. rewrite call_open.
  match goal with
  | |- context [hostError ?hh (OpenFile ?p)] =>
      destruct (hostError hh (OpenFile p)) as [e|] eqn:Eo
  end; [reflexivity|].
  rewrite vault_logged, vault_withVault, lookup_insert_eq. cbn [andb].
  destruct (truthy (template settings)); reflexivity.
Qed.

Lemma ensureFolderExists_calls dir :
  Emits isFolderCall (ensureFolder dir).
Proof.
  unfold ensureFolderExists. destruct (negb _ || _); [apply Emits_ret|].
  unfold getAbstractFileByPath. emits.
Qed.

(** X11. [openWeeklyNote] returns without an exception on every state
    and for every host: whatever is thrown inside is caught and shown in a
    notice. Nothing that is in the vault disappears, and the calls made
    before stay in the trace. *)
Theorem open_weekly_note_never_throws d h :
  let r := openWeeklyNote mformat normalizePath hostError insertion settings
             d h in
  snd r = inl tt
  /\ (forall p, is_Some (vault h !! p) -> is_Some (vault (fst r) !! p))
  /\ exists t, trace (fst r) = trace h ++ t.
Proof.
  cbv zeta. split; [apply tryCatch_notice|].
  destruct (Safe_openWeeklyNote mformat normalizePath hostError insertion
              settings d h) as [Hv (t & Ht & _)].
  split; [exact Hv | now exists t].
Qed.

Lemma openWeeklyNote_first_open d h :
  (forall h' c, hostError h' c = None) ->
  vault h !! pathOf d = None ->
  normalizePath (folder settings) <> pathOf d ->
  template settings = [] ->
  let r := openNote d h in
  snd r = inl tt
  /\ vault (fst r) !! pathOf d = Some (EFile [])
  /\ activeView (fst r) = Some (pathOf d, [])
  /\ timers (fst r) = timers h
  /\ (forall p, p <> pathOf d -> p <> normalizePath (folder settings) ->
        vault (fst r) !! p = vault h !! p)
  /\ exists t,
       forallb isFolderCall t = true
       /\ newCalls h (fst r)
          = Lookup (pathOf d) :: t
            ++ [Create (pathOf d) [];
                NewNotice (CreatedWeeklyNote (mformat d (dateFormat settings)));
                OpenFile (pathOf d)].
Proof.
  intros Hacc Hnone Hdir Htpl. cbv zeta.
  rewrite (openWeeklyNote_absent d h Hnone). cbv zeta.
  set (h0 := logged (Lookup (pathOf d)) h).
  pose proof (ensureFolderExists_other normalizePath hostError insertion
                (folder settings) h0) as Hother.
  destruct (ensureFolderExists_rest normalizePath hostError insertion
              (folder settings) h0) as (Hview & Htimers & _).
  destruct (ensureFolderExists_calls (folder settings) h0) as (t & Ht & Pt).
  set (h1 := fst (ensureFolder (folder settings) h0)) in *.
  assert (Hfree : vault h1 !! pathOf d = None).
  { rewrite Hother; [exact Hnone | congruence]. }
  unfold rejected. rewrite Hfree, !Hacc, Htpl. cbn [truthy fst snd].
  split; [reflexivity|].
  split; [cbn [withActiveView logged withVault vault]; apply lookup_insert_eq|].
  split; [reflexivity|].
  split; [exact Htimers|].
  split.
  - intros p Hp Hpd. cbn [withActiveView logged withVault vault].
    rewrite lookup_insert_ne by congruence. now apply Hother.
  - exists t. split; [exact Pt|]. apply newCalls_app.
    cbn [withActiveView logged withVault trace]. rewrite Ht.
    unfold h0. cbn [logged trace]. now rewrite <- !app_assoc.
Qed.

(** X13. When the host rejects the creation of the note,
    [openWeeklyNote] ends with the notice that it failed, which carries the
    message of the host. The note is not in the vault, no notice of a
    creation is shown, the active view and the timers stay as they are. *)
Theorem rejected_creation_is_reported d h e :
  (forall h', hostError h' (Create (pathOf d) []) = Some e) ->
  vault h !! pathOf d = None ->
  normalizePath (folder settings) <> pathOf d ->
  let r := openNote d h in
  snd r = inl tt
  /\ vault (fst r) !! pathOf d = None
  /\ activeView (fst r) = activeView h
  /\ timers (fst r) = timers h
  /\ exists t,
       forallb isFolderCall t = true
       /\ newCalls h (fst r)
          = Lookup (pathOf d) :: t ++ [NewNotice (FailedToOpen e)].
Proof.
  intros Hrej Hnone Hdir. cbv zeta.
  rewrite (openWeeklyNote_absent d h Hnone). cbv zeta.
  set (h0 := logged (Lookup (pathOf d)) h).
  pose proof (ensureFolderExists_other normalizePath hostError insertion
                (folder settings) h0) as Hother.
  destruct (ensureFolderExists_rest normalizePath hostError insertion
              (folder settings) h0) as (Hview & Htimers & _).
  destruct (ensureFolderExists_calls (folder settings) h0) as (t & Ht & Pt).
  set (h1 := fst (ensureFolder (folder settings) h0)) in *.
  assert (Hfree : vault h1 !! pathOf d = None).
  { rewrite Hother; [exact Hnone | congruence]. }
  unfold rejected. rewrite Hfree, Hrej. cbn [fst snd].
  split; [reflexivity|].
  split; [exact Hfree|].
  split; [exact Hview|].
  split; [exact Htimers|].
  exists t. split; [exact Pt|]. apply newCalls_app.
  cbn [logged trace]. rewrite Ht. unfold h0. cbn [logged trace].
  now rewrite <- !app_assoc.
Qed.


End MoreWeeklyNote.

Lemma rejected_creation_is_reported_witness :
  let r := openWeeklyNote momentFormatOr samePath readOnlyVault appendTemplate
             weeklySettings wednesday_2024_03_06 emptyApp in
  vault (fst r) !! js "Weekly/Week of 2024-03-06.md" = None
  /\ activeView (fst r) = None.
Proof.
  pose proof (rejected_creation_is_reported momentFormatOr samePath
                readOnlyVault appendTemplate weeklySettings
                wednesday_2024_03_06 emptyApp
                (js "EROFS: read-only file system")) as H.
  cbv zeta in H.
  destruct H as (_ & Hv & Ha & _).
  - reflexivity.
  - reflexivity.
  - vm_compute. discriminate.
  - split; [exact Hv | exact Ha].
Defined.


(** ** Applying the weekly template *)

Lemma substitute_pointwise {St}
    (f g : jsstring -> Captures -> St -> jsstring * St) ps st :
  (forall text caps st', f text caps st' = g text caps st') ->
  substitute f ps st = substitute g ps st.
Proof.
  intros H. revert st. induction ps as [|[c | text caps] ps IH]; intros st; simpl.
  - reflexivity.
  - now rewrite IH.
  - rewrite H. destruct (g text caps st) as [out st1]. now rewrite IH.
Qed.

Lemma rewrite_dailyNotes mformat h h' d content :
  dailyNotes h = dailyNotes h' ->
  rewrite mformat h d content = rewrite mformat h' d content.
Proof.
  intros H. unfold rewrite, replace. apply substitute_pointwise.
  intros text caps st. unfold replacer, getDailyNoteLink. now rewrite H.
Qed.

Section MoreTemplate.
Variable mformat : Moment -> jsstring -> jsstring.
Variable normalizePath : jsstring -> jsstring.
Variable hostError : App -> Call -> option jsstring.
Variable insertion : jsstring -> jsstring -> jsstring.
Variable settings : WeeklyNotesSettings.

Local Abbreviation applyWeekly :=
  (applyTemplate normalizePath hostError insertion settings).
Local Abbreviation applyWeekly_v0 :=
  (applyTemplate_v0 normalizePath hostError insertion settings).
Local Abbreviation callH := (call hostError insertion).
Local Abbreviation readH := (vaultRead hostError insertion).
Local Abbreviation literal := (normalizePath (template settings)).
Local Abbreviation withMd := (normalizePath (template settings ++ js ".md")).
Local Abbreviation Resolves :=
  (ResolvesWeekly normalizePath).
Local Abbreviation lookedUp :=
  (resolutionLogged normalizePath (template settings)).

Lemma bind_assoc {A B C} (c : M A) (f : A -> M B) (g : B -> M C) h :
  bind (bind c f) g h = bind c (fun a => bind (f a) g) h.
Proof.
  unfold bind. destruct (c h) as [h' [a | e]]; reflexivity.
Qed.

Lemma bind_call {B} c (f : unit -> M B) h :
  rejected hostError h c = None ->
  bind (callH c) f h = f tt (effect insertion c (logged c h)).
Proof. intros H. unfold bind, call. now rewrite H. Qed.

Lemma bind_vaultRead {B} p (f : jsstring -> M B) h data :
  hostError h (Read p) = None -> vault h !! p = Some (EFile data) ->
  bind (readH p) f h = f data (logged (Read p) h).
Proof.
  intros Hacc Hp. unfold vaultRead. rewrite bind_assoc, bind_call by exact Hacc.
  unfold bind, gets. cbn [effect vault logged]. now rewrite Hp.
Qed.

Lemma lookedUp_calls tp h e :
  Resolves (vault h) (template settings) tp e ->
  exists lookups,
    forallb isLookup lookups = true
    /\ trace (lookedUp tp h) = trace h ++ lookups
    /\ vault (lookedUp tp h) = vault h
    /\ activeView (lookedUp tp h) = activeView h
    /\ timers (lookedUp tp h) = timers h
    /\ templates (lookedUp tp h) = templates h
    /\ dailyNotes (lookedUp tp h) = dailyNotes h.
Proof.
  intros _. unfold resolutionLogged.
  destruct (jsstring_eqb tp literal).
  - exists [Lookup literal]. now repeat split.
  - exists [Lookup literal; Lookup withMd]. repeat split.
    cbn [logged trace]. now rewrite <- app_assoc.
Qed.

Lemma resolved_eqb tp h e :
  Resolves (vault h) (template settings) tp e ->
  lookedUp tp h
  = match vault h !! literal with
    | Some _ => logged (Lookup literal) h
    | None => logged (Lookup withMd) (logged (Lookup literal) h)
    end.
Proof.
  unfold resolutionLogged. intros [[-> E] | (E1 & -> & E2)].
  - rewrite E. now rewrite (proj2 (jsstring_eqb_eq literal literal) eq_refl).
  - rewrite E1. destruct (jsstring_eqb withMd literal) eqn:Eq; [|reflexivity].
    apply jsstring_eqb_eq in Eq. rewrite Eq in E2. congruence.
Qed.

Lemma applyTemplate_resolved file d h tp e :
  Resolves (vault h) (template settings) tp e ->
  applyWeekly file d h
  = match e with
    | EFolder => (lookedUp tp h, inl tt)
    | EFile _ =>
        (match templates h with
         | Some true => callH (InsertTemplate tp)
         | _ =>
             content <- readH tp ;;
             callH (Modify file content) ;;;
             callH (NewNotice RawTemplateApplied)
         end ;;;
         callH (SetTimeout (ReplacePlaceholders d) 100)) (lookedUp tp h)
    end.
Proof.
  intros Hres. rewrite (resolved_eqb tp h e Hres).
  unfold applyTemplate. destruct Hres as [[-> E] | (E1 & -> & E2)].
  - unfold bind at 1. rewrite lookup_step, E. unfold bind at 1, ret at 1.
    destruct e; reflexivity.
  - unfold bind at 1. rewrite lookup_step, E1.
    unfold bind at 1 2. rewrite lookup_step. unfold ret at 1.
    cbn [vault logged]. rewrite E2. destruct e; reflexivity.
Qed.

Lemma applyTemplate_v0_resolved file d h tp e :
  Resolves (vault h) (template settings) tp e ->
  applyWeekly_v0 file d h
  = match e with
    | EFolder =>
        (logged (NewNotice (TemplateNotFound (template settings)))
           (lookedUp tp h), inl tt)
    | EFile _ =>
        (match templates h with
         | Some true => callH (InsertTemplate tp)
         | _ =>
             content <- readH tp ;;
             notAwaited (callH (Modify file content)) ;;;
             callH (NewNotice RawTemplateApplied)
         end ;;;
         callH (SetTimeout (ReplacePlaceholders d) 100)) (lookedUp tp h)
    end.
Proof.
  intros Hres. rewrite (resolved_eqb tp h e Hres).
  unfold applyTemplate_v0. destruct Hres as [[-> E] | (E1 & -> & E2)].
  - unfold bind at 1. rewrite lookup_step, E. unfold bind at 1, ret at 1.
    destruct e; reflexivity.
  - unfold bind at 1. rewrite lookup_step, E1.
    unfold bind at 1 2. rewrite lookup_step. unfold ret at 1.
    cbn [vault logged]. rewrite E2. destruct e; reflexivity.
Qed.



Lemma applyTemplate_delegated file d h tp tdata :
  Resolves (vault h) (template settings) tp (EFile tdata) ->
  templates h = Some true ->
  hostError (lookedUp tp h) (InsertTemplate tp) = None ->
  applyWeekly file d h
  = (effect insertion (SetTimeout (ReplacePlaceholders d) 100)
       (logged (SetTimeout (ReplacePlaceholders d) 100)
          (effect insertion (InsertTemplate tp)
             (logged (InsertTemplate tp) (lookedUp tp h)))), inl tt).
Proof.
  intros Hres Hon Hacc. rewrite (applyTemplate_resolved file d h tp _ Hres), Hon.
  rewrite bind_call by exact Hacc. reflexivity.
Qed.

Lemma applyTemplate_raw file d h tp tdata :
  Resolves (vault h) (template settings) tp (EFile tdata) ->
  templates h <> Some true ->
  (forall h' c, hostError h' c = None) ->
  applyWeekly file d h
  = (effect insertion (SetTimeout (ReplacePlaceholders d) 100)
       (logged (SetTimeout (ReplacePlaceholders d) 100)
          (logged (NewNotice RawTemplateApplied)
             (effect insertion (Modify file tdata)
                (logged (Modify file tdata)
                   (logged (Read tp) (lookedUp tp h)))))), inl tt).
Proof.
  intros Hres Hoff Hacc.
  destruct (lookedUp_calls tp h _ Hres) as (lk & _ & _ & Hv & _).
  assert (Htp : vault (lookedUp tp h) !! tp = Some (EFile tdata)).
  { rewrite Hv. destruct Hres as [[_ E] | (_ & _ & E)]; exact E. }
  rewrite (applyTemplate_resolved file d h tp _ Hres).
  assert (Hraw :
    ((content <- readH tp ;;
      callH (Modify file content) ;;;
      callH (NewNotice RawTemplateApplied)) ;;;
     callH (SetTimeout (ReplacePlaceholders d) 100)) (lookedUp tp h)
    = (effect insertion (SetTimeout (ReplacePlaceholders d) 100)
         (logged (SetTimeout (ReplacePlaceholders d) 100)
            (logged (NewNotice RawTemplateApplied)
               (effect insertion (Modify file tdata)
                  (logged (Modify file tdata)
                     (logged (Read tp) (lookedUp tp h)))))), inl tt)).
  { rewrite bind_assoc.
    rewrite (bind_vaultRead tp _ _ tdata) by (try apply Hacc; exact Htp).
    rewrite bind_assoc.
    rewrite bind_call by (cbn [rejected]; apply Hacc).
    reflexivity. }
  destruct (templates h) as [[|]|]; [congruence | exact Hraw | exact Hraw].
Qed.


(** X16. Without the Templates core plugin (absent or disabled), on a
    host that accepts every call, [applyTemplate] reads a template that
    resolves to a file and writes its content to the note: afterwards the
    note has the content of the template in the vault, and in the editor
    if the editor shows the note; the rest of the vault is as before. It
    shows the notice that the raw template has been applied and sets one
    timer of 100 ms for the replacement of the placeholders. *)
Theorem raw_template_is_copied file d h tp tdata :
  Resolves (vault h) (template settings) tp (EFile tdata) ->
  templates h <> Some true ->
  (forall h' c, hostError h' c = None) ->
  let r := applyWeekly file d h in
  snd r = inl tt
  /\ vault (fst r) !! file = Some (EFile tdata)
  /\ (forall p, p <> file -> vault (fst r) !! p = vault h !! p)
  /\ (forall old, activeView h = Some (file, old) ->
        activeView (fst r) = Some (file, tdata))
  /\ timers (fst r) = timers h ++ [(100, ReplacePlaceholders d)]
  /\ exists lookups,
       forallb isLookup lookups = true
       /\ newCalls h (fst r)
          = lookups ++ [Read tp; Modify file tdata;
                        NewNotice RawTemplateApplied;
                        SetTimeout (ReplacePlaceholders d) 100].
Proof.
  intros Hres Hoff Hacc. cbv zeta.
  rewrite (applyTemplate_raw file d h tp tdata Hres Hoff Hacc).
  destruct (lookedUp_calls tp h _ Hres) as (lk & Plk & Htr & Hv & Hav & Htm & _).
  cbn [fst snd effect]. cbn [logged activeView vault]. rewrite Hav.
  assert (Hcalls : forall hh,
    trace hh = trace (lookedUp tp h)
               ++ [Read tp; Modify file tdata; NewNotice RawTemplateApplied;
                   SetTimeout (ReplacePlaceholders d) 100] ->
    exists lookups,
      forallb isLookup lookups = true
      /\ newCalls h hh
         = lookups ++ [Read tp; Modify file tdata;
                       NewNotice RawTemplateApplied;
                       SetTimeout (ReplacePlaceholders d) 100]).
  { intros hh Hhh. exists lk. split; [exact Plk|]. apply newCalls_app.
    rewrite Hhh, Htr. now rewrite <- app_assoc. }
  destruct (activeView h) as [[q c]|] eqn:Eview.
  - destruct (jsstring_eqb q file) eqn:Eq;
      cbn [withTimers withActiveView withVault logged vault activeView timers trace];
      (split; [reflexivity|]);
      (split; [rewrite Hv; apply lookup_insert_eq|]);
      (split; [intros p Hp; rewrite Hv; now rewrite lookup_insert_ne|]).
    + apply jsstring_eqb_eq in Eq. subst q.
      split; [reflexivity|]. split; [now rewrite Htm|].
      apply Hcalls. cbn [trace logged withTimers withActiveView withVault]. now rewrite <- !app_assoc.
    + split.
      { intros old [= Hq _]. subst q.
        rewrite (proj2 (jsstring_eqb_eq file file) eq_refl) in Eq. discriminate. }
      split; [now rewrite Htm|].
      apply Hcalls. cbn [trace logged withTimers withActiveView withVault]. now rewrite <- !app_assoc.
  - cbn [withTimers withActiveView withVault logged vault activeView timers trace].
    split; [reflexivity|].
    split; [rewrite Hv; apply lookup_insert_eq|].
    split; [intros p Hp; rewrite Hv; now rewrite lookup_insert_ne|].
    split; [discriminate|]. split; [now rewrite Htm|].
    apply Hcalls. cbn [trace logged withTimers withActiveView withVault]. now rewrite <- !app_assoc.
Qed.

(** X17. A template path at which a folder is found: the refactored
    [applyTemplate] makes its lookups and returns, with no notice and no
    timer, while the earlier revision shows the notice that the template
    file was not found. *)
Theorem folder_as_template file d h tp :
  Resolves (vault h) (template settings) tp EFolder ->
  applyWeekly file d h = (lookedUp tp h, inl tt)
  /\ applyWeekly_v0 file d h
     = (logged (NewNotice (TemplateNotFound (template settings)))
          (lookedUp tp h), inl tt)
  /\ forallb isLookup (newCalls h (lookedUp tp h)) = true
  /\ timers (lookedUp tp h) = timers h.
Proof.
  intros Hres.
  rewrite (applyTemplate_resolved file d h tp _ Hres),
    (applyTemplate_v0_resolved file d h tp _ Hres).
  destruct (lookedUp_calls tp h _ Hres) as (lk & Plk & Htr & _ & _ & Htm & _).
  repeat split; [|exact Htm]. now rewrite (newCalls_app _ _ _ Htr).
Qed.


Lemma applyTemplate_accepting file d h tp tdata old :
  Resolves (vault h) (template settings) tp (EFile tdata) ->
  (forall h' c, hostError h' c = None) ->
  activeView h = Some (file, old) ->
  exists after,
    applyWeekly file d h = (after, inl tt)
    /\ timers after = timers h ++ [(100, ReplacePlaceholders d)]
    /\ activeView after
       = Some (file, match templates h with
                     | Some true => insertion tdata old
                     | _ => tdata
                     end)
    /\ dailyNotes after = dailyNotes h.
Proof.
  intros Hres Hacc Hview.
  destruct (lookedUp_calls tp h _ Hres)
    as (lk & Plk & Htr & Hv & Hav & Htm & _ & Hdn).
  assert (Htp : vault h !! tp = Some (EFile tdata))
    by (destruct Hres as [[_ E] | (_ & _ & E)]; exact E).
  assert (Hraw : templates h <> Some true ->
    exists after,
      applyWeekly file d h = (after, inl tt)
      /\ timers after = timers h ++ [(100, ReplacePlaceholders d)]
      /\ activeView after = Some (file, tdata)
      /\ dailyNotes after = dailyNotes h).
  { intros Hoff. eexists. split.
    - apply (applyTemplate_raw file d h tp tdata Hres Hoff Hacc).
    - cbn [effect]. cbn [logged activeView vault]. rewrite Hav, Hview.
      rewrite (proj2 (jsstring_eqb_eq file file) eq_refl).
      cbn [withTimers withActiveView withVault logged timers activeView
           dailyNotes].
      split; [now rewrite Htm|]. split; [reflexivity | exact Hdn]. }
  destruct (templates h) as [[|]|] eqn:Et.
  - eexists. split.
    + apply (applyTemplate_delegated file d h tp tdata Hres Et (Hacc _ _)).
    + cbn [effect]. cbn [logged activeView vault]. rewrite Hav, Hv, Htp, Hview.
      cbn [withTimers withActiveView logged timers activeView dailyNotes].
      split; [now rewrite Htm|]. split; [reflexivity | exact Hdn].
  - apply Hraw. discriminate.
  - apply Hraw. discriminate.
Qed.

End MoreTemplate.


Lemma raw_template_is_copied_witness :
  let r := applyTemplate samePath noHostError appendTemplate templateSettings
             weekNote wednesday_2024_03_06
             (appForTemplate vaultWithTemplate None) in
  vault (fst r) !! weekNote = Some (EFile weeklyTemplateText)
  /\ timers (fst r) = [(100, ReplacePlaceholders wednesday_2024_03_06)].
Proof.
  pose proof (raw_template_is_copied samePath noHostError appendTemplate
                templateSettings weekNote wednesday_2024_03_06
                (appForTemplate vaultWithTemplate None)
                (js "Templates/Weekly.md") weeklyTemplateText) as H.
  cbv zeta in H.
  destruct H as (_ & Hv & _ & _ & Ht & _).
  - right. repeat split; vm_compute; reflexivity.
  - discriminate.
  - reflexivity.
  - split; [exact Hv | exact Ht].
Defined.

Lemma folder_as_template_witness :
  let h := appForTemplate vaultWithTemplateFolder (Some true) in
  applyTemplate samePath noHostError appendTemplate templateSettings
    weekNote wednesday_2024_03_06 h
  = (logged (Lookup (js "Templates/Weekly")) h, inl tt)
  /\ applyTemplate_v0 samePath noHostError appendTemplate templateSettings
       weekNote wednesday_2024_03_06 h
     = (logged (NewNotice (TemplateNotFound (js "Templates/Weekly")))
          (logged (Lookup (js "Templates/Weekly")) h), inl tt).
Proof.
  pose proof (folder_as_template samePath noHostError appendTemplate
                templateSettings weekNote wednesday_2024_03_06
                (appForTemplate vaultWithTemplateFolder (Some true))
                (js "Templates/Weekly")) as H.
  destruct H as (Hnew & Hold & _).
  - left. split; vm_compute; reflexivity.
  - split; [exact Hnew | exact Hold].
Defined.


(** ** The earlier [openWeeklyNote] and the callbacks *)

Lemma bind_ext2 {A B} (c1 c2 : M A) (f g : A -> M B) h :
  c1 h = c2 h -> (forall a h', f a h' = g a h') ->
  bind c1 f h = bind c2 g h.
Proof.
  intros Hc H. unfold bind. rewrite Hc.
  destruct (c2 h) as [h' [a | e]]; [apply H | reflexivity].
Qed.

Lemma tryCatch_ext {A} (c1 c2 : M A) (handler : jsstring -> M A) h :
  c1 h = c2 h -> tryCatch c1 handler h = tryCatch c2 handler h.
Proof. intros H. unfold tryCatch. now rewrite H. Qed.

Lemma bind_lookup {B} hostError insertion p (f : option Entry -> M B) h :
  bind (getAbstractFileByPath hostError insertion p) f h
  = f (vault h !! p) (logged (Lookup p) h).
Proof. reflexivity. Qed.

Lemma bind_ret {A B} (a : A) (f : A -> M B) h : bind (ret a) f h = f a h.
Proof. reflexivity. Qed.

Section EarlierOpen.
Variable mformat : Moment -> jsstring -> jsstring.
Variable strictValid : jsstring -> jsstring -> bool.
Variable normalizePath : jsstring -> jsstring.
Variable hostError : App -> Call -> option jsstring.
Variable insertion : jsstring -> jsstring -> jsstring.
Variable settings : WeeklyNotesSettings.

Local Abbreviation openNote :=
  (openWeeklyNote mformat normalizePath hostError insertion settings).
Local Abbreviation openNote_v0 :=
  (openWeeklyNote_v0 mformat normalizePath hostError insertion settings).
Local Abbreviation openNext :=
  (openNextWeeklyNote mformat normalizePath hostError insertion settings).
Local Abbreviation pathOf := (weeklyPath mformat normalizePath settings).

(** X20. Without a template in the settings, or when the note exists
    already, the [openWeeklyNote] of the earlier revision, run at a moment,
    and the refactored one, called with that moment as its date, do the
    same on every state: taking the folder step out into
    [ensureFolderExists] changed nothing. *)
Theorem open_weekly_note_refactoring now h :
  template settings = [] \/ is_Some (vault h !! pathOf now) ->
  openWeeklyNote_v0 mformat normalizePath hostError insertion settings now h
  = openWeeklyNote mformat normalizePath hostError insertion settings now h.
Proof.
  intros Hcase. unfold openWeeklyNote_v0, openWeeklyNote, weeklyPath in *.
  cbv zeta. apply tryCatch_ext.
  rewrite !bind_lookup.
  destruct (vault h !! _) as [e|] eqn:E.
  - rewrite !bind_ret. destruct e as [data|]; reflexivity.
  - destruct Hcase as [Htpl | [e He]]; [|discriminate].
    apply bind_ext2.
    + apply bind_ext2; [|reflexivity].
      unfold ensureFolderExists.
      destruct (truthy (normalizePath (folder settings)));
        destruct (jsstring_eqb (normalizePath (folder settings)) (js "/"));
        reflexivity.
    + intros [[data|] created] h'; [|reflexivity].
      apply bind_ext. intros [] h''. rewrite Htpl.
      now rewrite andb_false_r.
Qed.

Lemma onFileCreate_quiet file h :
  snd (onFileCreate strictValid normalizePath hostError insertion file h) = inl tt
  /\ vault (fst (onFileCreate strictValid normalizePath hostError insertion
                   file h)) = vault h.
Proof.
  destruct file as [f|p]; [|now split].
  rewrite onFileCreate_eq.
  assert (Hs : forall tpl hh, vault (scheduleDaily tpl hh) = vault hh).
  { intros tpl hh. unfold scheduleDaily. now destruct (templates hh) as [[|]|]. }
  destruct (dailyNotes h) as [dn|]; [|now split].
  destruct (dailyGuard strictValid normalizePath f dn); [|now split].
  cbv zeta.
  destruct (vault h !! _) as [[data|]|]; cbn [fst snd]; rewrite ?Hs;
    try (now split).
  destruct (vault h !! _) as [[data|]|]; cbn [fst snd]; rewrite ?Hs; now split.
Qed.

(** X22. [onload] loads the settings and registers the protocol action
    [weekly] and the commands [open-weekly-note] and
    [open-next-weekly-note]. No callback that it registers lets an
    exception escape, and none removes anything from the vault: the ribbon
    icon, the protocol action, the two commands and the handler of the
    [create] event return normally on every state, for every host and
    whatever the settings are. *)
Theorem registered_callbacks_return this s now file h :
  let loaded := fst (onload mformat strictValid normalizePath hostError
                       insertion this) in
  let reg := snd (onload mformat strictValid normalizePath hostError
                    insertion this) in
  let harmless (r : App * (unit + jsstring)) :=
    snd r = inl tt
    /\ forall p, is_Some (vault h !! p) -> is_Some (vault (fst r) !! p) in
  this_settings loaded = objectAssign DEFAULT_SETTINGS (dataFile this)
  /\ fst (protocolHandler reg) = js "weekly"
  /\ map fst (commands reg)
     = [js "open-weekly-note"; js "open-next-weekly-note"]
  /\ harmless (ribbonIcon reg s now h)
  /\ harmless (snd (protocolHandler reg) s now h)
  /\ (forall id cb, In (id, cb) (commands reg) -> harmless (cb s now h))
  /\ harmless (vaultCreate reg file h).
Proof.
  cbv zeta.
  assert (Hopen : forall d,
    snd (openWeeklyNote mformat normalizePath hostError insertion s d h) = inl tt
    /\ forall p, is_Some (vault h !! p) ->
         is_Some (vault (fst (openWeeklyNote mformat normalizePath hostError
                                insertion s d h)) !! p)).
  { intros d. split; [apply tryCatch_notice|].
    apply (Safe_openWeeklyNote mformat normalizePath hostError insertion s d h). }
  split; [reflexivity|]. split; [reflexivity|]. split; [reflexivity|].
  split; [apply Hopen|]. split; [apply Hopen|]. split.
  - intros id cb [[= _ <-] | [[= _ <-] | []]]; apply Hopen.
  - cbn [onload snd vaultCreate].
    destruct (onFileCreate_quiet file h) as [Hret Hv].
    split; [exact Hret|]. now rewrite Hv.
Qed.

End EarlierOpen.

Lemma open_weekly_note_refactoring_witness :
  openWeeklyNote_v0 momentFormatOr samePath noHostError appendTemplate
    weeklySettings wednesday_2024_03_06 emptyApp
  = openWeeklyNote momentFormatOr samePath noHostError appendTemplate
      weeklySettings wednesday_2024_03_06 emptyApp.
Proof.
  apply (open_weekly_note_refactoring momentFormatOr samePath noHostError
           appendTemplate weeklySettings wednesday_2024_03_06 emptyApp).
  left. reflexivity.
Defined.

(** ** The two revisions of the rewriting *)

Section Revisions.
Variable mformat : Moment -> jsstring -> jsstring.

Lemma replacer_v0_modified h d text caps st :
  snd (replacer_v0 mformat h d text caps st) = true.
Proof.
  unfold replacer_v0.
  destruct (indexOf (toLowerCase (capture 1 caps)) days); [|reflexivity].
  destruct (jsstring_eqb (trim (capture 2 caps)) (js "daily-note"));
    [|reflexivity].
  destruct (dailyNotes h) as [dn|]; [|reflexivity].
  destruct (Daily.enabled dn); [|reflexivity].
  now destruct (truthy (orString (Daily.folder (Daily.options dn)) [])).
Qed.

Lemma substitute_v0_modified h d ps st :
  snd (substitute (replacer_v0 mformat h d) ps st) = st || existsb isMatched ps.
Proof.
  revert st. induction ps as [|[c | text caps] ps IH]; intros st; simpl.
  - now rewrite orb_false_r.
  - specialize (IH st). now destruct (substitute _ ps st).
  - pose proof (replacer_v0_modified h d text caps st) as Hm.
    destruct (replacer_v0 mformat h d text caps st) as [out st1].
    simpl in Hm. subst st1. specialize (IH true).
    destruct (substitute _ ps true). simpl in *. now rewrite orb_true_r.
Qed.

Lemma rewrite_v0_modified h d s :
  snd (rewrite_v0 mformat h d s) = existsb isMatched (matchAll placeholderRe s).
Proof. unfold rewrite_v0, replace. apply substitute_v0_modified. Qed.

(** X25. The weekday lookup of the replacer cannot fail: for every match
    that [content.replace] passes to it, the first capture in lower case is
    one of the seven names of [days], so the branch that returns the match
    as it is is never taken. In both revisions the flag [modified] is set
    exactly when the pattern matches somewhere in the text. *)
Theorem weekday_lookup_never_fails h d s :
  Forall (fun p =>
            match p with
            | Kept _ => True
            | Matched _ caps =>
                exists i, indexOf (toLowerCase (capture 1 caps)) days = Some i
                          /\ nth_error days i = Some (toLowerCase (capture 1 caps))
            end) (matchAll placeholderRe s)
  /\ snd (rewrite mformat h d s) = existsb isMatched (matchAll placeholderRe s)
  /\ snd (rewrite_v0 mformat h d s) = existsb isMatched (matchAll placeholderRe s).
Proof.
  split; [|split; [apply rewrite_modified | apply rewrite_v0_modified]].
  eapply Forall_impl; [apply matchAll_tokens|].
  intros [c | text caps]; [trivial|].
  intros (name & spec & (w & Hw & Hname) & _ & ->). cbn [capture Nat.eqb].
  rewrite (toLowerCase_day name w Hw Hname).
  apply In_nth_error in Hw as [i Hi]. exists i.
  split; [apply (nth_error_days i w Hi) | exact Hi].
Qed.

End Revisions.

(** X26. The refactoring of the rewriting kept its behaviour but for one
    case: on every state in which the link to a daily note is never the
    empty text, the timer callback of the earlier [openWeeklyNote] and
    [replaceDatePlaceholders] do the same, for every date and every text in
    the editor. *)
Theorem rewriting_refactoring mformat hostError insertion d h :
  (forall d', getDailyNoteLink mformat h d' <> Some []) ->
  replaceDatePlaceholders_v0 mformat hostError insertion d h
  = replaceDatePlaceholders mformat hostError insertion d h.
Proof.
  intros Hlink.
  assert (E : forall content,
    rewrite_v0 mformat h d content = rewrite mformat h d content).
  { intros content. apply injective_projections.
    - now apply refactor_agrees_on_nonempty_links.
    - now rewrite rewrite_v0_modified, rewrite_modified. }
  unfold replaceDatePlaceholders_v0, replaceDatePlaceholders.
  unfold bind, gets, id.
  destruct (activeView h) as [[p content]|]; [|reflexivity].
  now rewrite E.
Qed.

Lemma rewriting_refactoring_witness :
  replaceDatePlaceholders_v0 momentFormatOr noHostError appendTemplate
    wednesday_2024_03_06
    (appWithDaily (Some dailyInFolder) (js "[[!{{Friday: daily-note }}]]"))
  = replaceDatePlaceholders momentFormatOr noHostError appendTemplate
      wednesday_2024_03_06
      (appWithDaily (Some dailyInFolder) (js "[[!{{Friday: daily-note }}]]")).
Proof.
  apply (rewriting_refactoring momentFormatOr noHostError appendTemplate
           wednesday_2024_03_06
           (appWithDaily (Some dailyInFolder)
              (js "[[!{{Friday: daily-note }}]]"))).
  intros d'. discriminate.
Defined.

(** ** The daily template, once the timer fires *)

(** X27. When a daily note has been created (the conditions of
    [onFileCreate] hold), its template resolves to a file and the Templates
    core plugin is enabled, [onFileCreate] sets one timer of 200 ms; once
    that timer has fired, on a host that accepts the insertion, the editor
    holds what the Templates plugin makes of its content and the template.
    The vault is not written to. *)
Theorem daily_template_is_inserted
    mformat strictValid normalizePath hostError insertion
    f dn h tpl tdata p content :
  dailyNotes h = Some dn ->
  DailyNoteCreated strictValid normalizePath f dn ->
  ResolvesDaily normalizePath (vault h) (Daily.template (Daily.options dn)) tpl ->
  vault h !! tpl = Some (EFile tdata) ->
  templates h = Some true ->
  activeView h = Some (p, content) ->
  (forall h', hostError h' (InsertTemplate tpl) = None) ->
  let r := onFileCreate strictValid normalizePath hostError insertion
             (IsFile f) h in
  let fired := runTask mformat hostError insertion
                 (InsertDailyTemplate tpl) (fst r) in
  timers (fst r) = timers h ++ [(200, InsertDailyTemplate tpl)]
  /\ snd fired = inl tt
  /\ activeView (fst fired) = Some (p, insertion tdata content)
  /\ vault (fst fired) = vault h.
Proof.
  intros Hdn Hcreated Hres Htpl Hon Hview Hacc. cbv zeta.
  apply dailyGuard_iff in Hcreated.
  rewrite onFileCreate_eq, Hdn, Hcreated. cbv zeta.
  assert (Hfire : forall hh,
    activeView hh = Some (p, content) -> vault hh = vault h ->
    timers hh = timers h ->
    let s := withTimers (timers hh ++ [(200, InsertDailyTemplate tpl)])
               (logged (SetTimeout (InsertDailyTemplate tpl) 200) hh) in
    timers s = timers h ++ [(200, InsertDailyTemplate tpl)]
    /\ snd (runTask mformat hostError insertion (InsertDailyTemplate tpl) s)
       = inl tt
    /\ activeView
         (fst (runTask mformat hostError insertion (InsertDailyTemplate tpl) s))
       = Some (p, insertion tdata content)
    /\ vault (fst (runTask mformat hostError insertion
                     (InsertDailyTemplate tpl) s)) = vault h).
  { intros hh Hav Hv Htm. cbv zeta. cbn [runTask]. unfold call.
    cbn [rejected]. rewrite Hacc. cbn [fst snd effect].
    cbn [withTimers logged activeView vault timers]. rewrite Hav, Hv, Htpl, Htm.
    repeat split; try reflexivity. exact Hv. }
  destruct Hres as [[-> _] | (Enone & -> & _)].
  - rewrite Htpl. unfold scheduleDaily. cbn [templates logged]. rewrite Hon.
    cbn [fst]. now apply Hfire.
  - rewrite Enone, Htpl. unfold scheduleDaily. cbn [templates logged].
    rewrite Hon. cbn [fst]. now apply Hfire.
Qed.

Lemma daily_template_is_inserted_witness :
  let h := mkApp bothTemplates (Some dailyInFolder) (Some true)
             (Some (js "Daily/2024-03-06.md", [])) [] [] in
  let r := onFileCreate strictValidYMD samePath noHostError appendTemplate
             (IsFile createdDaily) h in
  timers (fst r) = [(200, InsertDailyTemplate (js "Templates/Daily.md"))]
  /\ activeView
       (fst (runTask momentFormatOr noHostError appendTemplate
               (InsertDailyTemplate (js "Templates/Daily.md")) (fst r)))
     = Some (js "Daily/2024-03-06.md", js "with md").
Proof.
  pose proof (daily_template_is_inserted momentFormatOr strictValidYMD samePath
                noHostError appendTemplate createdDaily dailyInFolder
                (mkApp bothTemplates (Some dailyInFolder) (Some true)
                   (Some (js "Daily/2024-03-06.md", [])) [] [])
                (js "Templates/Daily.md") (js "with md")
                (js "Daily/2024-03-06.md") []) as H.
  cbv zeta in H.
  destruct H as (Ht & _ & Ha & _).
  - reflexivity.
  - repeat split; try reflexivity; [discriminate | now right].
  - left. split; [reflexivity | now exists (js "with md")].
  - reflexivity.
  - reflexivity.
  - reflexivity.
  - reflexivity.
  - split; [exact Ht | exact Ha].
Defined.

(** ** The first open of a week, with a template *)

Lemma replaceDatePlaceholders_returns mformat hostError insertion d h :
  snd (replaceDatePlaceholders mformat hostError insertion d h) = inl tt.
Proof.
  rewrite replaceDatePlaceholders_eq.
  destruct (activeView h) as [[p content]|]; [|reflexivity].
  now destruct (snd (rewrite mformat h d content)).
Qed.

Section FirstOpenWithTemplate.
Variable mformat : Moment -> jsstring -> jsstring.
Variable normalizePath : jsstring -> jsstring.
Variable hostError : App -> Call -> option jsstring.
Variable insertion : jsstring -> jsstring -> jsstring.
Variable settings : WeeklyNotesSettings.

Local Abbreviation pathOf := (weeklyPath mformat normalizePath settings).
Local Abbreviation ensureFolder :=
  (ensureFolderExists normalizePath hostError insertion).

Lemma ensureFolderExists_kept dir h (p : jsstring) e :
  vault h !! p = Some e -> vault (fst (ensureFolder dir h)) !! p = Some e.
Proof.
  intros Hp. rewrite ensureFolderExists_eq. cbv zeta.
  destruct (negb _ || _); [exact Hp|].
  destruct (vault h !! normalizePath dir) eqn:E; [exact Hp|].
  destruct (hostError _ _); [exact Hp|].
  cbn [fst vault withVault]. rewrite lookup_insert_ne; [exact Hp|].
  intros Heq. rewrite Heq in E. congruence.
Qed.

Lemma openWeeklyNote_first_template d h tp tdata :
  (forall h' c, hostError h' c = None) ->
  vault h !! pathOf d = None ->
  normalizePath (folder settings) <> pathOf d ->
  template settings <> [] ->
  ResolvesWeekly normalizePath (vault h) (template settings) tp (EFile tdata) ->
  normalizePath (template settings) <> pathOf d ->
  normalizePath (template settings) <> normalizePath (folder settings) ->
  let r := openWeeklyNote mformat normalizePath hostError insertion settings
             d h in
  let fired := runTask mformat hostError insertion (ReplacePlaceholders d)
                 (fst r) in
  let body :=
    match templates h with
    | Some true => insertion tdata []
    | _ => tdata
    end in
  snd r = inl tt
  /\ is_Some (vault (fst r) !! pathOf d)
  /\ timers (fst r) = timers h ++ [(100, ReplacePlaceholders d)]
  /\ snd fired = inl tt
  /\ activeView (fst fired) = Some (pathOf d, fst (rewrite mformat h d body))
  /\ dailyNotes (fst r) = dailyNotes h.
Proof.
  intros Hacc Hnone Hdir Htpl Hres Hlit Hlitdir. cbv zeta.
  rewrite (openWeeklyNote_absent mformat normalizePath hostError insertion
             settings d h Hnone). cbv zeta.
  set (h0 := logged (Lookup (pathOf d)) h).
  pose proof (ensureFolderExists_other normalizePath hostError insertion
                (folder settings) h0) as Hother.
  pose proof (ensureFolderExists_kept (folder settings) h0) as Hkept.
  destruct (ensureFolderExists_rest normalizePath hostError insertion
              (folder settings) h0) as (Hview & Htimers & Hdn & Htemplates).
  set (h1 := fst (ensureFolder (folder settings) h0)) in *.
  assert (Hfree : vault h1 !! pathOf d = None).
  { rewrite Hother; [exact Hnone | congruence]. }
  unfold rejected. rewrite Hfree, !Hacc.
  assert (Ht : truthy (template settings) = true)
    by (now destruct (template settings)).
  rewrite Ht.
  set (h3 := withActiveView (Some (pathOf d, [])) _).
  assert (Hv3 : vault h3 = <[pathOf d := EFile []]> (vault h1)) by reflexivity.
  assert (Hres3 : ResolvesWeekly normalizePath (vault h3) (template settings)
                    tp (EFile tdata)).
  { assert (Hin : forall (p : jsstring) e,
              vault h !! p = Some e -> vault h3 !! p = Some e).
    { intros p e Hp. rewrite Hv3, lookup_insert_ne.
      - now apply Hkept.
      - intros Heq. rewrite Heq in Hnone. congruence. }
    destruct Hres as [[-> E] | (E1 & -> & E2)].
    - left. split; [reflexivity | now apply Hin].
    - right. split; [|split; [reflexivity | now apply Hin]].
      rewrite Hv3, lookup_insert_ne by congruence.
      rewrite Hother by exact Hlitdir. exact E1. }
  destruct (applyTemplate_accepting normalizePath hostError insertion settings
              (pathOf d) d h3 tp tdata [] Hres3 Hacc eq_refl)
    as (after & Eafter & Htimers' & Hview' & Hdn').
  unfold tryCatch. rewrite Eafter. cbn [fst snd].
  assert (Htm3 : timers h3 = timers h) by exact Htimers.
  assert (Htp3 : templates h3 = templates h) by exact Htemplates.
  assert (Hdn3 : dailyNotes h3 = dailyNotes h) by exact Hdn.
  rewrite Htp3 in Hview'. rewrite Htm3 in Htimers'.
  split; [reflexivity|].
  split.
  { destruct (Safe_applyTemplate normalizePath hostError insertion settings
                (pathOf d) d h3) as [Hkeep _].
    rewrite Eafter in Hkeep. apply Hkeep. rewrite Hv3, lookup_insert_eq. eauto. }
  split; [exact Htimers'|].
  cbn [runTask].
  split.
  { apply replaceDatePlaceholders_returns. }
  rewrite (replaceDatePlaceholders_view mformat hostError insertion d after
             _ _ Hview').
  rewrite (rewrite_dailyNotes mformat after h d _) by (now rewrite Hdn', Hdn3).
  split; [reflexivity|]. now rewrite Hdn', Hdn3.
Qed.

End FirstOpenWithTemplate.

(** * The exception of [format] *)

Lemma formatThrows_spec spec : IsSpec spec -> formatThrows spec = false.
Proof.
  intros (c & run & -> & Hc & _). unfold formatThrows. cbn [truthy forallb].
  now rewrite Hc.
Qed.


Lemma token_is_daily pre name spec post :
  IsDayName name -> IsSpec spec -> trim spec = js "daily-note" ->
  ScanSplit pre (tokenText name spec ++ post) ->
  existsb isDailyNotePiece
    (matchAll placeholderRe (pre ++ tokenText name spec ++ post)) = true.
Proof.
  intros Hname Hspec Htrim Hsplit. rewrite Hsplit, existsb_app.
  rewrite matchAll_token by assumption.
  cbn [existsb isDailyNotePiece capture Nat.eqb]. rewrite Htrim.
  rewrite (proj2 (jsstring_eqb_eq _ _) eq_refl). now rewrite orb_true_r.
Qed.

Section ExceptionFacts.
Variable mformat : Moment -> jsstring -> jsstring.
Variable typeError : jsstring.
Variable hostError : App -> Call -> option jsstring.
Variable insertion : jsstring -> jsstring -> jsstring.

Local Abbreviation rewriteEditor_exn :=
  (replaceDatePlaceholders_exn mformat typeError hostError insertion).
Local Abbreviation rewriteEditor :=
  (replaceDatePlaceholders mformat hostError insertion).

Lemma getDailyNoteLink_exn_eq h d :
  getDailyNoteLink_exn mformat typeError h d
  = if dailyFormatThrows h then inr typeError
    else inl (getDailyNoteLink mformat h d).
Proof.
  unfold getDailyNoteLink_exn, getDailyNoteLink, dailyFormatThrows, format_exn.
  destruct (dailyNotes h) as [dn|]; [|reflexivity].
  destruct (Daily.enabled dn); [|reflexivity]. cbn [negb andb].
  destruct (formatThrows _); [reflexivity|].
  now destruct (truthy (orString (Daily.folder (Daily.options dn)) [])).
Qed.

Lemma replacer_exn_token h d text name spec st :
  IsDayName name -> IsSpec spec ->
  replacer_exn mformat typeError h d text [(2%nat, spec); (1%nat, name)] st
  = if dailyFormatThrows h && jsstring_eqb (trim spec) (js "daily-note")
    then inr typeError
    else inl (replacer mformat h d text [(2%nat, spec); (1%nat, name)] st).
Proof.
  intros (w & Hw & Hname) Hspec. unfold replacer_exn, replacer.
  cbn [capture Nat.eqb]. rewrite (toLowerCase_day name w Hw Hname).
  destruct (indexOf_In _ _ Hw) as [i ->].
  rewrite getDailyNoteLink_exn_eq.
  assert (Hymd : forall m, format_exn mformat typeError m (js "YYYY-MM-DD")
                           = inl (mformat m (js "YYYY-MM-DD")))
    by reflexivity.
  destruct (jsstring_eqb (trim spec) (js "daily-note")).
  - rewrite andb_true_r. destruct (dailyFormatThrows h); [reflexivity|].
    destruct (getDailyNoteLink mformat h _) as [link|];
      [destruct (truthy link)|]; rewrite ?Hymd; reflexivity.
  - rewrite andb_false_r. unfold format_exn.
    now rewrite (formatThrows_spec spec Hspec).
Qed.

Lemma substitute_exn_eq h d ps st :
  Forall IsTokenPiece ps ->
  substitute_exn (replacer_exn mformat typeError h d) ps st
  = if dailyFormatThrows h && existsb isDailyNotePiece ps
    then inr typeError
    else inl (substitute (replacer mformat h d) ps st).
Proof.
  intros Hps. revert st.
  induction Hps as [|[c | text caps] ps Hp _ IH]; intros st.
  - now rewrite andb_false_r.
  - cbn [substitute_exn substitute existsb isDailyNotePiece orb]. rewrite IH.
    destruct (dailyFormatThrows h && existsb isDailyNotePiece ps);
      [reflexivity|].
    now destruct (substitute (replacer mformat h d) ps st).
  - destruct Hp as (name & spec & Hname & Hspec & ->).
    cbn [substitute_exn substitute existsb isDailyNotePiece capture Nat.eqb].
    rewrite (replacer_exn_token h d text name spec st Hname Hspec).
    destruct (dailyFormatThrows h); cbn [andb] in *.
    + destruct (jsstring_eqb (trim spec) (js "daily-note")); [reflexivity|].
      cbn [orb].
      destruct (replacer mformat h d text _ st) as [out st1]. rewrite IH.
      destruct (existsb isDailyNotePiece ps); [reflexivity|].
      now destruct (substitute (replacer mformat h d) ps st1).
    + destruct (replacer mformat h d text _ st) as [out st1]. rewrite IH.
      now destruct (substitute (replacer mformat h d) ps st1).
Qed.

Lemma rewrite_exn_eq h d s :
  rewrite_exn mformat typeError h d s
  = if dailyFormatThrows h && existsb isDailyNotePiece (matchAll placeholderRe s)
    then inr typeError
    else inl (rewrite mformat h d s).
Proof. apply substitute_exn_eq, matchAll_tokens. Qed.

Lemma replaceDatePlaceholders_exn_eq d h :
  rewriteEditor_exn d h
  = match activeView h with
    | Some (p, content) =>
        if dailyFormatThrows h
           && existsb isDailyNotePiece (matchAll placeholderRe content)
        then (h, inr typeError)
        else rewriteEditor d h
    | None => (h, inl tt)
    end.
Proof.
  unfold replaceDatePlaceholders_exn, replaceDatePlaceholders.
  unfold bind, gets, id.
  destruct (activeView h) as [[p content]|]; [|reflexivity].
  rewrite rewrite_exn_eq.
  destruct (dailyFormatThrows h && _); [reflexivity|].
  now destruct (rewrite mformat h d content).
Qed.

Lemma replaceDatePlaceholders_exn_returns d h :
  dailyFormatThrows h = false -> rewriteEditor_exn d h = rewriteEditor d h.
Proof.
  intros H. rewrite replaceDatePlaceholders_exn_eq, H. cbn [andb].
  destruct (activeView h) as [[p content]|] eqn:E; [reflexivity|].
  rewrite replaceDatePlaceholders_eq. now rewrite E.
Qed.

End ExceptionFacts.




Lemma dailyFormatThrows_ext h h' :
  dailyNotes h = dailyNotes h' -> dailyFormatThrows h = dailyFormatThrows h'.
Proof. intros H. unfold dailyFormatThrows. now rewrite H. Qed.

(** X1. When the text in the editor contains a token (a weekday name of
    the pattern and a format text of the pattern, between the opening and the
    closing braces) and the formatter does not throw on the format of the
    daily notes, [replaceDatePlaceholders] makes exactly one edit: it calls
    [editor.setValue] once, with the rewritten text, returns, and changes
    nothing else. *)
Theorem token_gives_one_edit
    mformat typeError hostError insertion d h p pre name spec post :
  IsDayName name -> IsSpec spec ->
  activeView h = Some (p, pre ++ tokenText name spec ++ post) ->
  dailyFormatThrows h = false ->
  let out := fst (rewrite mformat h d (pre ++ tokenText name spec ++ post)) in
  replaceDatePlaceholders_exn mformat typeError hostError insertion d h
  = (withActiveView (Some (p, out)) (logged (SetValue out) h), inl tt).
Proof.
  intros Hname Hspec Hview Hreturns out.
  rewrite (replaceDatePlaceholders_exn_returns _ _ _ _ _ _ Hreturns).
  now apply replaceDatePlaceholders_token.
Qed.

Lemma token_gives_one_edit_witness :
  let h := appWithDaily (Some dailyInFolder) (js "a !{{Friday:DD.MM.YYYY}} b") in
  replaceDatePlaceholders_exn momentFormatOr v8TypeError noHostError
    appendTemplate wednesday_2024_03_06 h
  = (withActiveView (Some (weekNote, js "a 08.03.2024 b"))
       (logged (SetValue (js "a 08.03.2024 b")) h), inl tt).
Proof.
  refine (token_gives_one_edit momentFormatOr v8TypeError noHostError
            appendTemplate wednesday_2024_03_06
            (appWithDaily (Some dailyInFolder) (js "a !{{Friday:DD.MM.YYYY}} b"))
            weekNote (js "a ") (js "Friday") (js "DD.MM.YYYY") (js " b")
            _ _ _ _).
  - exists (js "friday"). split; [unfold days; simpl; tauto | reflexivity].
  - eexists _, _. split; [reflexivity|]. split; [reflexivity|].
    repeat constructor; discriminate.
  - reflexivity.
  - reflexivity.
Defined.

(** X2. On every state [replaceDatePlaceholders] leaves the vault, the
    core plugins and the timers as they are and keeps the file of the active
    view. Either it returns, and the only call it can have made is one
    [editor.setValue]; or the formatter has thrown on the format of the
    daily notes, and it ends with that exception and has changed nothing. It
    returns whenever the formatter does not throw on that format. *)
Theorem rewriting_changes_only_the_editor
    mformat typeError hostError insertion d h :
  let r := replaceDatePlaceholders_exn mformat typeError hostError insertion
             d h in
  vault (fst r) = vault h
  /\ dailyNotes (fst r) = dailyNotes h
  /\ templates (fst r) = templates h
  /\ timers (fst r) = timers h
  /\ option_map fst (activeView (fst r)) = option_map fst (activeView h)
  /\ ((snd r = inl tt
       /\ (newCalls h (fst r) = []
           \/ exists content, newCalls h (fst r) = [SetValue content]))
      \/ (snd r = inr typeError /\ fst r = h /\ dailyFormatThrows h = true))
  /\ (dailyFormatThrows h = false -> snd r = inl tt).
Proof.
  cbv zeta. rewrite replaceDatePlaceholders_exn_eq.
  destruct (replaceDatePlaceholders_quiet mformat hostError insertion d h)
    as (Hret & Hv & Hdn & Htp & Htm & Hview & Hcalls).
  destruct (activeView h) as [[p content]|] eqn:E.
  - destruct (dailyFormatThrows h) eqn:Hthrows; cbn [andb].
    + destruct (existsb isDailyNotePiece (matchAll placeholderRe content)).
      * cbn [fst snd]. rewrite E.
        do 5 (split; [reflexivity|]).
        split; [right; now repeat split | discriminate].
      * do 5 (split; [assumption|]).
        split; [left; now split | intros _; assumption].
    + do 5 (split; [assumption|]).
      split; [left; now split | intros _; assumption].
  - cbn [fst snd]. rewrite E, newCalls_0.
    do 5 (split; [reflexivity|]).
    split; [left; split; [reflexivity | now left] | reflexivity].
Qed.

(** X29. The exception of the formatter in the rewriting: when the daily
    notes are enabled with a format that is not empty and has line
    terminators only, and the scan of the text in the editor arrives at a
    token whose format text is [daily-note] once trimmed,
    [replaceDatePlaceholders] ends with the [TypeError] of the formatter; it
    does not call [editor.setValue], and the text in the editor and the rest
    of the state are as they were. *)
Theorem daily_format_exception
    mformat typeError hostError insertion d h p pre name spec post :
  IsDayName name -> IsSpec spec -> trim spec = js "daily-note" ->
  activeView h = Some (p, pre ++ tokenText name spec ++ post) ->
  ScanSplit pre (tokenText name spec ++ post) ->
  dailyFormatThrows h = true ->
  replaceDatePlaceholders_exn mformat typeError hostError insertion d h
  = (h, inr typeError).
Proof.
  intros Hname Hspec Htrim Hview Hsplit Hthrows.
  rewrite replaceDatePlaceholders_exn_eq, Hview, Hthrows.
  now rewrite (token_is_daily pre name spec post Hname Hspec Htrim Hsplit).
Qed.

Lemma daily_format_exception_witness :
  let h := appWithDaily (Some dailyLineFeedFormat)
             (js "[[!{{friday:daily-note}}]]") in
  replaceDatePlaceholders_exn momentFormatOr v8TypeError noHostError
    appendTemplate wednesday_2024_03_06 h
  = (h, inr v8TypeError).
Proof.
  refine (daily_format_exception momentFormatOr v8TypeError noHostError
            appendTemplate wednesday_2024_03_06
            (appWithDaily (Some dailyLineFeedFormat)
               (js "[[!{{friday:daily-note}}]]"))
            weekNote (js "[[") (js "friday") (js "daily-note") (js "]]")
            _ _ _ _ _ _).
  - exists (js "friday"). split; [unfold days; simpl; tauto | reflexivity].
  - eexists _, _. split; [reflexivity|]. split; [reflexivity|].
    repeat constructor; discriminate.
  - vm_compute. reflexivity.
  - reflexivity.
  - vm_compute. reflexivity.
  - reflexivity.
Defined.

(** ** Opening the weekly note, with the exception *)

Section ExceptionOpen.
Variable mformat : Moment -> jsstring -> jsstring.
Variable typeError : jsstring.
Variable normalizePath : jsstring -> jsstring.
Variable hostError : App -> Call -> option jsstring.
Variable insertion : jsstring -> jsstring -> jsstring.
Variable settings : WeeklyNotesSettings.

Local Abbreviation pathOf := (weeklyPath mformat normalizePath settings).

Lemma openWeeklyNote_exn_eq d h :
  openWeeklyNote_exn mformat typeError normalizePath hostError insertion
    settings d h
  = if formatThrows (dateFormat settings)
    then (logged (NewNotice (FailedToOpen typeError)) h, inl tt)
    else openWeeklyNote mformat normalizePath hostError insertion settings d h.
Proof.
  unfold openWeeklyNote_exn, openWeeklyNote, format_exn.
  now destruct (formatThrows (dateFormat settings)).
Qed.

(** X30. [openWeeklyNote] returns without an exception on every state,
    for every host and whatever the settings are, also when the formatter
    throws, and nothing that is in the vault disappears. With a date format
    on which the formatter throws (not empty, line terminators only) the
    notice that it failed, with the [TypeError], is all that happens: no
    lookup, nothing created, nothing opened. *)
Theorem date_format_exception d h :
  let r := openWeeklyNote_exn mformat typeError normalizePath hostError
             insertion settings d h in
  snd r = inl tt
  /\ (forall p, is_Some (vault h !! p) -> is_Some (vault (fst r) !! p))
  /\ (formatThrows (dateFormat settings) = true ->
      fst r = logged (NewNotice (FailedToOpen typeError)) h
      /\ newCalls h (fst r) = [NewNotice (FailedToOpen typeError)]
      /\ vault (fst r) = vault h
      /\ activeView (fst r) = activeView h
      /\ timers (fst r) = timers h).
Proof.
  cbv zeta. rewrite openWeeklyNote_exn_eq.
  destruct (formatThrows (dateFormat settings)).
  - cbn [fst snd]. split; [reflexivity|]. split; [auto|].
    intros _. rewrite newCalls_1. now repeat split.
  - split; [apply tryCatch_notice|].
    split; [|discriminate].
    apply (Safe_openWeeklyNote mformat normalizePath hostError insertion
             settings d h).
Qed.

(** X12. The first run for a date, on a host that accepts every call,
    with a date format on which the formatter does not throw and with no
    template in the settings: when nothing is at the computed path (and the
    path is not the notes folder itself), [openWeeklyNote] looks the path up,
    sees to the folder, creates the note with empty content, shows the
    notice of the creation and opens the note. Afterwards the note is in the
    vault and in the active view, the rest of the vault (but for the folder)
    is as before, and no timer has been set. *)
Theorem first_open_creates_empty_note d h :
  formatThrows (dateFormat settings) = false ->
  (forall h' c, hostError h' c = None) ->
  vault h !! pathOf d = None ->
  normalizePath (folder settings) <> pathOf d ->
  template settings = [] ->
  let r := openWeeklyNote_exn mformat typeError normalizePath hostError
             insertion settings d h in
  snd r = inl tt
  /\ vault (fst r) !! pathOf d = Some (EFile [])
  /\ activeView (fst r) = Some (pathOf d, [])
  /\ timers (fst r) = timers h
  /\ (forall p, p <> pathOf d -> p <> normalizePath (folder settings) ->
        vault (fst r) !! p = vault h !! p)
  /\ exists t,
       forallb isFolderCall t = true
       /\ newCalls h (fst r)
          = Lookup (pathOf d) :: t
            ++ [Create (pathOf d) [];
                NewNotice (CreatedWeeklyNote (mformat d (dateFormat settings)));
                OpenFile (pathOf d)].
Proof.
  intros Hreturns Hacc Hnone Hdir Htpl. cbv zeta.
  rewrite openWeeklyNote_exn_eq, Hreturns.
  now apply openWeeklyNote_first_open.
Qed.

(** X19. From the template to the dates: on a host that accepts every
    call, when the template resolves to a file, the editor shows the note
    and the formatter does not throw on the format of the daily notes,
    [applyTemplate] sets its timer, and once that timer has fired the editor
    holds the rewritten template text: what the Templates core plugin has
    made of the editor content, or the content of the template file when
    that plugin is not enabled, with the tokens replaced for the date of the
    note. *)
Theorem template_placeholders_are_replaced file d h tp tdata old :
  ResolvesWeekly normalizePath (vault h) (template settings) tp (EFile tdata) ->
  (forall h' c, hostError h' c = None) ->
  activeView h = Some (file, old) ->
  dailyFormatThrows h = false ->
  let r := applyTemplate normalizePath hostError insertion settings file d h in
  let fired := runTask_exn mformat typeError hostError insertion
                 (ReplacePlaceholders d) (fst r) in
  let body :=
    match templates h with
    | Some true => insertion tdata old
    | _ => tdata
    end in
  timers (fst r) = timers h ++ [(100, ReplacePlaceholders d)]
  /\ snd fired = inl tt
  /\ activeView (fst fired) = Some (file, fst (rewrite mformat h d body)).
Proof.
  intros Hres Hacc Hview Hreturns. cbv zeta.
  destruct (applyTemplate_accepting normalizePath hostError insertion settings
              file d h tp tdata old Hres Hacc Hview)
    as (after & Eafter & Htimers & Hview' & Hdn).
  rewrite Eafter. cbn [fst runTask_exn].
  rewrite replaceDatePlaceholders_exn_returns
    by (now rewrite (dailyFormatThrows_ext after h Hdn)).
  split; [exact Htimers|].
  split; [apply replaceDatePlaceholders_returns|].
  rewrite (replaceDatePlaceholders_view mformat hostError insertion d after
             _ _ Hview').
  now rewrite (rewrite_dailyNotes mformat after h d _ Hdn).
Qed.

(** X28. The first open of a week with a template, from the command to
    the dates: on a host that accepts every call, when the formatter throws
    neither on the date format nor on the format of the daily notes,
    nothing is at the computed path, the template resolves to a file and the
    paths of the note, of the notes folder and of the template differ,
    [openWeeklyNote] creates and opens the note, applies the template and
    sets the timer of 100 ms; once that timer has fired the editor shows the
    note with the text of the template (what the Templates core plugin makes
    of the empty note, or the content of the template file when that plugin
    is not enabled) in which the tokens are replaced for the date of the
    note. *)
Theorem first_open_applies_template d h tp tdata :
  formatThrows (dateFormat settings) = false ->
  dailyFormatThrows h = false ->
  (forall h' c, hostError h' c = None) ->
  vault h !! pathOf d = None ->
  normalizePath (folder settings) <> pathOf d ->
  template settings <> [] ->
  ResolvesWeekly normalizePath (vault h) (template settings) tp (EFile tdata) ->
  normalizePath (template settings) <> pathOf d ->
  normalizePath (template settings) <> normalizePath (folder settings) ->
  let r := openWeeklyNote_exn mformat typeError normalizePath hostError
             insertion settings d h in
  let fired := runTask_exn mformat typeError hostError insertion
                 (ReplacePlaceholders d) (fst r) in
  let body :=
    match templates h with
    | Some true => insertion tdata []
    | _ => tdata
    end in
  snd r = inl tt
  /\ is_Some (vault (fst r) !! pathOf d)
  /\ timers (fst r) = timers h ++ [(100, ReplacePlaceholders d)]
  /\ snd fired = inl tt
  /\ activeView (fst fired) = Some (pathOf d, fst (rewrite mformat h d body)).
Proof.
  intros Hdate Hdaily Hacc Hnone Hdir Htpl Hres Hlit Hlitdir. cbv zeta.
  rewrite openWeeklyNote_exn_eq, Hdate.
  destruct (openWeeklyNote_first_template mformat normalizePath hostError
              insertion settings d h tp tdata
              Hacc Hnone Hdir Htpl Hres Hlit Hlitdir)
    as (Hret & Hnote & Htimers & Hfired & Hview & Hdn).
  cbn [runTask_exn runTask] in *.
  rewrite replaceDatePlaceholders_exn_returns
    by (now rewrite (dailyFormatThrows_ext _ h Hdn)).
  now repeat split.
Qed.

End ExceptionOpen.

Lemma date_format_exception_witness :
  fst (openWeeklyNote_exn momentFormatOr v8TypeError samePath noHostError
         appendTemplate lineFeedSettings wednesday_2024_03_06 emptyApp)
  = logged (NewNotice (FailedToOpen v8TypeError)) emptyApp.
Proof.
  apply (proj2 (proj2
    (date_format_exception momentFormatOr v8TypeError samePath noHostError
       appendTemplate lineFeedSettings wednesday_2024_03_06 emptyApp))).
  reflexivity.
Defined.

Lemma first_open_creates_empty_note_witness :
  let r := openWeeklyNote_exn momentFormatOr v8TypeError samePath noHostError
             appendTemplate weeklySettings wednesday_2024_03_06 emptyApp in
  vault (fst r) !! js "Weekly/Week of 2024-03-06.md" = Some (EFile [])
  /\ activeView (fst r) = Some (js "Weekly/Week of 2024-03-06.md", []).
Proof.
  pose proof (first_open_creates_empty_note momentFormatOr v8TypeError samePath
                noHostError appendTemplate weeklySettings
                wednesday_2024_03_06 emptyApp) as H.
  cbv zeta in H.
  destruct H as (_ & Hv & Ha & _).
  - reflexivity.
  - reflexivity.
  - reflexivity.
  - vm_compute. discriminate.
  - reflexivity.
  - split; [exact Hv | exact Ha].
Defined.

Lemma template_placeholders_are_replaced_witness :
  activeView
    (fst (runTask_exn momentFormatOr v8TypeError noHostError appendTemplate
            (ReplacePlaceholders wednesday_2024_03_06)
            (fst (applyTemplate samePath noHostError appendTemplate
                    templateSettings weekNote wednesday_2024_03_06
                    (appForTemplate vaultWithTemplate None)))))
  = Some (weekNote, js "Mon 2024-03-04").
Proof.
  pose proof (template_placeholders_are_replaced momentFormatOr v8TypeError
                samePath noHostError appendTemplate templateSettings weekNote
                wednesday_2024_03_06 (appForTemplate vaultWithTemplate None)
                (js "Templates/Weekly.md") weeklyTemplateText []) as H.
  cbv zeta in H.
  destruct H as (_ & _ & Ha).
  - right. repeat split; vm_compute; reflexivity.
  - reflexivity.
  - reflexivity.
  - reflexivity.
  - etransitivity; [exact Ha|]. vm_compute. reflexivity.
Defined.

Lemma first_open_applies_template_witness :
  let r := openWeeklyNote_exn momentFormatOr v8TypeError samePath noHostError
             appendTemplate templateSettings wednesday_2024_03_06
             appBeforeFirstOpen in
  activeView
    (fst (runTask_exn momentFormatOr v8TypeError noHostError appendTemplate
            (ReplacePlaceholders wednesday_2024_03_06) (fst r)))
  = Some (js "Weekly/2024-03-06.md", js "Mon 2024-03-04").
Proof.
  pose proof (first_open_applies_template momentFormatOr v8TypeError samePath
                noHostError appendTemplate templateSettings
                wednesday_2024_03_06 appBeforeFirstOpen
                (js "Templates/Weekly.md") weeklyTemplateText) as H.
  cbv zeta in H.
  destruct H as (_ & _ & _ & _ & Ha).
  - reflexivity.
  - reflexivity.
  - reflexivity.
  - reflexivity.
  - vm_compute. discriminate.
  - discriminate.
  - right. repeat split; vm_compute; reflexivity.
  - vm_compute. discriminate.
  - vm_compute. discriminate.
  - etransitivity; [exact Ha|]. vm_compute. reflexivity.
Defined.
